(** * Download Organizer: a shallow embedding of [organizer.py] and
      [watch_downloads.py], and the properties of its classifier, conflict
      resolver, mover, batch pass and watch-mode event handler.

    Conventions of the embedding.
    - Python [str] is [string]; the development is about ASCII names, on
      which [str.lower] is the map [lower] below.
    - Python [int] is [Z].
    - A [pathlib.Path] is the list of its segments, root first; [p / s]
      appends the segment [s] (every right operand in the program is a name
      taken from a directory entry, a name built by the conflict resolver,
      or a configured destination, which is kept as one relative segment).
    - The file system is an interface ([Filesystem]): the program only
      consumes its primitives, and every theorem holds for every
      implementation of the interface.  In the interface [exists],
      [is_file], [is_dir] and [iterdir] of an existing directory always
      answer; [stat], [mkdir], [shutil.move] and the walk of [rglob] may
      fail.  The two directories of the configuration are held as
      [_expand_path] returned them.
    - Methods that mutate [self.stats], log, touch the file system or raise
      are computations in a state-and-exception monad over [World]. *)

From Stdlib Require Import ZArith Ascii String List Bool Lia.
From stdpp Require Import base decidable option list gmap strings pretty.

Local Open Scope string_scope.
Local Open Scope Z_scope.

(** ** Python strings *)

Module PyStr.

Definition lower_ascii (c : ascii) : ascii :=
  let n := N_of_ascii c in
  if ((65 <=? n) && (n <=? 90))%N then ascii_of_N (n + 32) else c.

(** [s.lower()] *)
Fixpoint lower (s : string) : string :=
  match s with
  | EmptyString => EmptyString
  | String c s' => String (lower_ascii c) (lower s')
  end.

(** [len(s)] *)
Definition len (s : string) : Z := Z.of_nat (String.length s).

(** [s.rfind(c)] for a one-character [c]: the highest index of [c] in
    [s], or [-1]. *)
Fixpoint rfind (c : ascii) (s : string) : Z :=
  match s with
  | EmptyString => -1
  | String a s' =>
      let r := rfind c s' in
      if 0 <=? r then r + 1
      else if Ascii.eqb a c then 0 else -1
  end.

(** [s[:n]] and [s[n:]] for [0 <= n]. *)
Fixpoint take (n : nat) (s : string) : string :=
  match n, s with
  | S n', String c s' => String c (take n' s')
  | _, _ => EmptyString
  end.

Fixpoint drop (n : nat) (s : string) : string :=
  match n, s with
  | S n', String _ s' => drop n' s'
  | _, _ => s
  end.

(** [s.startswith(p)] *)
Fixpoint startswith (p s : string) : bool :=
  match p, s with
  | EmptyString, _ => true
  | String a p', String b s' => Ascii.eqb a b && startswith p' s'
  | String _ _, EmptyString => false
  end.

(** [p in s] on strings: [p] occurs in [s] as a substring. *)
Fixpoint contains (p s : string) : bool :=
  startswith p s ||
  match s with
  | EmptyString => false
  | String _ s' => contains p s'
  end.

End PyStr.

(** ** pathlib *)

Module Pathlib.
Import PyStr.

Definition Path : Type := list string.

(** [p / s] *)
Definition joinpath (p : Path) (s : string) : Path := (p ++ [s])%list.

(** [p.name]: the final segment, [''] for the root. *)
Definition name (p : Path) : string := List.last p EmptyString.

(** [p.parent]: the root is its own parent. *)
Definition parent (p : Path) : Path := List.removelast p.

Definition has_ext (nm : string) : bool :=
  let i := rfind "." nm in
  (0 <? i) && (i <? len nm - 1).

(** [PurePath.suffix]:
    [i = name.rfind('.'); name[i:] if 0 < i < len(name) - 1 else '']. *)
Definition suffix_of (nm : string) : string :=
  if has_ext nm then drop (Z.to_nat (rfind "." nm)) nm else EmptyString.

(** [PurePath.stem]:
    [i = name.rfind('.'); name[:i] if 0 < i < len(name) - 1 else name]. *)
Definition stem_of (nm : string) : string :=
  if has_ext nm then take (Z.to_nat (rfind "." nm)) nm else nm.

Definition suffix (p : Path) : string := suffix_of (name p).
Definition stem (p : Path) : string := stem_of (name p).

End Pathlib.

Export Pathlib.

Notation "p // s" := (joinpath p s) (at level 40, left associativity).


(** ** Exceptions, outcomes and the state-and-exception monad *)

(** The instances of [Exception] the program distinguishes:
    [PermissionError] and [shutil.Error] are subclasses of [OSError];
    [OSError] stands for every other [OSError]; [RuntimeError] for every
    [Exception] that is not an [OSError]. *)
Inductive exn : Type :=
| PermissionError
| ShutilError
| OSError
| RuntimeError.

Inductive exn_class : Type :=
| ClsPermissionError
| ClsShutilError
| ClsOSError
| ClsException.

(** [isinstance(e, cls)] *)
Definition isinstance (e : exn) (cls : exn_class) : bool :=
  match cls, e with
  | ClsPermissionError, PermissionError => true
  | ClsPermissionError, _ => false
  | ClsShutilError, ShutilError => true
  | ClsShutilError, _ => false
  | ClsOSError, RuntimeError => false
  | ClsOSError, _ => true
  | ClsException, _ => true
  end.

(** The outcome of a call: a value, a raised exception, or the loop bound
    of the embedding reached ([OutOfFuel] is not an exception: no handler
    sees it). *)
Inductive result (A : Type) : Type :=
| Return (a : A)
| Raise (e : exn)
| OutOfFuel.

Arguments Return {A} a.
Arguments Raise {A} e.
Arguments OutOfFuel {A}.

(** The outcome of a file-system primitive: it answers or it raises. *)
Inductive outcome (A : Type) : Type :=
| Ok (a : A)
| Err (e : exn).

Arguments Ok {A} a.
Arguments Err {A} e.

Definition of_outcome {A : Type} (o : outcome A) : result A :=
  match o with
  | Ok a => Return a
  | Err e => Raise e
  end.

Module Monad.

Definition M (S A : Type) : Type := S -> result A * S.

Definition ret {S A} (a : A) : M S A := fun s => (Return a, s).

Definition bind {S A B} (m : M S A) (k : A -> M S B) : M S B :=
  fun s =>
    match m s with
    | (Return a, s') => k a s'
    | (Raise e, s') => (Raise e, s')
    | (OutOfFuel, s') => (OutOfFuel, s')
    end.

Definition raise {S A} (e : exn) : M S A := fun s => (Raise e, s).

Definition gets {S A} (f : S -> A) : M S A := fun s => (Return (f s), s).

Definition modify {S} (f : S -> S) : M S unit := fun s => (Return tt, f s).

(** [try: body  except cls_1: ...  except cls_n: ...].  The handler table
    answers [None] for an exception no clause matches, which then
    propagates. *)
Definition try_except {S A} (body : M S A) (handler : exn -> option (M S A))
  : M S A :=
  fun s =>
    match body s with
    | (Raise e, s') =>
        match handler e with
        | Some h => h s'
        | None => (Raise e, s')
        end
    | r => r
    end.

(** [try: body  finally: fin].  [fin] runs whether [body] returns or
    raises; the outcome of [body] stands unless [fin] itself raises. *)
Definition try_finally {S A} (body : M S A) (fin : M S unit) : M S A :=
  fun s =>
    match body s with
    | (OutOfFuel, s') => (OutOfFuel, s')
    | (r, s') =>
        match fin s' with
        | (Return _, s'') => (r, s'')
        | (Raise e, s'') => (Raise e, s'')
        | (OutOfFuel, s'') => (OutOfFuel, s'')
        end
    end.

(** [for x in l: body(x)] *)
Fixpoint for_each {S A} (l : list A) (body : A -> M S unit) : M S unit :=
  match l with
  | [] => ret tt
  | x :: l' => bind (body x) (fun _ => for_each l' body)
  end.

(** Run a computation on a component of a larger state. *)
Definition zoom {S T A} (get : T -> S) (set : S -> T -> T) (m : M S A)
  : M T A :=
  fun t => let (r, s') := m (get t) in (r, set s' t).

End Monad.

Export Monad.

Notation "'let!' x ':=' m 'in' k" := (bind m (fun x => k))
  (at level 10, x name, m at level 100, k at level 200).
Notation "m >>> k" := (bind m (fun _ => k))
  (at level 90, right associativity).

(** ** Data model of [organizer.py] *)

(** [OrganizationStats] *)
Record OrganizationStats : Type := mkStats {
  files_moved : Z;
  folders_moved : Z;
  errors : Z;
  skipped : Z;
  conflicts_resolved : Z;
  categories : gmap string Z   (* defaultdict(int) *)
}.

Definition OrganizationStats_init : OrganizationStats := mkStats 0 0 0 0 0 ∅.

(** [stats.categories[c]] on a [defaultdict(int)] *)
Definition category_count (st : OrganizationStats) (c : string) : Z :=
  default 0 (categories st !! c).

(** One entry of [config['file_types']]; an absent key is [None]. *)
Record FileTypeInfo : Type := mkInfo {
  ft_extensions : option (list string);
  ft_destination : option string
}.

(** [config['settings']] *)
Record Settings : Type := mkSettings {
  create_directories : option bool;
  handle_conflicts : option bool;
  skip_hidden_files : option bool;
  dry_run : option bool
}.

(** [config['folders']] *)
Record FolderConfig : Type := mkFolders {
  compressed_destination : option string;
  regular_destination : option string
}.

(** The loaded configuration.  [file_types] keeps the order of the YAML
    mapping, which is the order [dict.items()] iterates in.  The two
    directories are stored as [_expand_path] returns them. *)
Record Config : Type := mkConfig {
  source_directory : Path;
  base_destination : Path;
  file_types : option (list (string * FileTypeInfo));
  other_destination : option string;
  settings : option Settings;
  folders : option FolderConfig
}.

(** Log records: the level and what the message reports. *)
Inductive Level : Type := DEBUG | INFO | WARNING | ERROR.

Inductive Message : Type :=
| WouldMove (name : string) (dest : Path)
| Moving (name : string) (dest : Path)
| Moved (name : string)
| PermissionDenied (name : string)
| ErrorMoving (name : string) (e : exn)
| UnexpectedError (name : string) (e : exn)
| CouldNotFullyCheck (name : string) (e : exn)
| WouldMoveFolder (name : string) (dest : Path)
| MovingFolder (name : string) (dest : Path)
| MovedFolder (name : string)
| ErrorMovingFolder (name : string) (e : exn)
| SourceMissing (dir : Path)
| Starting (dir : Path)
| DryRunMode
| Skipping (name : string)
| ProcessingFolders
| SkippingFolder (name : string)
| Completed
| FatalError (e : exn)
| NewFileDetected (name : string)
| FileCompleted (name : string)
| FileNoLongerExists (name : string)
| Organized (name : string)
| FailedToOrganize (name : string)
| ErrorOrganizing (name : string) (e : exn).

(** ** The file-system interface *)

(** What [folder.rglob('*')] yields, lazily: items one at a time, and
    possibly an error in the middle of the walk. *)
Inductive Traversal : Type :=
| TEnd
| TYield (item : Path) (rest : Traversal)
| TFail (e : exn).

Class Filesystem (FS : Type) : Type := {
  (** the paths [p] with [p.exists()] *)
  existing : FS -> gset Path;
  is_file : FS -> Path -> bool;
  is_dir : FS -> Path -> bool;
  (** the listing [dir.iterdir()] takes when the loop starts *)
  iterdir : FS -> Path -> list Path;
  rglob : FS -> Path -> Traversal;
  (** [p.stat().st_size] *)
  st_size : FS -> Path -> outcome Z;
  (** [d.mkdir(parents=True, exist_ok=True)] *)
  mkdir : Path -> FS -> outcome unit * FS;
  (** [shutil.move(str(src), str(dst))] *)
  shutil_move : Path -> Path -> FS -> outcome unit * FS;
  (** what the rest of the system does to the files during a
      [time.sleep] *)
  sleep : FS -> FS
}.

(** What the live-versus-dry comparison of a pass assumes of the file
    system: a listing has no repetition and consists of existing children
    of the directory; creating a directory, and moving a regular file,
    leave every other existing path in place and of the same kind. *)
Class FilesystemLaws (FS : Type) `{Filesystem FS} : Prop := {
  iterdir_NoDup : forall (fs0 : FS) (d : Path), NoDup (iterdir fs0 d);
  iterdir_child :
    forall (fs0 : FS) (d q : Path), q ∈ iterdir fs0 d -> q = d // name q;
  iterdir_existing :
    forall (fs0 : FS) (d q : Path), q ∈ iterdir fs0 d -> q ∈ existing fs0;
  mkdir_keeps :
    forall (fs0 : FS) (d q : Path),
      q ∈ existing fs0 ->
      q ∈ existing (mkdir d fs0).2 /\
      is_file (mkdir d fs0).2 q = is_file fs0 q;
  move_keeps :
    forall (fs0 : FS) (s d q : Path),
      is_file fs0 s = true ->
      q ∈ existing fs0 -> q <> s -> q <> d ->
      q ∈ existing (shutil_move s d fs0).2 /\
      is_file (shutil_move s d fs0).2 q = is_file fs0 q
}.

(** [p.exists()] *)
Definition path_exists {FS} `{Filesystem FS} (fs : FS) (p : Path) : bool :=
  bool_decide (p ∈ existing fs).

(** The state the organizer works on: the file system, [self.stats] and
    the records sent to [self.logger], oldest first. *)
Record World (FS : Type) : Type := mkWorld {
  fs : FS;
  stats : OrganizationStats;
  log : list (Level * Message)
}.

Arguments mkWorld {FS} fs stats log.
Arguments fs {FS} w.
Arguments stats {FS} w.
Arguments log {FS} w.

(** ** [class DownloadOrganizer] *)

Module Organizer.

Section Methods.

Context {FS : Type} `{Filesystem FS}.

(** [self.config] *)
Variable config : Config.

Abbreviation OM := (M (World FS)).

(** [self.config.get('settings', {}).get(key, dflt)] *)
Definition setting (key : Settings -> option bool) (dflt : bool) : bool :=
  default dflt (settings config ≫= key).

(** [self.logger.<level>(msg)] *)
Definition logger (lvl : Level) (msg : Message) : OM unit :=
  modify (fun w => mkWorld (fs w) (stats w) (log w ++ [(lvl, msg)])%list).

Definition update_stats (f : OrganizationStats -> OrganizationStats)
  : OM unit :=
  modify (fun w => mkWorld (fs w) (f (stats w)) (log w)).

(** [self.stats.files_moved += 1] and its four siblings *)
Definition incr_files_moved (st : OrganizationStats) : OrganizationStats :=
  mkStats (files_moved st + 1) (folders_moved st) (errors st) (skipped st)
    (conflicts_resolved st) (categories st).

Definition incr_folders_moved (st : OrganizationStats) : OrganizationStats :=
  mkStats (files_moved st) (folders_moved st + 1) (errors st) (skipped st)
    (conflicts_resolved st) (categories st).

Definition incr_errors (st : OrganizationStats) : OrganizationStats :=
  mkStats (files_moved st) (folders_moved st) (errors st + 1) (skipped st)
    (conflicts_resolved st) (categories st).

Definition incr_skipped (st : OrganizationStats) : OrganizationStats :=
  mkStats (files_moved st) (folders_moved st) (errors st) (skipped st + 1)
    (conflicts_resolved st) (categories st).

Definition incr_conflicts_resolved (st : OrganizationStats)
  : OrganizationStats :=
  mkStats (files_moved st) (folders_moved st) (errors st) (skipped st)
    (conflicts_resolved st + 1) (categories st).

(** [self.stats.categories[c] += 1] *)
Definition incr_category (c : string) (st : OrganizationStats)
  : OrganizationStats :=
  mkStats (files_moved st) (folders_moved st) (errors st) (skipped st)
    (conflicts_resolved st) (<[c := category_count st c + 1]> (categories st)).

(** A primitive that changes the file system, run on the world. *)
Definition on_fs (op : FS -> outcome unit * FS) : OM unit :=
  fun w =>
    let (r, fs') := op (fs w) in
    (of_outcome r, mkWorld fs' (stats w) (log w)).

(** The [for category, info in ...items()] loop of
    [_get_destination_for_file], with its fall-through to the "other"
    bucket. *)
Fixpoint destination_loop (extension : string) (base_dest : Path)
    (items : list (string * FileTypeInfo)) : OM Path :=
  match items with
  | [] =>
      let other_dest := default "Other" (other_destination config) in
      update_stats (incr_category "other") >>>
      ret (base_dest // other_dest)
  | (category, info) :: items' =>
      let extensions := default [] (ft_extensions info) in
      if bool_decide (extension ∈ extensions) then
        let dest_folder := default category (ft_destination info) in
        update_stats (incr_category category) >>>
        ret (base_dest // dest_folder)
      else destination_loop extension base_dest items'
  end.

Definition _get_destination_for_file (file_path : Path) : OM Path :=
  let extension := PyStr.lower (suffix file_path) in
  let base_dest := base_destination config in
  destination_loop extension base_dest (default [] (file_types config)).

(** [f"{stem}_{counter}{suffix}"] under [parent] *)
Definition numbered (parent : Path) (stem sfx : string) (counter : Z) : Path :=
  parent // (stem +:+ "_" +:+ pretty counter +:+ sfx).

(** The [while dest_path.exists()] loop of [_resolve_conflict]; [fuel]
    bounds the number of tests of the loop condition. *)
Fixpoint resolve_loop (fuel : nat) (fs0 : FS) (parent : Path)
    (stem sfx : string) (dest_path : Path) (counter : Z) : result Path :=
  match fuel with
  | O => OutOfFuel
  | S fuel' =>
      if path_exists fs0 dest_path then
        resolve_loop fuel' fs0 parent stem sfx
          (numbered parent stem sfx counter) (counter + 1)
      else Return dest_path
  end.

(** [_resolve_conflict].  The loop is given one more test than there are
    existing paths, which [resolve_loop_enough] shows is always enough. *)
Definition _resolve_conflict (dest_path : Path) : OM Path :=
  let! present := gets (fun w => path_exists (fs w) dest_path) in
  if negb present then ret dest_path
  else
    update_stats incr_conflicts_resolved >>>
    fun w =>
      (resolve_loop (S (size (existing (fs w)))) (fs w) (parent dest_path)
         (stem dest_path) (suffix dest_path) dest_path 1, w).

Definition _should_skip_file (file_path : Path) : bool :=
  setting skip_hidden_files true && PyStr.startswith "." (name file_path).

(** The three [except] clauses of [_move_file], in order. *)
Definition move_file_handler (source : Path) (e : exn) : option (OM bool) :=
  if isinstance e ClsPermissionError then
    Some (logger ERROR (PermissionDenied (name source)) >>>
          update_stats incr_errors >>> ret false)
  else if isinstance e ClsShutilError then
    Some (logger ERROR (ErrorMoving (name source) e) >>>
          update_stats incr_errors >>> ret false)
  else if isinstance e ClsException then
    Some (logger ERROR (UnexpectedError (name source) e) >>>
          update_stats incr_errors >>> ret false)
  else None.

(** The [try] block of [_move_file]. *)
Definition move_file_body (source destination_folder : Path) (dry_run : bool)
  : OM bool :=
  (if setting create_directories true then
     if negb dry_run then on_fs (mkdir destination_folder) else ret tt
   else ret tt) >>>
  let dest_path := destination_folder // name source in
  let! dest_path :=
    (if setting handle_conflicts true then _resolve_conflict dest_path
     else ret dest_path) in
  (if dry_run then
     logger INFO (WouldMove (name source) dest_path)
   else
     logger INFO (Moving (name source) dest_path) >>>
     on_fs (shutil_move source dest_path) >>>
     logger INFO (Moved (name source))) >>>
  update_stats incr_files_moved >>>
  ret true.

Definition _move_file (source destination_folder : Path) (dry_run : bool)
  : OM bool :=
  try_except (move_file_body source destination_folder dry_run)
    (move_file_handler source).

(** The extensions of every category whose destination mentions
    "compressed". *)
Definition compressed_exts : gset string :=
  foldl
    (fun acc (entry : string * FileTypeInfo) =>
       let info := entry.2 in
       if PyStr.contains "compressed"
            (PyStr.lower (default "" (ft_destination info)))
       then acc ∪ list_to_set (default [] (ft_extensions info))
       else acc)
    ∅ (default [] (file_types config)).

(** The [for item in folder_path.rglob('*')] loop of
    [_is_compressed_folder]: [Return true] is its [return True],
    [Return false] is the loop running out. *)
Fixpoint scan_folder (exts : gset string) (fs0 : FS) (t : Traversal)
  : result bool :=
  match t with
  | TEnd => Return false
  | TYield item rest =>
      if is_file fs0 item && bool_decide (PyStr.lower (suffix item) ∈ exts)
      then Return true
      else scan_folder exts fs0 rest
  | TFail e => Raise e
  end.

Definition _is_compressed_folder (folder_path : Path) : OM bool :=
  let exts := compressed_exts in
  if bool_decide (PyStr.lower (suffix folder_path) ∈ exts) then ret true
  else
    try_except
      (fun w => (scan_folder exts (fs w) (rglob (fs w) folder_path), w))
      (fun e =>
         if isinstance e ClsPermissionError || isinstance e ClsOSError then
           Some (logger WARNING (CouldNotFullyCheck (name folder_path) e) >>>
                 ret false)
         else None).

(** The [try] block of [_move_folder]. *)
Definition move_folder_body (source destination_folder : Path)
    (dry_run : bool) : OM bool :=
  (if setting create_directories true then
     if negb dry_run then on_fs (mkdir destination_folder) else ret tt
   else ret tt) >>>
  let dest_path := destination_folder // name source in
  let! dest_path :=
    (if setting handle_conflicts true then _resolve_conflict dest_path
     else ret dest_path) in
  (if dry_run then
     logger INFO (WouldMoveFolder (name source) dest_path)
   else
     logger INFO (MovingFolder (name source) dest_path) >>>
     on_fs (shutil_move source dest_path) >>>
     logger INFO (MovedFolder (name source))) >>>
  update_stats incr_folders_moved >>>
  ret true.

(** The single [except Exception] clause of [_move_folder]. *)
Definition move_folder_handler (source : Path) (e : exn) : option (OM bool) :=
  if isinstance e ClsException then
    Some (logger ERROR (ErrorMovingFolder (name source) e) >>>
          update_stats incr_errors >>> ret false)
  else None.

Definition _move_folder (source destination_folder : Path) (dry_run : bool)
  : OM bool :=
  try_except (move_folder_body source destination_folder dry_run)
    (move_folder_handler source).

(** The body of the [for item in source_dir.iterdir()] loop of
    [organize_files].  A [Path] is always truthy, so [if dest_folder:]
    always takes its branch. *)
Definition organize_item (dry_run : bool) (item : Path) : OM unit :=
  let! isf := gets (fun w => is_file (fs w) item) in
  if isf then
    if _should_skip_file item then
      logger DEBUG (Skipping (name item)) >>>
      update_stats incr_skipped
    else
      let! dest_folder := _get_destination_for_file item in
      let! _ := _move_file item dest_folder dry_run in
      ret tt
  else ret tt.

Definition organize_files (dry_run : bool) : OM unit :=
  let source_dir := source_directory config in
  let! present := gets (fun w => path_exists (fs w) source_dir) in
  if negb present then logger ERROR (SourceMissing source_dir)
  else
    logger INFO (Starting source_dir) >>>
    (if dry_run then logger INFO DryRunMode else ret tt) >>>
    let! items := gets (fun w => iterdir (fs w) source_dir) in
    for_each items (organize_item dry_run).

Definition organize_folder_item (compressed_dest regular_dest : Path)
    (dry_run : bool) (item : Path) : OM unit :=
  let! isd := gets (fun w => is_dir (fs w) item) in
  if isd then
    if _should_skip_file item then
      logger DEBUG (SkippingFolder (name item)) >>>
      update_stats incr_skipped
    else
      let! compressed := _is_compressed_folder item in
      if compressed then
        let! _ := _move_folder item compressed_dest dry_run in ret tt
      else
        let! _ := _move_folder item regular_dest dry_run in ret tt
  else ret tt.

(** [dir.iterdir()] where nothing has checked that [dir] exists: listing
    a missing directory raises [FileNotFoundError], an [OSError]. *)
Definition listing (dir : Path) : OM (list Path) :=
  fun w =>
    if path_exists (fs w) dir then (Return (iterdir (fs w) dir), w)
    else (Raise OSError, w).

Definition organize_folders (dry_run : bool) : OM unit :=
  let source_dir := source_directory config in
  let base_dest := base_destination config in
  let compressed_dest :=
    base_dest // default "Compressed Folders"
                   (folders config ≫= compressed_destination) in
  let regular_dest :=
    base_dest // default "Folders" (folders config ≫= regular_destination) in
  logger INFO ProcessingFolders >>>
  let! items := listing source_dir in
  for_each items (organize_folder_item compressed_dest regular_dest dry_run).

(** [run], without the printed summary. *)
Definition run (include_folders dry_run : bool) : OM unit :=
  try_except
    (organize_files dry_run >>>
     (if include_folders then organize_folders dry_run else ret tt) >>>
     logger INFO Completed)
    (fun e =>
       if isinstance e ClsException then Some (logger ERROR (FatalError e))
       else None).

End Methods.

(** [main]: the effective dry-run flag of a batch run. *)
Definition main_dry_run (args_dry_run : bool) (config : Config) : bool :=
  args_dry_run || setting config dry_run false.

End Organizer.

Export Organizer.

(** ** [class DownloadEventHandler] of [watch_downloads.py] *)

Module Watcher.

(** A watchdog event: [event.is_directory] and [Path(event.src_path)]. *)
Record Event : Type := mkEvent {
  is_directory : bool;
  src_path : Path
}.

Inductive EventKind : Type := Created | Modified.

(** The handler object: [self.processing] and the organizer it drives. *)
Record Handler (FS : Type) : Type := mkHandler {
  processing : gset Path;
  organizer : World FS
}.

Arguments mkHandler {FS} processing organizer.
Arguments processing {FS} h.
Arguments organizer {FS} h.

Definition temp_extensions : gset string :=
  {[ ".crdownload"; ".tmp"; ".part"; ".download" ]}.

Definition temp_prefixes : list string := [ "~"; "." ].

Definition _is_temporary_file (file_path : Path) : bool :=
  if bool_decide (PyStr.lower (suffix file_path) ∈ temp_extensions) then true
  else if existsb (fun prefix => PyStr.startswith prefix (name file_path))
            temp_prefixes
  then true
  else false.

Section Methods.

Context {FS : Type} `{Filesystem FS}.

Variable config : Config.

Abbreviation OM := (M (World FS)).
Abbreviation HM := (M (Handler FS)).

(** A method of the organizer, called through [self.organizer]. *)
Definition on_organizer {A} (m : OM A) : HM A :=
  zoom organizer (fun w h => mkHandler (processing h) w) m.

(** [self.processing.add(p)] and [self.processing.discard(p)] *)
Definition processing_add (p : Path) : HM unit :=
  modify (fun h => mkHandler ({[ p ]} ∪ processing h) (organizer h)).

Definition processing_discard (p : Path) : HM unit :=
  modify (fun h => mkHandler (processing h ∖ {[ p ]}) (organizer h)).

(** [time.sleep(_)] *)
Definition time_sleep : OM unit :=
  modify (fun w => mkWorld (sleep (fs w)) (stats w) (log w)).

(** [file_path.stat().st_size] *)
Definition stat_size (file_path : Path) : OM Z :=
  fun w => (of_outcome (st_size (fs w) file_path), w).

Definition _is_file_stable (file_path : Path) : OM bool :=
  try_except
    (let! size1 := stat_size file_path in
     time_sleep >>>
     let! size2 := stat_size file_path in
     ret ((size1 =? size2) && (0 <? size1)))
    (fun e => if isinstance e ClsOSError then Some (ret false) else None).

Definition _organize_file (file_path : Path) : OM unit :=
  let! present := gets (fun w => path_exists (fs w) file_path) in
  if negb present then
    logger WARNING (FileNoLongerExists (name file_path))
  else
    try_except
      (if _should_skip_file config file_path then
         logger DEBUG (Skipping (name file_path))
       else
         let! dest_folder := _get_destination_for_file config file_path in
         let! success := _move_file config file_path dest_folder false in
         if success then logger INFO (Organized (name file_path))
         else logger WARNING (FailedToOrganize (name file_path)))
      (fun e =>
         if isinstance e ClsException then
           Some (logger ERROR (ErrorOrganizing (name file_path) e))
         else None).

(** The two callbacks, with the method [self._organize_file] they call as
    a parameter: a method of the handler, it may read and write the whole
    handler object. *)
Definition on_created_with (organize : Path -> HM unit) (event : Event)
  : HM unit :=
  if is_directory event then ret tt
  else
    let file_path := src_path event in
    if _is_temporary_file file_path then ret tt
    else
      on_organizer time_sleep >>>
      let! busy := gets (fun h => bool_decide (file_path ∈ processing h)) in
      if busy then ret tt
      else
        processing_add file_path >>>
        try_finally
          (on_organizer (logger INFO (NewFileDetected (name file_path))) >>>
           organize file_path)
          (processing_discard file_path).

Definition on_modified_with (organize : Path -> HM unit) (event : Event)
  : HM unit :=
  if is_directory event then ret tt
  else
    let file_path := src_path event in
    if _is_temporary_file file_path then ret tt
    else
      let! present :=
        gets (fun h => path_exists (fs (organizer h)) file_path) in
      if negb present then ret tt
      else
        let! stable := on_organizer (_is_file_stable file_path) in
        if stable then
          let! busy :=
            gets (fun h => bool_decide (file_path ∈ processing h)) in
          if negb busy then
            processing_add file_path >>>
            try_finally
              (on_organizer (logger DEBUG (FileCompleted (name file_path))) >>>
               organize file_path)
              (processing_discard file_path)
          else ret tt
        else ret tt.

(** [self._organize_file] as the handler has it: it only works on the
    organizer. *)
Definition organize_method (file_path : Path) : HM unit :=
  on_organizer (_organize_file file_path).

Definition on_created : Event -> HM unit := on_created_with organize_method.
Definition on_modified : Event -> HM unit := on_modified_with organize_method.

(** The observer delivering one event to the handler. *)
Definition dispatch_with (organize : Path -> HM unit)
    (ev : EventKind * Event) : HM unit :=
  match ev.1 with
  | Created => on_created_with organize ev.2
  | Modified => on_modified_with organize ev.2
  end.

(** A sequence of deliveries, one after the other: the outcome of every
    callback, and the handler afterwards.  A callback that raises does not
    stop the later ones from being considered. *)
Fixpoint deliver_with (organize : Path -> HM unit)
    (evs : list (EventKind * Event)) (h : Handler FS)
  : list (result unit) * Handler FS :=
  match evs with
  | [] => ([], h)
  | ev :: evs' =>
      let (r, h') := dispatch_with organize ev h in
      let (rs, h'') := deliver_with organize evs' h' in
      (r :: rs, h'')
  end.

(** The deliveries as the watcher makes them. *)
Definition deliver : list (EventKind * Event) -> Handler FS ->
                     list (result unit) * Handler FS :=
  deliver_with organize_method.

End Methods.

(** [DownloadEventHandler.__init__] *)
Definition Handler_init {FS : Type} (w : World FS) : Handler FS :=
  mkHandler ∅ w.

End Watcher.

Export Watcher.

(** ** An in-memory file system

    A small implementation of the interface, used to run the program on
    concrete directories: regular files with their sizes, directories, and
    a set of paths on which every operation is refused. *)

Module MemFS.

Record t : Type := mk {
  files : gmap Path Z;
  dirs : gset Path;
  denied : gset Path
}.

Definition all_paths (m : t) : gset Path := dom (files m) ∪ dirs m.

(** Moving [src] to [dst] carries everything below [src] along. *)
Definition rebase (src dst p : Path) : Path :=
  if decide (src `prefix_of` p) then (dst ++ drop (length src) p)%list else p.

Fixpoint walk (bad : gset Path) (l : list Path) : Traversal :=
  match l with
  | [] => TEnd
  | p :: l' =>
      if decide (p ∈ bad) then TFail PermissionError else TYield p (walk bad l')
  end.

Definition children (m : t) (d : Path) : list Path :=
  filter (fun p => p ≠ [] ∧ parent p = d) (elements (all_paths m)).

Definition descendants (m : t) (d : Path) : list Path :=
  filter (fun p => d `prefix_of` p ∧ p ≠ d) (elements (all_paths m)).

Definition do_mkdir (d : Path) (m : t) : outcome unit * t :=
  if decide (d ∈ denied m) then (Err PermissionError, m)
  else if decide (d ∈ dom (files m)) then (Err OSError, m)
  else (Ok tt, mk (files m) ({[ d ]} ∪ dirs m) (denied m)).

(** A regular file is moved by itself; a directory is moved with all that
    is below it. *)
Definition do_move (src dst : Path) (m : t) : outcome unit * t :=
  if decide (src ∈ denied m) then (Err PermissionError, m)
  else
    match files m !! src with
    | Some size =>
        (Ok tt, mk (<[ dst := size ]> (delete src (files m))) (dirs m)
                  (denied m))
    | None =>
        if decide (src ∈ dirs m) then
          (Ok tt,
           mk (list_to_map
                 (map (fun kv => (rebase src dst kv.1, kv.2))
                    (map_to_list (files m))))
              (set_map (rebase src dst) (dirs m))
              (denied m))
        else (Err OSError, m)
    end.

#[global] Instance filesystem : Filesystem t := {|
  existing := all_paths;
  is_file m p := bool_decide (p ∈ dom (files m));
  is_dir m p := bool_decide (p ∈ dirs m);
  iterdir := children;
  rglob m d := walk (denied m) (descendants m d);
  st_size m p :=
    match files m !! p with
    | Some n => Ok n
    | None => Err OSError
    end;
  mkdir := do_mkdir;
  shutil_move := do_move;
  sleep m := m
|}.

End MemFS.

(** The configuration of the repository's tests. *)
Definition test_config : Config :=
  mkConfig ["tmp"; "downloads"] ["tmp"; "storage"]
    (Some [ ("pdf", mkInfo (Some [".pdf"]) (Some "PDF"));
            ("images", mkInfo (Some [".jpg"; ".png"]) (Some "Images")) ])
    (Some "Other")
    (Some (mkSettings (Some true) (Some true) (Some true) (Some false)))
    (Some (mkFolders (Some "Compressed Folders") (Some "Folders"))).

Definition world0 (m : MemFS.t) : World MemFS.t :=
  mkWorld m OrganizationStats_init [].

(** ** Notions used in the statements *)

(** The paths the loop of [_resolve_conflict] tests, in order: the desired
    path, then the names numbered 1, 2, 3, ... *)
Definition probe (p : Path) (k : Z) : Path :=
  if k =? 0 then p else numbered (parent p) (stem p) (suffix p) k.

(** The world after one conflict has been counted. *)
Definition resolved_world {FS : Type} (w : World FS) : World FS :=
  mkWorld (fs w) (incr_conflicts_resolved (stats w)) (log w).

(** A concrete directory: [/tmp/storage] holds [test.txt] and
    [test_2.txt]. *)
Definition storage : MemFS.t :=
  MemFS.mk {[ ["tmp"; "storage"; "test.txt"] := 8;
              ["tmp"; "storage"; "test_2.txt"] := 8 ]}
    {[ ["tmp"]; ["tmp"; "storage"]; ["tmp"; "downloads"] ]} ∅.

(** [storage] once [test_1.txt] has been written. *)
Definition storage' : MemFS.t :=
  MemFS.mk (<[ ["tmp"; "storage"; "test_1.txt"] := 5 ]> (MemFS.files storage))
    (MemFS.dirs storage) ∅.

(** The extensions a table entry lists:
    [info.get('extensions', [])]. *)
Definition listed (info : FileTypeInfo) : list string :=
  default [] (ft_extensions info).

(** What classification does to the world when it selects the category
    labelled [c]. *)
Definition classified_world {FS : Type} (c : string) (w : World FS) : World FS :=
  mkWorld (fs w) (incr_category c (stats w)) (log w).

(** A table in which [".pdf"] is listed by two categories. *)
Definition overlap_config : Config :=
  mkConfig ["tmp"; "downloads"] ["tmp"; "storage"]
    (Some [ ("images", mkInfo (Some [".jpg"; ".png"]) (Some "Images"));
            ("documents", mkInfo (Some [".pdf"; ".txt"]) (Some "Documents"));
            ("pdf", mkInfo (Some [".pdf"]) (Some "PDF")) ])
    (Some "Other") None None.

(** A table whose only extension is written in upper case. *)
Definition upper_config : Config :=
  mkConfig ["tmp"; "downloads"] ["tmp"; "storage"]
    (Some [ ("pdf", mkInfo (Some [".PDF"]) (Some "PDF")) ])
    (Some "Other") None None.

(** A file system with nothing in it. *)
Definition empty_fs : MemFS.t := MemFS.mk ∅ ∅ ∅.

(** The record an [except] clause of [_move_file] logs for [e]. *)
Definition move_error_message (source : Path) (e : exn) : Message :=
  match e with
  | PermissionError => PermissionDenied (name source)
  | ShutilError => ErrorMoving (name source) e
  | _ => UnexpectedError (name source) e
  end.

(** The world an [except] clause of [_move_file] leaves, entered in [w]. *)
Definition failed_world {FS : Type} (source : Path) (e : exn) (w : World FS)
  : World FS :=
  mkWorld (fs w) (incr_errors (stats w))
    (log w ++ [(ERROR, move_error_message source e)])%list.

(** The world in which the loop of [organize_files] starts. *)
Definition pass_start {FS : Type} (config : Config) (dry_run : bool)
    (w : World FS) : World FS :=
  mkWorld (fs w) (stats w)
    (log w ++ [(INFO, Starting (source_directory config))] ++
     (if dry_run then [(INFO, DryRunMode)] else []))%list.

(** The final path of a move: the resolver's answer, or the plain join
    when conflict handling is off. *)
Definition final_path {FS : Type} `{Filesystem FS} (config : Config)
    (source destination_folder : Path) : M (World FS) Path :=
  if setting config handle_conflicts true then
    _resolve_conflict (destination_folder // name source)
  else ret (destination_folder // name source).

(** The entries of a listing that a files pass hands to the mover. *)
Definition to_move {FS : Type} `{Filesystem FS} (config : Config) (fs0 : FS)
    (items : list Path) : list Path :=
  List.filter (fun q => is_file fs0 q && negb (_should_skip_file config q))
    items.

(** A downloads directory with a picture nobody may touch and a PDF. *)
Definition downloads : MemFS.t :=
  MemFS.mk {[ ["tmp"; "downloads"; "photo.jpg"] := 9;
              ["tmp"; "downloads"; "report.pdf"] := 7 ]}
    {[ ["tmp"]; ["tmp"; "storage"]; ["tmp"; "downloads"] ]}
    {[ ["tmp"; "downloads"; "photo.jpg"] ]}.

(** What a world shares with a later one apart from the counters of moved
    files and errors. *)
Definition same_bookkeeping (st st' : OrganizationStats) : Prop :=
  folders_moved st' = folders_moved st /\
  skipped st' = skipped st /\
  categories st' = categories st.

(** The configuration with [settings.dry_run] set to [v] and everything
    else as it is. *)
Definition set_dry_run (v : option bool) (config : Config) : Config :=
  mkConfig (source_directory config) (base_destination config)
    (file_types config) (other_destination config)
    (Some (mkSettings (settings config ≫= create_directories)
             (settings config ≫= handle_conflicts)
             (settings config ≫= skip_hidden_files) v))
    (folders config).

(** The world [_organize_file] leaves after a move that answered [b]. *)
Definition organized_world {FS : Type} (file_path : Path) (b : bool)
    (w : World FS) : World FS :=
  mkWorld (fs w) (stats w)
    (log w ++ [if b then (INFO, Organized (name file_path))
               else (WARNING, FailedToOrganize (name file_path))])%list.

(** The items a walk yields before it ends or fails, and the error it ends
    with, if any. *)
Fixpoint yielded (t : Traversal) : list Path :=
  match t with
  | TEnd => []
  | TYield item rest => item :: yielded rest
  | TFail _ => []
  end.

Fixpoint traversal_error (t : Traversal) : option exn :=
  match t with
  | TEnd => None
  | TYield _ rest => traversal_error rest
  | TFail e => Some e
  end.

(** A table with a category whose destination mentions "compressed". *)
Definition archive_config : Config :=
  mkConfig ["tmp"; "downloads"] ["tmp"; "storage"]
    (Some [ ("pdf", mkInfo (Some [".pdf"]) (Some "PDF"));
            ("archives", mkInfo (Some [".zip"; ".rar"]) (Some "Compressed")) ])
    (Some "Other") None None.

(** [/tmp/downloads/bundle] holds [data.zip]; [/tmp/downloads/vault] holds
    a path that cannot be read. *)
Definition folders_fs : MemFS.t :=
  MemFS.mk {[ ["tmp"; "downloads"; "bundle"; "data.zip"] := 3;
              ["tmp"; "downloads"; "vault"; "secret.zip"] := 4 ]}
    {[ ["tmp"]; ["tmp"; "downloads"]; ["tmp"; "downloads"; "bundle"];
       ["tmp"; "downloads"; "vault"] ]}
    {[ ["tmp"; "downloads"; "vault"; "secret.zip"] ]}.

(** The guarded block of the two callbacks: add the path, run the
    operation inside [try], discard the path in [finally]. *)
Definition guarded {FS : Type} (organize : Path -> M (Handler FS) unit)
    (record : Level * Message) (file_path : Path) : M (Handler FS) unit :=
  processing_add file_path >>>
  try_finally
    (on_organizer (logger record.1 record.2) >>> organize file_path)
    (processing_discard file_path).

(** A watched downloads directory, and four events on it. *)
Definition watched : MemFS.t :=
  MemFS.mk {[ ["tmp"; "downloads"; "report.pdf"] := 7;
              ["tmp"; "downloads"; "movie.part"] := 1 ]}
    {[ ["tmp"]; ["tmp"; "storage"]; ["tmp"; "downloads"] ]} ∅.

Definition burst : list (EventKind * Event) :=
  [ (Created, mkEvent false ["tmp"; "downloads"; "report.pdf"]);
    (Created, mkEvent false ["tmp"; "downloads"; "report.pdf"]);
    (Modified, mkEvent false ["tmp"; "downloads"; "movie.part"]);
    (Created, mkEvent true ["tmp"; "downloads"; "folder"]) ].

(** A per-item operation that always raises. *)
Definition failing_method {FS : Type} (file_path : Path)
  : M (Handler FS) unit :=
  raise RuntimeError.

(** The handler after the [time.sleep] of [on_created]. *)
Definition slept {FS : Type} `{Filesystem FS} (h : Handler FS) : Handler FS :=
  mkHandler (processing h)
    (mkWorld (sleep (fs (organizer h))) (stats (organizer h))
       (log (organizer h))).

(** A downloads directory with a report and a hidden file, while
    [/tmp/storage/PDF] already holds another [report.pdf]. *)
Definition mixed : MemFS.t :=
  MemFS.mk {[ ["tmp"; "downloads"; "report.pdf"] := 3;
              ["tmp"; "downloads"; ".DS_Store"] := 6;
              ["tmp"; "storage"; "PDF"; "report.pdf"] := 8 ]}
    {[ ["tmp"]; ["tmp"; "storage"]; ["tmp"; "downloads"];
       ["tmp"; "storage"; "PDF"] ]} ∅.

(** The sum of the per-category counters, which the summary prints one by
    one under "Files by category". *)
Definition total_categories (st : OrganizationStats) : Z :=
  map_fold (fun (_ : string) (count acc : Z) => count + acc) 0 (categories st).

(** A per-item operation that does nothing. *)
Definition organize_idle {FS : Type} (file_path : Path)
  : M (Handler FS) unit :=
  ret tt.

(** A downloads directory in which [empty.txt] has just been created and
    holds nothing yet. *)
Definition fresh_download : MemFS.t :=
  MemFS.mk {[ ["tmp"; "downloads"; "empty.txt"] := 0 ]}
    {[ ["tmp"]; ["tmp"; "storage"]; ["tmp"; "downloads"] ]} ∅.

(** The configuration in which every extension of the table that is not
    written in lower case has been struck out. *)
Definition lower_case_entries (config : Config) : Config :=
  mkConfig (source_directory config) (base_destination config)
    (map (fun entry : string * FileTypeInfo =>
            (entry.1,
             mkInfo
               (filter (fun e : string => PyStr.lower e = e)
                  <$> ft_extensions entry.2)
               (ft_destination entry.2)))
       <$> file_types config)
    (other_destination config) (settings config) (folders config).

(** [s.endswith(t)] *)
Definition endswith (t s : string) : bool :=
  (String.length t <=? String.length s)%nat &&
  String.eqb (PyStr.drop (String.length s - String.length t) s) t.

(** The compressed-folder predicate as the specification words it: the
    folder's own name ends in one of the compressed extensions, or the walk
    of its contents yields a regular file whose extension is one of
    them. *)
Definition names_compressed_folder {FS : Type} `{Filesystem FS}
    (config : Config) (folder_path : Path) (fs0 : FS) : Prop :=
  (exists e : string,
     e ∈ compressed_exts config /\ endswith e (name folder_path) = true) \/
  (exists item : Path,
     item ∈ yielded (rglob fs0 folder_path) /\ is_file fs0 item = true /\
     suffix item ∈ compressed_exts config).

(** A table whose compressed category lists an extension in upper case and
    one with two dots. *)
Definition literal_config : Config :=
  mkConfig ["tmp"; "downloads"] ["tmp"; "storage"]
    (Some [ ("archives",
             mkInfo (Some [".ZIP"; ".tar.gz"]) (Some "Compressed")) ])
    (Some "Other") None None.

(** [/tmp/downloads] with the folders [Old.ZIP] and [backup.tar.gz], both
    empty, and [box], which holds [data.ZIP]. *)
Definition archives_fs : MemFS.t :=
  MemFS.mk {[ ["tmp"; "downloads"; "box"; "data.ZIP"] := 3 ]}
    {[ ["tmp"]; ["tmp"; "downloads"]; ["tmp"; "downloads"; "Old.ZIP"];
       ["tmp"; "downloads"; "backup.tar.gz"]; ["tmp"; "downloads"; "box"] ]}
    ∅.

(** A string that [pathlib] joins as one relative segment: it is not
    empty, is not ["."], and holds no ["/"]. *)
Definition one_segment (s : string) : bool :=
  negb (String.eqb s "") && negb (String.eqb s ".") &&
  negb (PyStr.contains "/" s).

(** * Properties *)

(** ** Strings and paths *)

Module PyStrFacts.
Import PyStr.

Lemma lower_ascii_dot (c : ascii) :
  Ascii.eqb (lower_ascii c) "." = Ascii.eqb c ".".
Proof. destruct c as [[] [] [] [] [] [] [] []]; reflexivity. Qed.

Lemma lower_ascii_idem (c : ascii) : lower_ascii (lower_ascii c) = lower_ascii c.
Proof. destruct c as [[] [] [] [] [] [] [] []]; reflexivity. Qed.

Lemma lower_idem (s : string) : lower (lower s) = lower s.
Proof. induction s as [|c s IH]; simpl; [done|]. by rewrite lower_ascii_idem, IH. Qed.

Lemma length_lower (s : string) : String.length (lower s) = String.length s.
Proof. induction s as [|c s IH]; simpl; [done|]. by rewrite IH. Qed.

Lemma len_lower (s : string) : len (lower s) = len s.
Proof. unfold len. by rewrite length_lower. Qed.

Lemma rfind_dot_lower (s : string) : rfind "." (lower s) = rfind "." s.
Proof.
  induction s as [|c s IH]; [done|].
  cbn [lower rfind]. rewrite IH, lower_ascii_dot. done.
Qed.

Lemma drop_lower (n : nat) (s : string) : drop n (lower s) = lower (drop n s).
Proof.
  revert s; induction n as [|n IH]; intros [|c s]; simpl; try done.
Qed.

Lemma take_lower (n : nat) (s : string) : take n (lower s) = lower (take n s).
Proof.
  revert s; induction n as [|n IH]; intros [|c s]; simpl; try done.
  by rewrite IH.
Qed.

Lemma app_cons (c : ascii) (s1 s2 : string) :
  String c s1 +:+ s2 = String c (s1 +:+ s2).
Proof. reflexivity. Qed.

Lemma app_nil_l (s : string) : "" +:+ s = s.
Proof. reflexivity. Qed.

Lemma app_nil_r (s : string) : s +:+ "" = s.
Proof. induction s as [|c s IH]; [done|]. by rewrite app_cons, IH. Qed.

Lemma take_drop (n : nat) (s : string) : take n s +:+ drop n s = s.
Proof.
  revert s; induction n as [|n IH]; intros [|c s]; simpl; try done.
  by rewrite app_cons, IH.
Qed.

Lemma length_app (s1 s2 : string) :
  String.length (s1 +:+ s2) = (String.length s1 + String.length s2)%nat.
Proof.
  induction s1 as [|c s1 IH]; [done|]. rewrite app_cons. simpl. by rewrite IH.
Qed.

Lemma app_assoc (s1 s2 s3 : string) : (s1 +:+ s2) +:+ s3 = s1 +:+ s2 +:+ s3.
Proof.
  induction s1 as [|c s1 IH]; [done|]. by rewrite !app_cons, IH.
Qed.

(** Appending the same tail to two strings keeps them apart. *)
Lemma app_inj_tail (s1 s2 t : string) : s1 +:+ t = s2 +:+ t -> s1 = s2.
Proof.
  revert s2; induction s1 as [|c s1 IH]; intros [|d s2] E.
  - done.
  - apply (f_equal String.length) in E. rewrite app_nil_l, app_cons in E.
    simpl in E. rewrite length_app in E. lia.
  - apply (f_equal String.length) in E. rewrite app_nil_l, app_cons in E.
    simpl in E. rewrite length_app in E. lia.
  - rewrite !app_cons in E. injection E as -> E. f_equal. by apply IH.
Qed.

Lemma lower_ascii_examples :
  lower "Report.PDF" = "report.pdf" /\ lower "a_1.Tar.GZ" = "a_1.tar.gz".
Proof. split; reflexivity. Qed.

End PyStrFacts.

Module PathlibFacts.
Import PyStr PyStrFacts.

Lemma name_joinpath (p : Path) (s : string) : name (p // s) = s.
Proof. unfold name, joinpath. by rewrite last_last. Qed.

Lemma parent_joinpath (p : Path) (s : string) : parent (p // s) = p.
Proof. unfold parent, joinpath. by rewrite removelast_last. Qed.

Lemma joinpath_inj (p : Path) (s1 s2 : string) : p // s1 = p // s2 -> s1 = s2.
Proof. unfold joinpath. intros E%app_inv_head. by injection E. Qed.

(** A path that has a name is its parent joined with that name. *)
Lemma parent_name (p : Path) : p <> [] -> parent p // name p = p.
Proof.
  intros Hp. unfold parent, name, joinpath.
  symmetry. by apply app_removelast_last.
Qed.

Lemma has_ext_lower (nm : string) : has_ext (lower nm) = has_ext nm.
Proof. unfold has_ext. by rewrite rfind_dot_lower, len_lower. Qed.

(** Lower-casing commutes with taking the extension: the position of the
    last dot does not depend on the case of the letters. *)
Lemma suffix_of_lower (nm : string) : suffix_of (lower nm) = lower (suffix_of nm).
Proof.
  unfold suffix_of. rewrite has_ext_lower, rfind_dot_lower.
  destruct (has_ext nm); [apply drop_lower | done].
Qed.

Lemma stem_suffix (nm : string) : stem_of nm +:+ suffix_of nm = nm.
Proof.
  unfold stem_of, suffix_of. destruct (has_ext nm).
  - apply take_drop.
  - apply app_nil_r.
Qed.

Lemma pathlib_examples :
  suffix ["d"; "a.tar.gz"] = ".gz" /\ stem ["d"; "a.tar.gz"] = "a.tar" /\
  suffix ["d"; ".zip"] = "" /\ stem ["d"; ".zip"] = ".zip" /\
  suffix ["d"; "a."] = "" /\ suffix ["d"; "A.PDF"] = ".PDF" /\
  name [] = "" /\ parent ["d"; "a.txt"] = ["d"].
Proof. repeat split; reflexivity. Qed.

End PathlibFacts.

(** ** The conflict resolver *)

Module ResolverFacts.
Import PyStr PyStrFacts PathlibFacts.

(** Different counters give different numbered names. *)
Lemma numbered_inj (par : Path) (stem sfx : string) (c1 c2 : Z) :
  numbered par stem sfx c1 = numbered par stem sfx c2 -> c1 = c2.
Proof.
  unfold numbered. intros E%joinpath_inj.
  apply (inj (String.app stem)) in E.
  apply (inj (String.app "_")) in E.
  apply app_inj_tail in E.
  by apply (inj pretty) in E.
Qed.

(** No numbered name is the name it was derived from. *)
Lemma numbered_ne (p : Path) (c : Z) :
  numbered (parent p) (stem p) (suffix p) c <> p.
Proof.
  destruct (decide (p = [])) as [->|Hp].
  - unfold numbered, joinpath. simpl. discriminate.
  - intros E. rewrite <- (parent_name p Hp) in E at 4.
    apply joinpath_inj in E. unfold stem, suffix in E.
    rewrite <- (stem_suffix (name p)) in E at 3.
    apply (inj (String.app _)) in E.
    apply (f_equal String.length) in E.
    rewrite app_cons, app_nil_l in E. simpl in E.
    rewrite length_app in E. lia.
Qed.

(** In a finite set, an injective enumeration leaves the set after at most
    [size X] steps; [n] is the first index outside. *)
Lemma free_index (X : gset Path) (f : nat -> Path) :
  (forall i j, f i = f j -> i = j) ->
  exists n : nat,
    (n <= size X)%nat /\ (f n ∉ X) /\ forall j : nat, (j < n)%nat -> f j ∈ X.
Proof.
  intros Hinj.
  assert (Hscan : forall m : nat,
             (exists n : nat, (n < m)%nat /\ (f n ∉ X) /\
                          forall j : nat, (j < n)%nat -> f j ∈ X) \/
             (forall j : nat, (j < m)%nat -> f j ∈ X)).
  { induction m as [|m [IH|IH]].
    - right. intros j Hj. lia.
    - left. destruct IH as (n & Hn & Hfree & Hbelow).
      exists n. split; [lia|]. done.
    - destruct (decide (f m ∈ X)) as [Hin|Hout].
      + right. intros j Hj. destruct (decide (j = m)) as [->|]; [done|].
        apply IH. lia.
      + left. exists m. split; [lia|]. done. }
  destruct (Hscan (S (size X))) as [(n & Hn & Hfree & Hbelow)|Hall].
  - exists n. split; [lia|]. done.
  - exfalso.
    set (l := f <$> seq 0 (S (size X))).
    assert (Hnd : NoDup l).
    { apply NoDup_fmap_2; [|apply NoDup_seq].
      intros i j. apply Hinj. }
    assert (Hsub : (list_to_set l : gset Path) ⊆ X).
    { intros x Hx. apply elem_of_list_to_set in Hx.
      apply list_elem_of_fmap in Hx as (j & -> & Hj).
      apply elem_of_seq in Hj. apply Hall. lia. }
    apply subseteq_size in Hsub.
    rewrite size_list_to_set in Hsub by done.
    unfold l in Hsub. rewrite length_fmap, length_seq in Hsub. lia.
Qed.

Section Loop.

Context {FS : Type} `{Filesystem FS}.

Variables (fs0 : FS) (par : Path) (stem sfx : string).

Lemma resolve_loop_step (fuel : nat) (d : Path) (c : Z) :
  resolve_loop (S fuel) fs0 par stem sfx d c =
  if path_exists fs0 d then
    resolve_loop fuel fs0 par stem sfx (numbered par stem sfx c) (c + 1)
  else Return d.
Proof. reflexivity. Qed.

(** The loop entered on an existing numbered name with [n] taken names
    ahead of the first free one returns that free one, given more than [n]
    tests. *)
Lemma resolve_loop_run (n : nat) :
  forall (c : Z) (fuel : nat) (d : Path),
    (n < fuel)%nat ->
    path_exists fs0 d = true ->
    (forall j : nat, (j < n)%nat ->
        path_exists fs0 (numbered par stem sfx (c + Z.of_nat j)) = true) ->
    path_exists fs0 (numbered par stem sfx (c + Z.of_nat n)) = false ->
    resolve_loop (S fuel) fs0 par stem sfx d c =
    Return (numbered par stem sfx (c + Z.of_nat n)).
Proof.
  induction n as [|n IH]; intros c fuel d Hfuel Hd Hbelow Hfree.
  - destruct fuel as [|fuel]; [lia|].
    rewrite !resolve_loop_step, Hd.
    replace (c + Z.of_nat 0) with c in * by lia. by rewrite Hfree.
  - destruct fuel as [|fuel]; [lia|].
    rewrite resolve_loop_step, Hd.
    rewrite (IH (c + 1) fuel).
    + f_equal. f_equal. lia.
    + lia.
    + specialize (Hbelow 0%nat ltac:(lia)).
      by replace (c + Z.of_nat 0) with c in Hbelow by lia.
    + intros j Hj. specialize (Hbelow (S j) ltac:(lia)).
      by replace (c + 1 + Z.of_nat j) with (c + Z.of_nat (S j)) by lia.
    + by replace (c + 1 + Z.of_nat n) with (c + Z.of_nat (S n)) by lia.
Qed.

End Loop.

Section Resolver.

Context {FS : Type} `{Filesystem FS}.

Lemma resolve_conflict_free (p : Path) (w : World FS) :
  path_exists (fs w) p = false ->
  _resolve_conflict p w = (Return p, w).
Proof.
  intros Hp. unfold _resolve_conflict, bind, gets. by rewrite Hp.
Qed.

(** On an existing path the resolver returns the first free numbered name,
    within its loop bound, and counts one conflict. *)
Lemma resolve_conflict_taken (p : Path) (w : World FS) :
  path_exists (fs w) p = true ->
  exists n : nat,
    _resolve_conflict p w =
      (Return (numbered (parent p) (stem p) (suffix p) (1 + Z.of_nat n)),
       resolved_world w) /\
    path_exists (fs w)
      (numbered (parent p) (stem p) (suffix p) (1 + Z.of_nat n)) = false /\
    forall j : nat, (j < n)%nat ->
      path_exists (fs w)
        (numbered (parent p) (stem p) (suffix p) (1 + Z.of_nat j)) = true.
Proof.
  intros Hp.
  set (f := fun j : nat =>
              numbered (parent p) (stem p) (suffix p) (1 + Z.of_nat j)).
  destruct (free_index (existing (fs w) ∖ {[ p ]}) f) as (n & Hn & Hfree & Hbelow).
  { intros i j E. apply numbered_inj in E. lia. }
  assert (Hin : p ∈ existing (fs w)) by (by apply bool_decide_eq_true in Hp).
  assert (Hsize : (size (existing (fs w) ∖ {[ p ]}) =
                   size (existing (fs w)) - 1)%nat).
  { rewrite size_difference by (by apply singleton_subseteq_l).
    by rewrite size_singleton. }
  assert (Hpos : (0 < size (existing (fs w)))%nat).
  { assert (size (existing (fs w)) <> 0%nat); [|lia].
    apply size_non_empty_iff. intros Hempty. rewrite Hempty in Hin.
    by apply not_elem_of_empty in Hin. }
  assert (Hfree' : path_exists (fs w) (f n) = false).
  { apply bool_decide_eq_false. intros Hf. apply Hfree.
    apply elem_of_difference. split; [done|].
    rewrite elem_of_singleton. apply numbered_ne. }
  assert (Hbelow' : forall j : nat, (j < n)%nat -> path_exists (fs w) (f j) = true).
  { intros j Hj. apply bool_decide_eq_true.
    specialize (Hbelow j Hj). by apply elem_of_difference in Hbelow as [? _]. }
  exists n. split; [|done].
  unfold _resolve_conflict, bind, gets, update_stats, modify. rewrite Hp.
  cbn [negb fs stats log].
  change (mkWorld (fs w) (incr_conflicts_resolved (stats w)) (log w))
    with (resolved_world w).
  f_equal.
  apply (resolve_loop_run (fs w) _ _ _ n 1 (size (existing (fs w))) p);
    [lia | done | done | done].
Qed.

End Resolver.

End ResolverFacts.

Import ResolverFacts.

(** [test_resolve_conflict] and [test_multiple_conflict_resolution] of the
    repository's tests, on the in-memory file system. *)
Example test_resolve_conflict :
  let (r, w) := _resolve_conflict ["tmp"; "storage"; "test.txt"] (world0 storage) in
  r = Return ["tmp"; "storage"; "test_1.txt"] /\
  conflicts_resolved (stats w) = 1 /\
  fst (_resolve_conflict ["tmp"; "storage"; "test.txt"] (world0 storage'))
  = Return ["tmp"; "storage"; "test_3.txt"] /\
  fst (_resolve_conflict ["tmp"; "storage"; "new.txt"] (world0 storage))
  = Return ["tmp"; "storage"; "new.txt"].
Proof. vm_compute. done. Qed.

(** C1. A call of the conflict resolver on a path that does not exist
    returns it unchanged and leaves the statistics (so the
    conflicts_resolved counter) untouched.  On a path that exists it
    returns [parent / f"{stem}_{N}{suffix}"] for the least [N >= 1] whose
    path does not exist: that path is free and every smaller numbered path
    exists.  The call always returns (the loop bound of the embedding is
    never reached), and whatever [N] is, conflicts_resolved goes up by
    exactly one, nothing else in the statistics, the log or the file
    system changes. *)
Theorem resolve_conflict_spec {FS : Type} `{Filesystem FS}
    (dest_path : Path) (w : World FS) :
  if path_exists (fs w) dest_path then
    exists (N : Z) (w' : World FS),
      1 <= N /\
      _resolve_conflict dest_path w =
        (Return (numbered (parent dest_path) (stem dest_path)
                   (suffix dest_path) N), w') /\
      path_exists (fs w)
        (numbered (parent dest_path) (stem dest_path) (suffix dest_path) N)
      = false /\
      (forall M : Z, 1 <= M < N ->
         path_exists (fs w)
           (numbered (parent dest_path) (stem dest_path) (suffix dest_path) M)
         = true) /\
      conflicts_resolved (stats w') = conflicts_resolved (stats w) + 1 /\
      files_moved (stats w') = files_moved (stats w) /\
      folders_moved (stats w') = folders_moved (stats w) /\
      errors (stats w') = errors (stats w) /\
      skipped (stats w') = skipped (stats w) /\
      categories (stats w') = categories (stats w) /\
      fs w' = fs w /\ log w' = log w
  else _resolve_conflict dest_path w = (Return dest_path, w).
Proof.
  destruct (path_exists (fs w) dest_path) eqn:Hp.
  - destruct (resolve_conflict_taken dest_path w Hp) as (n & Hrun & Hfree & Hbelow).
    exists (1 + Z.of_nat n), (resolved_world w).
    split; [lia|]. split; [done|]. split; [done|].
    split; [|by repeat split].
    intros M HM.
    replace M with (1 + Z.of_nat (Z.to_nat (M - 1))) by lia.
    apply Hbelow. lia.
  - by apply resolve_conflict_free.
Qed.

(** [test_resolve_conflict] and the gap case: with [test.txt] and
    [test_2.txt] present the resolver answers [test_1.txt]; once that is
    written it answers [test_3.txt]. *)
Example resolve_conflict_gap :
  fst (_resolve_conflict (probe ["tmp"; "storage"; "test.txt"] 0)
         (world0 storage))
  = Return (probe ["tmp"; "storage"; "test.txt"] 1) /\
  fst (_resolve_conflict ["tmp"; "storage"; "test.txt"] (world0 storage'))
  = Return (probe ["tmp"; "storage"; "test.txt"] 3).
Proof. vm_compute. done. Qed.

(** C7, as stated, fails: on [storage], which holds [test.txt] and
    [test_2.txt], the first call answers [test_1.txt], the first name of
    the sequence; once that is created, the next call answers
    [test_3.txt], not the next-incremented name [test_2.txt]. *)
Lemma resolve_conflict_next_counterexample :
  ~ (forall (dest_path p1 : Path) (w w' : World MemFS.t) (K : Z),
       0 <= K ->
       fst (_resolve_conflict dest_path w) = Return p1 ->
       p1 = probe dest_path K ->
       existing (fs w') = {[ p1 ]} ∪ existing (fs w) ->
       fst (_resolve_conflict dest_path w') =
       Return (probe dest_path (K + 1))).
Proof.
  intros Hclaim.
  specialize (Hclaim ["tmp"; "storage"; "test.txt"]
                ["tmp"; "storage"; "test_1.txt"]
                (world0 storage) (world0 storage') 1).
  assert (Hrun : fst (_resolve_conflict ["tmp"; "storage"; "test.txt"]
                        (world0 storage'))
                 = Return ["tmp"; "storage"; "test_3.txt"])
    by (vm_compute; reflexivity).
  rewrite Hclaim in Hrun.
  - vm_compute in Hrun. discriminate Hrun.
  - lia.
  - vm_compute. reflexivity.
  - vm_compute. reflexivity.
  - apply (bool_decide_unpack _). vm_compute. exact I.
Qed.

(** C7, amended.  On an unchanged set of existing paths, a second call of
    the resolver on the same desired path returns what the first call
    returned (the first call does not touch the file system).  If the path
    [p1] the first call returned, the [K]-th of the sequence desired path,
    [stem_1], [stem_2], ..., is then created, a further call returns a
    later path of that sequence: the first one after [K] that was free.
    That is the next-incremented name [stem_(K+1)] when that name was
    free, and a later one when it was taken. *)
Theorem resolve_conflict_twice {FS : Type} `{Filesystem FS}
    (dest_path : Path) (w : World FS) :
  (fst (_resolve_conflict dest_path (snd (_resolve_conflict dest_path w)))
   = fst (_resolve_conflict dest_path w) /\
   fs (snd (_resolve_conflict dest_path w)) = fs w) /\
  (exists p1 : Path, fst (_resolve_conflict dest_path w) = Return p1) /\
  forall (p1 : Path) (w' : World FS),
    fst (_resolve_conflict dest_path w) = Return p1 ->
    existing (fs w') = {[ p1 ]} ∪ existing (fs w) ->
    exists K N : Z,
      0 <= K < N /\
      p1 = probe dest_path K /\
      fst (_resolve_conflict dest_path w') = Return (probe dest_path N) /\
      path_exists (fs w) (probe dest_path N) = false /\
      (forall M : Z, K < M < N ->
         path_exists (fs w) (probe dest_path M) = true) /\
      (path_exists (fs w) (probe dest_path (K + 1)) = false <-> N = K + 1).
Proof.
  assert (Hnum : forall k : Z, 0 < k ->
            probe dest_path k =
            numbered (parent dest_path) (stem dest_path) (suffix dest_path) k).
  { intros k Hk. unfold probe. destruct (Z.eqb_spec k 0); [lia|done]. }
  assert (Hnext : forall (K : Z) (w' : World FS),
            0 <= K ->
            path_exists (fs w) (probe dest_path K) = false ->
            (forall M : Z, 0 <= M < K ->
               path_exists (fs w) (probe dest_path M) = true) ->
            existing (fs w') = {[ probe dest_path K ]} ∪ existing (fs w) ->
            exists N : Z,
              0 <= K < N /\
              probe dest_path K = probe dest_path K /\
              fst (_resolve_conflict dest_path w') = Return (probe dest_path N) /\
              path_exists (fs w) (probe dest_path N) = false /\
              (forall M : Z, K < M < N ->
                 path_exists (fs w) (probe dest_path M) = true) /\
              (path_exists (fs w) (probe dest_path (K + 1)) = false <->
               N = K + 1)).
  { intros K w' HK Hfree Hbelow Hcreated.
    assert (Hmem : forall q : Path,
              path_exists (fs w') q = true <->
              q = probe dest_path K \/ path_exists (fs w) q = true).
    { intros q. unfold path_exists. rewrite !bool_decide_eq_true, Hcreated.
      rewrite elem_of_union, elem_of_singleton. done. }
    assert (Hp' : path_exists (fs w') dest_path = true).
    { apply Hmem. destruct (decide (K = 0)) as [->|HK0]; [by left|].
      right. apply (Hbelow 0). lia. }
    destruct (resolve_conflict_taken dest_path w' Hp')
      as (n & Hrun & Hfree' & Hbelow').
    assert (Hlt : K < 1 + Z.of_nat n).
    { destruct (Z.lt_ge_cases K (1 + Z.of_nat n)) as [|Hge]; [done|].
      exfalso.
      assert (Hex : path_exists (fs w')
                (numbered (parent dest_path) (stem dest_path)
                   (suffix dest_path) (1 + Z.of_nat n)) = true).
      { apply Hmem. rewrite <- Hnum by lia.
        destruct (decide (K = 1 + Z.of_nat n)) as [->|]; [by left|].
        right. apply Hbelow. lia. }
      congruence. }
    assert (Hold : forall M : Z, K < M ->
              path_exists (fs w') (probe dest_path M) =
              path_exists (fs w) (probe dest_path M)).
    { intros M HM.
      destruct (path_exists (fs w) (probe dest_path M)) eqn:E.
      - apply Hmem. by right.
      - destruct (path_exists (fs w') (probe dest_path M)) eqn:E'; [|done].
        apply Hmem in E' as [E'|E']; [|congruence].
        exfalso. rewrite Hnum in E' by lia.
        destruct (decide (K = 0)) as [->|HK0].
        + unfold probe in E'. simpl in E'. by apply numbered_ne in E'.
        + rewrite Hnum in E' by lia. apply numbered_inj in E'. lia. }
    assert (Hmid : forall M : Z, K < M < 1 + Z.of_nat n ->
              path_exists (fs w) (probe dest_path M) = true).
    { intros M HM. rewrite <- Hold by lia. rewrite Hnum by lia.
      replace M with (1 + Z.of_nat (Z.to_nat (M - 1))) by lia.
      apply Hbelow'. lia. }
    exists (1 + Z.of_nat n). split; [lia|]. split; [done|].
    split; [by rewrite Hrun, Hnum by lia|].
    split; [by rewrite <- Hold, Hnum by lia|].
    split; [done|].
    split.
    - intros Hfree1.
      destruct (decide (1 + Z.of_nat n = K + 1)) as [|Hne]; [done|].
      rewrite Hmid in Hfree1 by lia. done.
    - intros E. rewrite <- E. by rewrite <- Hold, Hnum by lia. }
  destruct (path_exists (fs w) dest_path) eqn:Hp.
  - destruct (resolve_conflict_taken dest_path w Hp) as (n & Hrun & Hfree & Hbelow).
    split; [|split].
    + rewrite Hrun. cbn [fst snd].
      destruct (resolve_conflict_taken dest_path (resolved_world w) Hp)
        as (n' & Hrun' & Hfree' & Hbelow').
      rewrite Hrun'. cbn [fst]. split; [|done].
      destruct (Nat.lt_trichotomy n n') as [Hlt|[->|Hlt]]; [|done|].
      * specialize (Hbelow' n Hlt). cbn [resolved_world fs] in Hbelow'.
        congruence.
      * specialize (Hbelow n' Hlt). cbn [resolved_world fs] in Hfree'.
        congruence.
    + rewrite Hrun. by eexists.
    + intros p1 w' Hfirst Hcreated. rewrite Hrun in Hfirst.
      cbn [fst] in Hfirst. injection Hfirst as <-.
      rewrite <- Hnum in Hcreated, Hfree by lia.
      exists (1 + Z.of_nat n). rewrite <- (Hnum (1 + Z.of_nat n)) by lia.
      apply Hnext; [lia|done| |done].
      intros M HM. destruct (decide (M = 0)) as [->|HM0]; [done|].
      rewrite Hnum by lia.
      replace M with (1 + Z.of_nat (Z.to_nat (M - 1))) by lia.
      apply Hbelow. lia.
  - rewrite (resolve_conflict_free dest_path w Hp). cbn [fst snd].
    split; [|split].
    + by rewrite (resolve_conflict_free dest_path w Hp).
    + by eexists.
    + intros p1 w' Hfirst Hcreated. injection Hfirst as <-.
      exists 0. apply (Hnext 0); [lia|done| |done].
      intros M HM. lia.
Qed.


(** The theorem at work on [storage]: the first answer is [test_1.txt];
    with it created, the next answer is a later name of the sequence. *)
Lemma resolve_conflict_twice_witness :
  exists K N : Z,
    0 <= K < N /\
    ["tmp"; "storage"; "test_1.txt"] = probe ["tmp"; "storage"; "test.txt"] K /\
    fst (_resolve_conflict ["tmp"; "storage"; "test.txt"] (world0 storage'))
    = Return (probe ["tmp"; "storage"; "test.txt"] N) /\
    path_exists storage (probe ["tmp"; "storage"; "test.txt"] N) = false /\
    (forall M : Z, K < M < N ->
       path_exists storage (probe ["tmp"; "storage"; "test.txt"] M) = true) /\
    (path_exists storage (probe ["tmp"; "storage"; "test.txt"] (K + 1)) = false <->
     N = K + 1).
Proof.
  apply (proj2 (proj2 (resolve_conflict_twice ["tmp"; "storage"; "test.txt"]
                         (world0 storage)))
           ["tmp"; "storage"; "test_1.txt"] (world0 storage')).
  - vm_compute. reflexivity.
  - apply (bool_decide_unpack _). vm_compute. exact I.
Defined.

(** ** The classifier *)

Module ClassifierFacts.

Section Classifier.

Context {FS : Type}.

Variable config : Config.

(** The loop selects the first entry of the table that lists the
    extension. *)
Lemma destination_loop_first (ext : string) (base : Path)
    (l1 l2 : list (string * FileTypeInfo)) (c : string) (info : FileTypeInfo)
    (w : World FS) :
  ext ∈ listed info ->
  (forall entry, entry ∈ l1 -> ext ∉ listed entry.2) ->
  destination_loop config ext base (l1 ++ (c, info) :: l2)%list w =
  (Return (base // default c (ft_destination info)), classified_world c w).
Proof.
  intros Hin. induction l1 as [|[c' info'] l1 IH]; intros Hnone.
  - cbn [app destination_loop]. fold (listed info).
    rewrite bool_decide_eq_true_2 by done. reflexivity.
  - cbn [app destination_loop]. fold (listed info').
    rewrite bool_decide_eq_false_2.
    + apply IH. intros entry Hentry. apply Hnone. by right.
    + apply (Hnone (c', info')). by left.
Qed.

(** With no entry listing the extension, the loop falls through to the
    "other" bucket. *)
Lemma destination_loop_other (ext : string) (base : Path)
    (items : list (string * FileTypeInfo)) (w : World FS) :
  (forall entry, entry ∈ items -> ext ∉ listed entry.2) ->
  destination_loop config ext base items w =
  (Return (base // default "Other" (other_destination config)),
   classified_world "other" w).
Proof.
  induction items as [|[c info] items IH]; intros Hnone.
  - reflexivity.
  - cbn [destination_loop]. fold (listed info).
    rewrite bool_decide_eq_false_2.
    + apply IH. intros entry Hentry. apply Hnone. by right.
    + apply (Hnone (c, info)). by left.
Qed.

(** The loop always returns, and all it does to the world is count one
    file for the label it selected. *)
Lemma destination_loop_returns (ext : string) (base : Path)
    (items : list (string * FileTypeInfo)) (w : World FS) :
  exists (c : string) (dest : Path),
    destination_loop config ext base items w =
    (Return dest, classified_world c w).
Proof.
  induction items as [|[c info] items IH].
  - by eexists _, _.
  - cbn [destination_loop]. case_bool_decide; [by eexists _, _ | done].
Qed.

(** The label the loop counts is that of the entry it selected: the first
    entry of the table that lists the extension, or "other" when no entry
    does. *)
Lemma destination_loop_selects (ext : string) (base : Path)
    (items : list (string * FileTypeInfo)) (w : World FS) :
  exists (c : string) (dest : Path),
    destination_loop config ext base items w =
    (Return dest, classified_world c w) /\
    ((exists (l1 l2 : list (string * FileTypeInfo)) (info : FileTypeInfo),
        items = (l1 ++ (c, info) :: l2)%list /\
        ext ∈ listed info /\
        (forall entry, entry ∈ l1 -> ext ∉ listed entry.2) /\
        dest = base // default c (ft_destination info)) \/
     (c = "other" /\
      (forall entry, entry ∈ items -> ext ∉ listed entry.2) /\
      dest = base // default "Other" (other_destination config))).
Proof.
  induction items as [|[c info] items IH].
  - exists "other", (base // default "Other" (other_destination config)).
    split; [reflexivity|]. right. split; [done|]. split; [|done].
    intros entry Hin. by apply elem_of_nil in Hin.
  - cbn [destination_loop]. fold (listed info). case_bool_decide as Hin.
    + exists c, (base // default c (ft_destination info)).
      split; [reflexivity|]. left. exists [], items, info.
      split; [done|]. split; [done|]. split; [|done].
      intros entry Hentry. by apply elem_of_nil in Hentry.
    + destruct IH as (c' & dest & Hrun & Hsel). exists c', dest.
      split; [exact Hrun|].
      destruct Hsel as [(l1 & l2 & info' & -> & Hin' & Hnone & ->)
                       |(-> & Hnone & ->)].
      * left. exists ((c, info) :: l1), l2, info'.
        split; [done|]. split; [done|]. split; [|done].
        intros entry Hentry. apply elem_of_cons in Hentry as [->|Hentry];
          [done|by apply Hnone].
      * right. split; [done|]. split; [|done].
        intros entry Hentry. apply elem_of_cons in Hentry as [->|Hentry];
          [done|by apply Hnone].
Qed.

End Classifier.

Lemma category_count_incr_same (c : string) (st : OrganizationStats) :
  category_count (incr_category c st) c = category_count st c + 1.
Proof.
  unfold category_count at 1. cbn [incr_category categories].
  by rewrite lookup_insert_eq.
Qed.

Lemma category_count_incr_other (c c' : string) (st : OrganizationStats) :
  c <> c' -> category_count (incr_category c st) c' = category_count st c'.
Proof.
  intros Hne. unfold category_count. cbn [incr_category categories].
  by rewrite lookup_insert_ne.
Qed.

End ClassifierFacts.

Import ClassifierFacts.

(** [test_get_destination_for_pdf], [..._image] and [..._unknown_type] of
    the repository's tests. *)
Example test_get_destination :
  fst (_get_destination_for_file test_config ["tmp"; "test.pdf"]
         (world0 empty_fs)) = Return ["tmp"; "storage"; "PDF"] /\
  fst (_get_destination_for_file test_config ["tmp"; "photo.jpg"]
         (world0 empty_fs)) = Return ["tmp"; "storage"; "Images"] /\
  fst (_get_destination_for_file test_config ["tmp"; "unknown.xyz"]
         (world0 empty_fs)) = Return ["tmp"; "storage"; "Other"].
Proof. vm_compute. done. Qed.

(** C2. When the table lists the file's (lower-cased) extension in the
    category [c] and in no category declared before [c], classification
    assigns the file to [c], whatever categories declared after [c] list
    the extension too: it returns the destination of [c] under the base
    destination and counts the file for [c]. *)
Theorem first_category_wins {FS : Type} (config : Config) (file_path : Path)
    (w : World FS) (l1 l2 : list (string * FileTypeInfo)) (c : string)
    (info : FileTypeInfo) :
  file_types config = Some (l1 ++ (c, info) :: l2)%list ->
  PyStr.lower (suffix file_path) ∈ listed info ->
  (forall entry, entry ∈ l1 -> PyStr.lower (suffix file_path) ∉ listed entry.2) ->
  _get_destination_for_file config file_path w =
  (Return (base_destination config // default c (ft_destination info)),
   classified_world c w).
Proof.
  intros Htable Hin Hnone. unfold _get_destination_for_file.
  rewrite Htable. cbn [default]. by apply destination_loop_first.
Qed.

(** [".pdf"] is listed by "documents" and, later, by "pdf": the file goes
    to "documents". *)
Lemma first_category_wins_witness :
  _get_destination_for_file overlap_config ["tmp"; "downloads"; "a.pdf"]
    (world0 empty_fs) =
  (Return ["tmp"; "storage"; "Documents"],
   classified_world "documents" (world0 empty_fs)).
Proof.
  apply (first_category_wins overlap_config ["tmp"; "downloads"; "a.pdf"]
           (world0 empty_fs)
           [ ("images", mkInfo (Some [".jpg"; ".png"]) (Some "Images")) ]
           [ ("pdf", mkInfo (Some [".pdf"]) (Some "PDF")) ]
           "documents" (mkInfo (Some [".pdf"; ".txt"]) (Some "Documents"))).
  - reflexivity.
  - apply (bool_decide_unpack _). vm_compute. exact I.
  - intros entry Hentry. apply list_elem_of_singleton in Hentry as ->.
    apply (bool_decide_unpack _). vm_compute. exact I.
Defined.

(** Classification only looks at the lower-cased extension of the name. *)
Lemma destination_by_lower_name {FS : Type} (config : Config) (p1 p2 : Path)
    (w : World FS) :
  PyStr.lower (name p1) = PyStr.lower (name p2) ->
  _get_destination_for_file config p1 w = _get_destination_for_file config p2 w.
Proof.
  intros E. unfold _get_destination_for_file, suffix.
  by rewrite <- !PathlibFacts.suffix_of_lower, E.
Qed.

(** C3, as stated, fails: the table lists [".PDF"], the file [a.pdf] has
    that extension up to case, and it is sent to the "other" bucket. *)
Lemma case_insensitive_counterexample :
  ~ (forall (config : Config) (file_path : Path) (w : World MemFS.t)
       (l1 l2 : list (string * FileTypeInfo)) (c : string)
       (info : FileTypeInfo) (e : string),
        file_types config = Some (l1 ++ (c, info) :: l2)%list ->
        e ∈ listed info ->
        PyStr.lower (suffix file_path) = PyStr.lower e ->
        (forall entry e', entry ∈ l1 -> e' ∈ listed entry.2 ->
           PyStr.lower (suffix file_path) <> PyStr.lower e') ->
        _get_destination_for_file config file_path w =
        (Return (base_destination config // default c (ft_destination info)),
         classified_world c w)).
Proof.
  intros Hclaim.
  specialize (Hclaim upper_config ["tmp"; "downloads"; "a.pdf"]
                (world0 empty_fs) [] []
                "pdf" (mkInfo (Some [".PDF"]) (Some "PDF")) ".PDF").
  assert (Hrun : fst (_get_destination_for_file upper_config
                        ["tmp"; "downloads"; "a.pdf"] (world0 empty_fs))
                 = Return ["tmp"; "storage"; "Other"])
    by (vm_compute; reflexivity).
  rewrite Hclaim in Hrun.
  - vm_compute in Hrun. discriminate Hrun.
  - reflexivity.
  - apply (bool_decide_unpack _). vm_compute. exact I.
  - vm_compute. reflexivity.
  - intros entry e' Hentry. by apply elem_of_nil in Hentry.
Qed.

(** The loop never selects an entry through an extension that is not
    written in lower case: striking those out of the table changes
    nothing. *)
Lemma destination_loop_lower_case {FS : Type} (config : Config)
    (ext : string) (base : Path) (items : list (string * FileTypeInfo))
    (w : World FS) :
  PyStr.lower ext = ext ->
  destination_loop config ext base items w =
  destination_loop (lower_case_entries config) ext base
    (map (fun entry : string * FileTypeInfo =>
            (entry.1,
             mkInfo
               (filter (fun e : string => PyStr.lower e = e)
                  <$> ft_extensions entry.2)
               (ft_destination entry.2))) items) w.
Proof.
  intros Hlow. induction items as [|[c info] items IH]; [reflexivity|].
  cbn [map destination_loop fst snd ft_extensions ft_destination].
  assert (Hsame : bool_decide (ext ∈ default [] (ft_extensions info)) =
                  bool_decide
                    (ext ∈ default []
                       (filter (fun e : string => PyStr.lower e = e)
                          <$> ft_extensions info))).
  { apply bool_decide_ext. destruct (ft_extensions info) as [l|]; [|done].
    change (ext ∈ l <-> ext ∈ filter (fun e : string => PyStr.lower e = e) l).
    rewrite list_elem_of_filter. tauto. }
  rewrite <- Hsame. case_bool_decide; [reflexivity|apply IH].
Qed.

(** C3, amended.  Two paths whose names differ only in the case of their
    letters (so in particular only in the case of their extension) are
    classified identically.  A file whose extension equals, up to case, an
    extension [e] that the category [c] lists in lower case, and that no
    category declared before [c] lists, is assigned to [c].  The entries of
    the table are compared as they are written, so an entry written with an
    upper-case letter is never matched: classification is the same with
    every such entry struck out of the table. *)
Theorem classification_case_insensitive {FS : Type} (config : Config)
    (w : World FS) :
  (forall p1 p2 : Path,
     PyStr.lower (name p1) = PyStr.lower (name p2) ->
     _get_destination_for_file config p1 w =
     _get_destination_for_file config p2 w) /\
  (forall (file_path : Path) (l1 l2 : list (string * FileTypeInfo))
          (c : string) (info : FileTypeInfo) (e : string),
     file_types config = Some (l1 ++ (c, info) :: l2)%list ->
     e ∈ listed info ->
     PyStr.lower e = e ->
     PyStr.lower (suffix file_path) = PyStr.lower e ->
     (forall entry, entry ∈ l1 -> e ∉ listed entry.2) ->
     _get_destination_for_file config file_path w =
     (Return (base_destination config // default c (ft_destination info)),
      classified_world c w)) /\
  (forall file_path : Path,
     _get_destination_for_file config file_path w =
     _get_destination_for_file (lower_case_entries config) file_path w) /\
  (forall (file_path : Path) (c : string) (info : FileTypeInfo) (e : string),
     (c, info) ∈ default [] (file_types config) ->
     e ∈ listed info ->
     PyStr.lower e <> e ->
     PyStr.lower (suffix file_path) <> e).
Proof.
  split; [|split; [|split]].
  - intros p1 p2. apply destination_by_lower_name.
  - intros file_path l1 l2 c info e Htable Hin Hlow Hext Hnone.
    rewrite Hlow in Hext.
    unfold _get_destination_for_file. rewrite Htable, Hext. cbn [default].
    by apply destination_loop_first.
  - intros file_path. unfold _get_destination_for_file.
    rewrite (destination_loop_lower_case config)
      by apply PyStrFacts.lower_idem.
    cbn [lower_case_entries base_destination file_types].
    by destruct (file_types config).
  - intros file_path c info e _ _ Hup E. apply Hup.
    rewrite <- E. apply PyStrFacts.lower_idem.
Qed.

(** [a.PDF] and [a.pdf] under the tests' configuration: same result, and
    both are assigned to "pdf", which lists [".pdf"]; the entry [".PDF"] of
    [upper_config] is not what the loop looks up for [a.PDF]. *)
Lemma classification_case_insensitive_witness :
  _get_destination_for_file test_config ["tmp"; "downloads"; "a.PDF"]
    (world0 empty_fs) =
  _get_destination_for_file test_config ["tmp"; "downloads"; "a.pdf"]
    (world0 empty_fs) /\
  _get_destination_for_file test_config ["tmp"; "downloads"; "a.PDF"]
    (world0 empty_fs) =
  (Return ["tmp"; "storage"; "PDF"], classified_world "pdf" (world0 empty_fs)) /\
  PyStr.lower (suffix ["tmp"; "downloads"; "a.PDF"]) <> ".PDF".
Proof.
  split; [|split];
    [| |apply (proj2 (proj2 (proj2 (classification_case_insensitive
                                      upper_config (world0 empty_fs))))
                ["tmp"; "downloads"; "a.PDF"] "pdf"
                (mkInfo (Some [".PDF"]) (Some "PDF")) ".PDF");
        [left
        |apply (bool_decide_unpack _); vm_compute; exact I
        |vm_compute; discriminate]].
  - apply (proj1 (classification_case_insensitive test_config
                    (world0 empty_fs))).
    vm_compute. reflexivity.
  - apply (proj1 (proj2 (classification_case_insensitive test_config
                           (world0 empty_fs)))
             ["tmp"; "downloads"; "a.PDF"] []
             [ ("images", mkInfo (Some [".jpg"; ".png"]) (Some "Images")) ]
             "pdf" (mkInfo (Some [".pdf"]) (Some "PDF")) ".pdf").
    + reflexivity.
    + apply (bool_decide_unpack _). vm_compute. exact I.
    + reflexivity.
    + vm_compute. reflexivity.
    + intros entry Hentry. by apply elem_of_nil in Hentry.
Defined.

(** C9, as stated, fails: classifying [test.pdf] under the tests'
    configuration changes the statistics record, the per-category counter
    of "pdf" going from 0 to 1. *)
Lemma classifier_pure_counterexample :
  let w := world0 empty_fs in
  let w' := snd (_get_destination_for_file test_config ["tmp"; "test.pdf"] w) in
  stats w' <> stats w /\
  category_count (stats w) "pdf" = 0 /\
  category_count (stats w') "pdf" = 1.
Proof.
  cbv zeta. split; [|split].
  - intros E. apply (f_equal (fun st => category_count st "pdf")) in E.
    vm_compute in E. discriminate E.
  - vm_compute. reflexivity.
  - vm_compute. reflexivity.
Qed.

(** C9, amended.  Classification is not pure: a call that returns a
    destination has counted the file, adding one to the per-category
    counter of the label it selected.  That label is the one of the first
    category of the table that lists the lower-cased extension, the
    destination being that category's folder, or "other" when no category
    lists it, the destination being the fallback folder.  This is the only
    thing the call writes: the file system, the log, the five scalar
    counters and every other per-category counter are as they were.  (In
    the embedding, where the base destination is stored as resolved, the
    call always returns.) *)
Theorem classifier_frame {FS : Type} (config : Config) (file_path : Path)
    (w : World FS) :
  let ext := PyStr.lower (suffix file_path) in
  let table := default [] (file_types config) in
  exists (c : string) (dest : Path) (w' : World FS),
    _get_destination_for_file config file_path w = (Return dest, w') /\
    ((exists (l1 l2 : list (string * FileTypeInfo)) (info : FileTypeInfo),
        table = (l1 ++ (c, info) :: l2)%list /\
        ext ∈ listed info /\
        (forall entry, entry ∈ l1 -> ext ∉ listed entry.2) /\
        dest = base_destination config // default c (ft_destination info)) \/
     (c = "other" /\
      (forall entry, entry ∈ table -> ext ∉ listed entry.2) /\
      dest = base_destination config //
               default "Other" (other_destination config))) /\
    fs w' = fs w /\
    log w' = log w /\
    files_moved (stats w') = files_moved (stats w) /\
    folders_moved (stats w') = folders_moved (stats w) /\
    errors (stats w') = errors (stats w) /\
    skipped (stats w') = skipped (stats w) /\
    conflicts_resolved (stats w') = conflicts_resolved (stats w) /\
    category_count (stats w') c = category_count (stats w) c + 1 /\
    (forall c' : string, c' <> c ->
       categories (stats w') !! c' = categories (stats w) !! c').
Proof.
  cbv zeta. unfold _get_destination_for_file.
  destruct (destination_loop_selects config
              (PyStr.lower (suffix file_path)) (base_destination config)
              (default [] (file_types config)) w)
    as (c & dest & Hrun & Hsel).
  exists c, dest, (classified_world c w).
  split; [done|]. split; [exact Hsel|]. repeat (split; [reflexivity|]).
  split.
  - apply category_count_incr_same.
  - intros c' Hne. cbn [classified_world stats incr_category categories].
    by rewrite lookup_insert_ne.
Qed.

(** ** The monad *)

Module MonadFacts.

(** A loop whose body always returns runs the body on every element. *)
Lemma for_each_total {S A : Type} (body : A -> M S unit) (l : list A) :
  (forall (x : A) (s : S), fst (body x s) = Return tt) ->
  forall s : S,
    for_each l body s = (Return tt, foldl (fun s' x => snd (body x s')) s l).
Proof.
  intros Hbody. induction l as [|x l IH]; intros s.
  - reflexivity.
  - cbn [for_each foldl]. unfold bind.
    specialize (Hbody x s). destruct (body x s) as [r s'].
    cbn [fst snd] in *. subst r. apply IH.
Qed.

End MonadFacts.

(** ** The mover *)

Module MoverFacts.
Import ResolverFacts ClassifierFacts MonadFacts.

Section Mover.

Context {FS : Type} `{Filesystem FS}.

Variable config : Config.

(** The handler table of [_move_file] has a clause for every exception. *)
Lemma move_file_handler_total (source : Path) (e : exn) (w : World FS) :
  exists h : M (World FS) bool,
    move_file_handler source e = Some h /\
    h w = (Return false, failed_world source e w).
Proof.
  destruct e; eexists; (split; [reflexivity|]); reflexivity.
Qed.

Lemma move_file_unfold (source folder : Path) (dry_run : bool) (w : World FS) :
  _move_file config source folder dry_run w =
  match move_file_body config source folder dry_run w with
  | (Return b, w1) => (Return b, w1)
  | (Raise e, w1) => (Return false, failed_world source e w1)
  | (OutOfFuel, w1) => (OutOfFuel, w1)
  end.
Proof.
  unfold _move_file, try_except.
  destruct (move_file_body config source folder dry_run w) as [[b|e|] w1];
    try reflexivity.
  destruct (move_file_handler_total source e w1) as (h & -> & ->).
  reflexivity.
Qed.

(** The resolver, or the plain join, always answers, and changes nothing
    but the conflict counter. *)
Lemma final_path_returns (source folder : Path) (w : World FS) :
  exists (p : Path) (w1 : World FS),
    final_path config source folder w = (Return p, w1) /\
    fs w1 = fs w /\ log w1 = log w /\
    files_moved (stats w1) = files_moved (stats w) /\
    errors (stats w1) = errors (stats w) /\
    same_bookkeeping (stats w) (stats w1) /\
    (setting config handle_conflicts true = true ->
     path_exists (fs w) p = false) /\
    (setting config handle_conflicts true = false ->
     p = folder // name source).
Proof.
  unfold final_path. destruct (setting config handle_conflicts true).
  - destruct (path_exists (fs w) (folder // name source)) eqn:Hp.
    + destruct (resolve_conflict_taken _ w Hp) as (n & Hrun & Hfree & _).
      eexists _, _. split; [exact Hrun|].
      repeat split; try done.
    + eexists _, _. split; [by apply resolve_conflict_free|].
      repeat split; try done.
  - eexists _, _. split; [reflexivity|]. repeat split; try done.
Qed.

(** The [try] block in dry-run mode, over the interface, whose existence
    test always answers: neither [mkdir] nor [shutil.move] is called. *)
Lemma move_file_body_dry (source folder : Path) (w : World FS) :
  exists (p : Path) (w1 : World FS),
    final_path config source folder w = (Return p, w1) /\
    move_file_body config source folder true w =
    (Return true,
     mkWorld (fs w) (incr_files_moved (stats w1))
       (log w ++ [(INFO, WouldMove (name source) p)])%list).
Proof.
  destruct (final_path_returns source folder w)
    as (p & w1 & Hp & Hfs & Hlog & _).
  exists p, w1. split; [done|].
  unfold move_file_body. fold (final_path config source folder).
  assert (Hpre : (if setting config create_directories true
                  then if negb true then on_fs (mkdir folder) else ret tt
                  else ret tt) w = (Return tt, w)).
  { by destruct (setting config create_directories true). }
  unfold bind at 1. rewrite Hpre.
  unfold bind at 1. rewrite Hp.
  unfold bind, logger, update_stats, modify, ret.
  cbn [fs stats log]. by rewrite Hfs, Hlog.
Qed.

(** The [try] block in either mode: it returns [True] having counted one
    moved file, or it raises having counted nothing. *)
Lemma move_file_body_outcome (source folder : Path) (dry_run : bool)
    (w : World FS) :
  exists w1 : World FS,
    ((move_file_body config source folder dry_run w = (Return true, w1) /\
      files_moved (stats w1) = files_moved (stats w) + 1) \/
     (exists e : exn,
        move_file_body config source folder dry_run w = (Raise e, w1) /\
        files_moved (stats w1) = files_moved (stats w))) /\
    errors (stats w1) = errors (stats w) /\
    same_bookkeeping (stats w) (stats w1).
Proof.
  destruct dry_run.
  { destruct (move_file_body_dry source folder w) as (p & w1 & Hp & Hrun).
    destruct (final_path_returns source folder w)
      as (p' & w1' & Hp' & _ & _ & Hm & He & Hb & _).
    rewrite Hp in Hp'. injection Hp' as <- <-.
    eexists. split; [left; split; [exact Hrun|]|];
      cbn [stats incr_files_moved files_moved errors]; [lia|done]. }
  destruct (move_file_body config source folder false w) as [r wf] eqn:Hbody.
  unfold move_file_body in Hbody. fold (final_path config source folder) in Hbody.
  set (pre := if setting config create_directories true
              then if negb false then on_fs (mkdir folder) else ret tt
              else ret tt) in Hbody.
  assert (Hpre : exists (r : outcome unit) (fs1 : FS),
             pre w = (of_outcome r, mkWorld fs1 (stats w) (log w))).
  { unfold pre. destruct (setting config create_directories true).
    - cbn [negb]. unfold on_fs. destruct (mkdir folder (fs w)) as [r1 fs1].
      by exists r1, fs1.
    - exists (Ok tt), (fs w). by destruct w. }
  destruct Hpre as (r1 & fs1 & Hpre).
  unfold bind at 1 in Hbody. rewrite Hpre in Hbody.
  destruct r1 as [[]|e]; cbn [of_outcome] in Hbody.
  2:{ injection Hbody as <- <-. eexists.
      split; [right; eexists; split; [reflexivity|]|]; cbn [stats]; done. }
  destruct (final_path_returns source folder (mkWorld fs1 (stats w) (log w)))
    as (p & w1 & Hp & Hfs & Hlog & Hm & He & Hb & _).
  cbn [fs stats log] in *.
  unfold bind at 1 in Hbody. rewrite Hp in Hbody.
  unfold bind at 1 in Hbody. unfold bind at 1 in Hbody.
  unfold logger at 1, modify at 1 in Hbody.
  unfold bind at 1 in Hbody. unfold on_fs at 1 in Hbody.
  cbn [fs stats log] in Hbody.
  destruct (shutil_move source p (fs w1)) as [[[]|e] fs2];
    cbn [of_outcome] in Hbody.
  - unfold bind, logger, update_stats, modify, ret in Hbody.
    cbn [fs stats log] in Hbody. injection Hbody as <- <-.
    eexists. split; [left; split; [reflexivity|]|];
      cbn [stats incr_files_moved files_moved errors]; [lia|done].
  - injection Hbody as <- <-. eexists.
    split; [right; eexists; split; [reflexivity|]|]; cbn [stats]; done.
Qed.

(** [_move_file] never raises: it answers [True] or [False]. *)
Lemma move_file_returns (source folder : Path) (dry_run : bool)
    (w : World FS) :
  exists (b : bool) (w' : World FS),
    _move_file config source folder dry_run w = (Return b, w') /\
    files_moved (stats w') =
      files_moved (stats w) + (if b then 1 else 0) /\
    errors (stats w') = errors (stats w) + (if b then 0 else 1) /\
    same_bookkeeping (stats w) (stats w').
Proof.
  rewrite move_file_unfold.
  destruct (move_file_body_outcome source folder dry_run w)
    as (w1 & [[Hrun Hm]|(e & Hrun & Hm)] & He & Hb); rewrite Hrun.
  - exists true, w1. repeat split; try apply Hb; lia.
  - exists false, (failed_world source e w1).
    cbn [failed_world stats incr_errors files_moved errors].
    repeat split; try apply Hb; lia.
Qed.

End Mover.

End MoverFacts.

Module PassFacts.
Import ResolverFacts ClassifierFacts MonadFacts MoverFacts.

Section Pass.

Context {FS : Type} `{Filesystem FS}.

Variable config : Config.

(** The three ways the loop body of [organize_files] treats an entry. *)
Lemma organize_item_cases (dry_run : bool) (item : Path) (w : World FS) :
  (is_file (fs w) item = false /\
   organize_item config dry_run item w = (Return tt, w)) \/
  (is_file (fs w) item = true /\ _should_skip_file config item = true /\
   organize_item config dry_run item w =
   (Return tt,
    mkWorld (fs w) (incr_skipped (stats w))
      (log w ++ [(DEBUG, Skipping (name item))])%list)) \/
  (is_file (fs w) item = true /\ _should_skip_file config item = false /\
   exists (c : string) (dest : Path) (b : bool) (w' : World FS),
     _get_destination_for_file config item w =
       (Return dest, classified_world c w) /\
     _move_file config item dest dry_run (classified_world c w) =
       (Return b, w') /\
     organize_item config dry_run item w = (Return tt, w')).
Proof.
  destruct (organize_item config dry_run item w) as [r wf] eqn:Hrun.
  unfold organize_item, bind at 1, gets in Hrun.
  destruct (is_file (fs w) item) eqn:Hfile.
  2:{ left. split; [done|]. by rewrite <- Hrun. }
  right. destruct (_should_skip_file config item) eqn:Hskip.
  - left. split; [done|]. split; [done|]. by rewrite <- Hrun.
  - right. split; [done|]. split; [done|].
    destruct (destination_loop_returns config
                (PyStr.lower (suffix item)) (base_destination config)
                (default [] (file_types config)) w) as (c & dest & Hcls).
    change (_get_destination_for_file config item w =
            (Return dest, classified_world c w)) in Hcls.
    destruct (move_file_returns config item dest dry_run (classified_world c w))
      as (b & w' & Hmove & _).
    exists c, dest, b, w'. split; [done|]. split; [done|].
    rewrite <- Hrun. unfold bind. by rewrite Hcls, Hmove.
Qed.

Lemma organize_item_returns (dry_run : bool) (item : Path) (w : World FS) :
  fst (organize_item config dry_run item w) = Return tt.
Proof.
  destruct (organize_item_cases dry_run item w)
    as [[_ ->]|[(_ & _ & ->)|(_ & _ & c & dest & b & w' & _ & _ & ->)]];
    reflexivity.
Qed.

(** The pass is the loop body run on every entry of the listing. *)
Lemma organize_files_unfold (dry_run : bool) (w : World FS) :
  organize_files config dry_run w =
  if path_exists (fs w) (source_directory config) then
    (Return tt,
     foldl (fun w1 item => snd (organize_item config dry_run item w1))
       (pass_start config dry_run w)
       (iterdir (fs w) (source_directory config)))
  else
    (Return tt,
     mkWorld (fs w) (stats w)
       (log w ++ [(ERROR, SourceMissing (source_directory config))])%list).
Proof.
  unfold organize_files, bind at 1, gets.
  destruct (path_exists (fs w) (source_directory config)); [|reflexivity].
  cbn [negb]. unfold bind at 1, logger at 1, modify at 1.
  unfold bind at 1.
  assert (Hhead : (if dry_run then logger INFO DryRunMode else ret tt)
                    (mkWorld (fs w) (stats w)
                       (log w ++ [(INFO, Starting (source_directory config))])%list)
                  = (Return tt, pass_start config dry_run w)).
  { unfold pass_start. destruct dry_run.
    - unfold logger, modify. cbn [fs stats log]. by rewrite <- app_assoc.
    - unfold ret. by rewrite app_nil_r. }
  rewrite Hhead. unfold bind at 1, gets.
  rewrite for_each_total by apply organize_item_returns.
  reflexivity.
Qed.

End Pass.

End PassFacts.

Import MoverFacts PassFacts.

(** A live pass over [downloads]: the move of [photo.jpg] is refused, which
    is logged and counted, and [report.pdf], which comes after it in the
    listing, is moved all the same. *)
Example pass_continues_after_failure :
  let (r, w) := organize_files test_config false (world0 downloads) in
  r = Return tt /\
  errors (stats w) = 1 /\ files_moved (stats w) = 1 /\
  log w = [ (INFO, Starting ["tmp"; "downloads"]);
            (INFO, Moving "photo.jpg" ["tmp"; "storage"; "Images"; "photo.jpg"]);
            (ERROR, PermissionDenied "photo.jpg");
            (INFO, Moving "report.pdf" ["tmp"; "storage"; "PDF"; "report.pdf"]);
            (INFO, Moved "report.pdf") ] /\
  is_file (fs w) ["tmp"; "storage"; "PDF"; "report.pdf"] = true /\
  is_file (fs w) ["tmp"; "downloads"; "photo.jpg"] = true.
Proof. vm_compute. done. Qed.

(** C4. Whatever the [try] block of a single-item move does, the move
    returns a boolean and never raises: if the block returns, the move
    returns [True] with one more moved file and the errors counter
    untouched; if the block raises any exception (from creating the
    directory or from the move itself), the exception is caught, one error
    record is logged, the errors counter goes up by exactly one, the moved
    counter stays, and the move returns [False].  So the loop body of the
    files pass always returns, and a pass is its loop body run on every
    entry of the directory listing, in order: no entry is left out because
    an earlier one failed. *)
Theorem move_errors_are_local {FS : Type} `{Filesystem FS} (config : Config) :
  (forall (source folder : Path) (dry_run : bool) (w : World FS),
     match move_file_body config source folder dry_run w with
     | (Return b, w1) =>
         b = true /\
         _move_file config source folder dry_run w = (Return true, w1) /\
         files_moved (stats w1) = files_moved (stats w) + 1 /\
         errors (stats w1) = errors (stats w)
     | (Raise e, w1) =>
         _move_file config source folder dry_run w =
           (Return false, failed_world source e w1) /\
         errors (stats (failed_world source e w1)) = errors (stats w) + 1 /\
         files_moved (stats (failed_world source e w1)) = files_moved (stats w) /\
         log (failed_world source e w1) =
           (log w1 ++ [(ERROR, move_error_message source e)])%list
     | (OutOfFuel, _) => False
     end) /\
  (forall (dry_run : bool) (item : Path) (w : World FS),
     fst (organize_item config dry_run item w) = Return tt) /\
  (forall (dry_run : bool) (w : World FS),
     organize_files config dry_run w =
     if path_exists (fs w) (source_directory config) then
       (Return tt,
        foldl (fun w1 item => snd (organize_item config dry_run item w1))
          (pass_start config dry_run w)
          (iterdir (fs w) (source_directory config)))
     else
       (Return tt,
        mkWorld (fs w) (stats w)
          (log w ++ [(ERROR, SourceMissing (source_directory config))])%list)).
Proof.
  split; [|split].
  - intros source folder dry_run w.
    rewrite move_file_unfold.
    destruct (move_file_body_outcome config source folder dry_run w)
      as (w1 & [[Hrun Hm]|(e & Hrun & Hm)] & He & Hb); rewrite Hrun.
    + done.
    + cbn [failed_world stats log incr_errors errors files_moved].
      repeat split; try done. lia.
  - apply organize_item_returns.
  - apply organize_files_unfold.
Qed.

(** ** Watch mode: the per-item operation *)

Module OrganizeFileFacts.
Import ClassifierFacts MoverFacts.

Lemma bind_ext {S A B : Type} (m : M S A) (k1 k2 : A -> M S B) (s : S) :
  (forall (a : A) (s' : S), k1 a s' = k2 a s') ->
  bind m k1 s = bind m k2 s.
Proof.
  intros Hk. unfold bind. destruct (m s) as [[a| |] s']; [apply Hk|done|done].
Qed.

Lemma bind_ext_l {S A B : Type} (m1 m2 : M S A) (k : A -> M S B) (s : S) :
  m1 s = m2 s -> bind m1 k s = bind m2 k s.
Proof. intros Hm. unfold bind. by rewrite Hm. Qed.

Lemma try_except_ext {S A : Type} (b1 b2 : M S A)
    (h : exn -> option (M S A)) (s : S) :
  b1 s = b2 s -> try_except b1 h s = try_except b2 h s.
Proof. intros Hb. unfold try_except. by rewrite Hb. Qed.

Section Toggle.

Context {FS : Type} `{Filesystem FS}.

Variables (config : Config) (v : option bool).

Lemma setting_set_dry_run_cd (dflt : bool) :
  setting (set_dry_run v config) create_directories dflt =
  setting config create_directories dflt.
Proof. unfold setting. cbn. by destruct (settings config). Qed.

Lemma setting_set_dry_run_hc (dflt : bool) :
  setting (set_dry_run v config) handle_conflicts dflt =
  setting config handle_conflicts dflt.
Proof. unfold setting. cbn. by destruct (settings config). Qed.

Lemma setting_set_dry_run_sh (dflt : bool) :
  setting (set_dry_run v config) skip_hidden_files dflt =
  setting config skip_hidden_files dflt.
Proof. unfold setting. cbn. by destruct (settings config). Qed.

Lemma should_skip_set_dry_run (p : Path) :
  _should_skip_file (set_dry_run v config) p = _should_skip_file config p.
Proof. unfold _should_skip_file. by rewrite setting_set_dry_run_sh. Qed.

Lemma destination_loop_set_dry_run (ext : string) (base : Path)
    (items : list (string * FileTypeInfo)) (w : World FS) :
  destination_loop (set_dry_run v config) ext base items w =
  destination_loop config ext base items w.
Proof.
  induction items as [|[c info] items IH]; [reflexivity|].
  cbn [destination_loop]. case_bool_decide; [reflexivity | apply IH].
Qed.

Lemma get_destination_set_dry_run (p : Path) (w : World FS) :
  _get_destination_for_file (set_dry_run v config) p w =
  _get_destination_for_file config p w.
Proof. apply destination_loop_set_dry_run. Qed.

Lemma move_file_set_dry_run (source folder : Path) (dry : bool)
    (w : World FS) :
  _move_file (set_dry_run v config) source folder dry w =
  _move_file config source folder dry w.
Proof.
  unfold _move_file. apply try_except_ext.
  unfold move_file_body.
  by rewrite setting_set_dry_run_cd, setting_set_dry_run_hc.
Qed.

Lemma organize_file_set_dry_run (p : Path) (w : World FS) :
  _organize_file (set_dry_run v config) p w = _organize_file config p w.
Proof.
  unfold _organize_file. apply bind_ext. intros present w1.
  destruct (negb present); [reflexivity|].
  apply try_except_ext. rewrite should_skip_set_dry_run.
  destruct (_should_skip_file config p); [reflexivity|].
  unfold bind at 1 3. rewrite get_destination_set_dry_run.
  destruct (_get_destination_for_file config p w1) as [[dest| |] w2];
    reflexivity.
Qed.

End Toggle.

End OrganizeFileFacts.

Import OrganizeFileFacts.

(** The tests' configuration with the dry-run toggle switched on: a batch
    run obeys it, the watcher moves the file. *)
Example watch_ignores_toggle :
  let config := set_dry_run (Some true) test_config in
  let file := ["tmp"; "downloads"; "report.pdf"] in
  main_dry_run false config = true /\
  is_file (fs (snd (organize_files config (main_dry_run false config)
                      (world0 downloads)))) file = true /\
  is_file (fs (snd (_organize_file config file (world0 downloads)))) file
  = false /\
  is_file (fs (snd (_organize_file config file (world0 downloads))))
    ["tmp"; "storage"; "PDF"; "report.pdf"] = true.
Proof. vm_compute. done. Qed.

(** C10. The per-item operation of watch mode does not depend on the
    dry-run toggle of the configuration: with any value of the toggle it
    behaves as without.  On a file that exists and is not skipped it
    classifies the file and calls the mover with [dry_run = False], logging
    the mover's answer; otherwise it only logs.  The batch entry point, in
    contrast, runs dry as soon as the toggle (or the command line) says
    so. *)
Theorem watch_mode_moves_live {FS : Type} `{Filesystem FS} (config : Config)
    (file_path : Path) (w : World FS) :
  (forall v : option bool,
     _organize_file (set_dry_run v config) file_path w =
     _organize_file config file_path w) /\
  (if path_exists (fs w) file_path then
     if _should_skip_file config file_path then
       _organize_file config file_path w =
       (Return tt,
        mkWorld (fs w) (stats w)
          (log w ++ [(DEBUG, Skipping (name file_path))])%list)
     else
       exists (c : string) (dest : Path) (b : bool) (w' : World FS),
         _get_destination_for_file config file_path w =
           (Return dest, classified_world c w) /\
         _move_file config file_path dest false (classified_world c w) =
           (Return b, w') /\
         _organize_file config file_path w =
           (Return tt, organized_world file_path b w')
   else
     _organize_file config file_path w =
     (Return tt,
      mkWorld (fs w) (stats w)
        (log w ++ [(WARNING, FileNoLongerExists (name file_path))])%list)) /\
  (forall args : bool,
     main_dry_run args (set_dry_run (Some true) config) = true /\
     main_dry_run args (set_dry_run (Some false) config) = args /\
     main_dry_run args (set_dry_run None config) = args).
Proof.
  split; [|split].
  - intros v. apply organize_file_set_dry_run.
  - destruct (_organize_file config file_path w) as [r wf] eqn:Hrun.
    unfold _organize_file, bind at 1, gets in Hrun.
    destruct (path_exists (fs w) file_path); [|by rewrite <- Hrun].
    cbn [negb] in Hrun.
    destruct (_should_skip_file config file_path); [by rewrite <- Hrun|].
    destruct (destination_loop_returns config
                (PyStr.lower (suffix file_path)) (base_destination config)
                (default [] (file_types config)) w) as (c & dest & Hcls).
    change (_get_destination_for_file config file_path w =
            (Return dest, classified_world c w)) in Hcls.
    destruct (move_file_returns config file_path dest false
                (classified_world c w)) as (b & w' & Hmove & _).
    exists c, dest, b, w'. split; [done|]. split; [done|].
    rewrite <- Hrun. unfold try_except, bind. rewrite Hcls, Hmove.
    by destruct b.
  - intros args. unfold main_dry_run, setting. cbn.
    by destruct args.
Qed.

(** ** Dry runs and live runs of a pass *)

Module DryRunFacts.
Import PathlibFacts ResolverFacts ClassifierFacts MonadFacts MoverFacts PassFacts.

(** The in-memory file system obeys the laws. *)
#[global] Instance MemFS_laws : FilesystemLaws MemFS.t.
Proof.
  split.
  - intros m d. apply NoDup_filter, NoDup_elements.
  - intros m d q Hq. apply list_elem_of_filter in Hq as [[Hne Hpar] _].
    rewrite <- Hpar. symmetry. by apply parent_name.
  - intros m d q Hq. apply list_elem_of_filter in Hq as [_ Hq].
    by apply elem_of_elements in Hq.
  - intros m d q Hq. cbn [mkdir existing is_file MemFS.filesystem] in *.
    unfold MemFS.do_mkdir.
    destruct (decide (d ∈ MemFS.denied m)); [done|].
    destruct (decide (d ∈ dom (MemFS.files m))); [done|].
    cbn [snd]. unfold MemFS.all_paths in *. cbn [MemFS.files MemFS.dirs].
    split; [|done]. apply elem_of_union in Hq as [Hq|Hq].
    + apply elem_of_union. by left.
    + apply elem_of_union. right. apply elem_of_union. by right.
  - intros m s d q Hs Hq Hqs Hqd.
    cbn [shutil_move existing is_file MemFS.filesystem] in *.
    unfold MemFS.do_move.
    destruct (decide (s ∈ MemFS.denied m)); [done|].
    apply bool_decide_eq_true in Hs. apply elem_of_dom in Hs as [size Hs].
    rewrite Hs. cbn [snd]. unfold MemFS.all_paths in *.
    cbn [MemFS.files MemFS.dirs].
    assert (Hdom : q ∈ dom (<[d:=size]> (delete s (MemFS.files m))) <->
                   q ∈ dom (MemFS.files m)).
    { rewrite !elem_of_dom, lookup_insert_ne, lookup_delete_ne by done. done. }
    split.
    + apply elem_of_union in Hq as [Hq|Hq].
      * apply elem_of_union. left. by apply Hdom.
      * apply elem_of_union. by right.
    + apply bool_decide_ext. exact Hdom.
Qed.

Section DryRun.

Context {FS : Type} `{Filesystem FS}.

Variable config : Config.

(** A dry move: nothing can fail, the file system is not touched, the
    final path is computed and logged, one file is counted. *)
Lemma move_file_dry (source folder : Path) (w : World FS) :
  exists (p : Path) (w1 : World FS),
    final_path config source folder w = (Return p, w1) /\
    files_moved (stats w1) = files_moved (stats w) /\
    errors (stats w1) = errors (stats w) /\
    _move_file config source folder true w =
    (Return true,
     mkWorld (fs w) (incr_files_moved (stats w1))
       (log w ++ [(INFO, WouldMove (name source) p)])%list).
Proof.
  destruct (move_file_body_dry config source folder w) as (p & w1 & Hp & Hrun).
  destruct (final_path_returns config source folder w)
    as (p' & w1' & Hp' & _ & _ & Hm & He & _).
  rewrite Hp in Hp'. injection Hp' as <- <-.
  exists p, w1. split; [done|]. split; [done|]. split; [done|].
  by rewrite move_file_unfold, Hrun.
Qed.

(** The loop of a dry files pass. *)
Lemma dry_loop (items : list Path) :
  forall w1 : World FS,
    let w' := foldl (fun w0 item => snd (organize_item config true item w0))
                w1 items in
    fs w' = fs w1 /\
    errors (stats w') = errors (stats w1) /\
    files_moved (stats w') =
      files_moved (stats w1) +
      Z.of_nat (length (to_move config (fs w1) items)).
Proof.
  induction items as [|item items IH]; intros w1.
  { cbn. repeat split; lia. }
  cbn [foldl to_move List.filter]. cbv zeta.
  destruct (organize_item_cases config true item w1)
    as [[Hfile Hrun]|[(Hfile & Hskip & Hrun)|
          (Hfile & Hskip & c & dest & b & w2 & Hcls & Hmove & Hrun)]];
    rewrite Hrun; cbn [snd]; rewrite Hfile; cbn [andb negb].
  - apply IH.
  - rewrite Hskip. cbn [negb].
    destruct (IH (mkWorld (fs w1) (incr_skipped (stats w1))
                    (log w1 ++ [(DEBUG, Skipping (name item))])%list))
      as (Hfs & He & Hm).
    rewrite Hfs, He, Hm. done.
  - rewrite Hskip. cbn [negb length].
    destruct (move_file_dry item dest (classified_world c w1))
      as (p & w1' & _ & Hm1 & He1 & Hdry).
    rewrite Hdry in Hmove. injection Hmove as <- <-.
    destruct (IH (mkWorld (fs w1) (incr_files_moved (stats w1'))
                    (log w1 ++ [(INFO, WouldMove (name item) p)])%list))
      as (Hfs & He & Hm).
    rewrite Hfs, He, Hm. unfold to_move.
    cbn [fs stats classified_world incr_files_moved incr_category errors
           files_moved] in *.
    split; [done|]. split; [done|]. lia.
Qed.

End DryRun.

(** Two different children of a directory: the first is not the place the
    second is moved to. *)
Lemma sibling_not_target (src folder q s : Path) :
  q = src // name q -> s = src // name s -> q <> s ->
  q <> folder // name s.
Proof.
  intros Hq Hs Hne E. apply Hne.
  rewrite Hq in E. unfold joinpath in E.
  apply app_inj_tail in E as [-> E]. rewrite Hq, Hs. by rewrite E.
Qed.

Section LiveRun.

Context {FS : Type} `{FilesystemLaws FS}.

Variable config : Config.

(** A live move of a regular file leaves every other existing path, apart
    from the place the file goes to, existing and of the same kind,
    whether the move succeeds or fails. *)
Lemma move_file_keeps (source folder q : Path) (w : World FS) :
  is_file (fs w) source = true ->
  source ∈ existing (fs w) ->
  q ∈ existing (fs w) ->
  q <> source ->
  q <> folder // name source ->
  q ∈ existing (fs (snd (_move_file config source folder false w))) /\
  is_file (fs (snd (_move_file config source folder false w))) q =
  is_file (fs w) q.
Proof.
  intros Hsrc Hsrc_ex Hq Hqs Hqt.
  rewrite move_file_unfold.
  destruct (move_file_body config source folder false w) as [r wf] eqn:Hbody.
  assert (Hgoal : q ∈ existing (fs wf) /\ is_file (fs wf) q = is_file (fs w) q).
  2:{ by destruct r. }
  unfold move_file_body in Hbody.
  fold (final_path config source folder) in Hbody.
  set (pre := if setting config create_directories true
              then if negb false then on_fs (mkdir folder) else ret tt
              else ret tt) in Hbody.
  assert (Hpre : exists (r1 : outcome unit) (fs1 : FS),
             pre w = (of_outcome r1, mkWorld fs1 (stats w) (log w)) /\
             forall x : Path, x ∈ existing (fs w) ->
               x ∈ existing fs1 /\ is_file fs1 x = is_file (fs w) x).
  { unfold pre. destruct (setting config create_directories true).
    - cbn [negb]. unfold on_fs.
      pose proof (mkdir_keeps (fs w) folder) as Hk.
      destruct (mkdir folder (fs w)) as [r1 fs1].
      exists r1, fs1. split; [done|]. exact Hk.
    - exists (Ok tt), (fs w). split; [by destruct w|]. done. }
  destruct Hpre as (r1 & fs1 & Hpre & Hkeep1).
  unfold bind at 1 in Hbody. rewrite Hpre in Hbody.
  destruct (Hkeep1 q Hq) as [Hq1 Hqf1].
  destruct (Hkeep1 source Hsrc_ex) as [Hs1 Hsf1].
  destruct r1 as [[]|e]; cbn [of_outcome] in Hbody.
  2:{ injection Hbody as <- <-. done. }
  destruct (final_path_returns config source folder
              (mkWorld fs1 (stats w) (log w)))
    as (p & w1 & Hp & Hfs & Hlog & _ & _ & _ & Hon & Hoff).
  cbn [fs stats log] in *.
  assert (Hqp : q <> p).
  { destruct (setting config handle_conflicts true).
    - specialize (Hon eq_refl). apply bool_decide_eq_false in Hon.
      intros ->. done.
    - by rewrite (Hoff eq_refl). }
  unfold bind at 1 in Hbody. rewrite Hp in Hbody.
  unfold bind at 1 in Hbody. unfold bind at 1 in Hbody.
  unfold logger at 1, modify at 1 in Hbody.
  unfold bind at 1 in Hbody. unfold on_fs at 1 in Hbody.
  cbn [fs stats log] in Hbody. rewrite Hfs in Hbody.
  assert (Hsf1' : is_file fs1 source = true) by (by rewrite Hsf1).
  pose proof (move_keeps fs1 source p q Hsf1' Hq1 Hqs Hqp) as [Hq2 Hqf2].
  destruct (shutil_move source p fs1) as [[[]|e] fs2];
    cbn [of_outcome snd] in *.
  - unfold bind, logger, update_stats, modify, ret in Hbody.
    cbn [fs stats log] in Hbody. injection Hbody as <- <-.
    cbn [fs]. by rewrite Hqf2.
  - injection Hbody as <- <-. cbn [fs]. by rewrite Hqf2.
Qed.

(** The loop of a live files pass: every entry handed to the mover ends
    up in the moved counter or in the errors counter. *)
Lemma live_loop (src : Path) (fs0 : FS) (items : list Path) :
  NoDup items ->
  (forall q : Path, q ∈ items -> q = src // name q) ->
  forall w1 : World FS,
    (forall q : Path, q ∈ items ->
       q ∈ existing (fs w1) /\ is_file (fs w1) q = is_file fs0 q) ->
    let w' := foldl (fun w0 item => snd (organize_item config false item w0))
                w1 items in
    files_moved (stats w') + errors (stats w') =
    files_moved (stats w1) + errors (stats w1) +
    Z.of_nat (length (to_move config fs0 items)).
Proof.
  induction items as [|item items IH]; intros Hnd Hchild w1 Hinv.
  { cbn. lia. }
  apply NoDup_cons in Hnd as [Hfresh Hnd].
  assert (Hchild' : forall q : Path, q ∈ items -> q = src // name q).
  { intros q Hq. apply Hchild. by right. }
  destruct (Hinv item) as [Hitem_ex Hitem_file]; [by left|].
  cbn [foldl to_move List.filter]. cbv zeta. rewrite <- Hitem_file.
  destruct (organize_item_cases config false item w1)
    as [[Hfile Hrun]|[(Hfile & Hskip & Hrun)|
          (Hfile & Hskip & c & dest & b & w2 & Hcls & Hmove & Hrun)]];
    rewrite Hrun; cbn [snd]; rewrite Hfile; cbn [andb negb].
  - apply (IH Hnd Hchild'). intros q Hq. apply Hinv. by right.
  - rewrite Hskip. cbn [negb].
    rewrite (IH Hnd Hchild').
    + reflexivity.
    + intros q Hq. cbn [fs]. apply Hinv. by right.
  - rewrite Hskip. cbn [negb length].
    destruct (move_file_returns config item dest false (classified_world c w1))
      as (b' & w2' & Hmove' & Hm & He & _).
    rewrite Hmove in Hmove'. injection Hmove' as <- <-.
    rewrite (IH Hnd Hchild').
    + fold (to_move config fs0 items).
      cbn [classified_world stats incr_category files_moved errors] in Hm, He.
      destruct b; lia.
    + intros q Hq.
      assert (Hne : q <> item) by (intros ->; done).
      destruct (Hinv q) as [Hq_ex Hq_file]; [by right|].
      pose proof (move_file_keeps item dest q (classified_world c w1)) as Hk.
      rewrite Hmove in Hk. cbn [snd classified_world fs] in Hk.
      destruct Hk as [Hk1 Hk2]; try done.
      * apply (sibling_not_target src); [by apply Hchild'| |done].
        apply Hchild. by left.
      * split; [done|]. by rewrite Hk2.
Qed.

End LiveRun.

End DryRunFacts.

Import DryRunFacts.

(** [test_organize_files_dry_run] of the repository's tests: the files
    stay in the downloads directory, nothing is created, two files are
    counted. *)
Example test_organize_files_dry_run :
  let w := snd (organize_files test_config true (world0 downloads)) in
  fs w = downloads /\ files_moved (stats w) = 2 /\ errors (stats w) = 0.
Proof.
  cbv zeta. split; [|split].
  - destruct (dry_loop test_config
                (iterdir downloads (source_directory test_config))
                (pass_start test_config true (world0 downloads)))
      as (Hfs & _).
    rewrite organize_files_unfold.
    replace (path_exists (fs (world0 downloads)) (source_directory test_config))
      with true by (vm_compute; reflexivity).
    exact Hfs.
  - vm_compute. reflexivity.
  - vm_compute. reflexivity.
Qed.




(** ** The compressed-folder predicate *)

Module FolderFacts.

Section Folder.

Context {FS : Type} `{Filesystem FS}.

Variable config : Config.

(** The set collected by the first loop of [_is_compressed_folder]. *)
Lemma elem_of_compressed_exts (e : string) :
  e ∈ compressed_exts config <->
  exists (c : string) (info : FileTypeInfo),
    (c, info) ∈ default [] (file_types config) /\
    PyStr.contains "compressed"
      (PyStr.lower (default "" (ft_destination info))) = true /\
    e ∈ listed info.
Proof.
  unfold compressed_exts.
  set (step := fun (acc : gset string) (entry : string * FileTypeInfo) =>
                 if PyStr.contains "compressed"
                      (PyStr.lower (default "" (ft_destination entry.2)))
                 then acc ∪ list_to_set (default [] (ft_extensions entry.2))
                 else acc).
  assert (Hgen : forall (l : list (string * FileTypeInfo)) (acc : gset string),
            e ∈ foldl step acc l <->
            e ∈ acc \/
            exists (c : string) (info : FileTypeInfo),
              (c, info) ∈ l /\
              PyStr.contains "compressed"
                (PyStr.lower (default "" (ft_destination info))) = true /\
              e ∈ listed info).
  { induction l as [|[c info] l IH]; intros acc.
    - cbn [foldl]. split; [by left|].
      intros [Hacc|(c & info & Hin & _)]; [done|].
      by apply elem_of_nil in Hin.
    - cbn [foldl]. rewrite IH. unfold step at 1. cbn [snd].
      destruct (PyStr.contains "compressed"
                  (PyStr.lower (default "" (ft_destination info)))) eqn:Hc.
      + rewrite elem_of_union, elem_of_list_to_set. split.
        * intros [[Hacc|Hnew]|(c' & info' & Hin & Hc' & He)].
          -- by left.
          -- right. exists c, info. split; [by left|]. done.
          -- right. exists c', info'. split; [by right|]. done.
        * intros [Hacc|(c' & info' & Hin & Hc' & He)]; [by left; left|].
          apply elem_of_cons in Hin as [Hin|Hin].
          -- injection Hin as -> ->. left. by right.
          -- right. by exists c', info'.
      + split.
        * intros [Hacc|(c' & info' & Hin & Hc' & He)]; [by left|].
          right. exists c', info'. split; [by right|]. done.
        * intros [Hacc|(c' & info' & Hin & Hc' & He)]; [by left|].
          apply elem_of_cons in Hin as [Hin|Hin].
          -- injection Hin as -> ->. congruence.
          -- right. by exists c', info'. }
  rewrite Hgen. split.
  - intros [Hempty|Hex]; [by apply not_elem_of_empty in Hempty|done].
  - intros Hex. by right.
Qed.

(** The three ways the loop over the walk ends. *)
Lemma scan_folder_spec (exts : gset string) (fs0 : FS) (t : Traversal) :
  match scan_folder exts fs0 t with
  | Return true =>
      exists item : Path,
        item ∈ yielded t /\ is_file fs0 item = true /\
        PyStr.lower (suffix item) ∈ exts
  | Return false =>
      traversal_error t = None /\
      forall item : Path,
        item ∈ yielded t ->
        ~ (is_file fs0 item = true /\ PyStr.lower (suffix item) ∈ exts)
  | Raise e =>
      traversal_error t = Some e /\
      forall item : Path,
        item ∈ yielded t ->
        ~ (is_file fs0 item = true /\ PyStr.lower (suffix item) ∈ exts)
  | OutOfFuel => False
  end.
Proof.
  induction t as [|item rest IH|e]; cbn [scan_folder yielded traversal_error].
  - split; [done|]. intros item Hin. by apply elem_of_nil in Hin.
  - destruct (is_file fs0 item) eqn:Hfile; cbn [andb].
    + case_bool_decide as Hext.
      * exists item. split; [by left|]. done.
      * destruct (scan_folder exts fs0 rest) as [[]|e|].
        -- destruct IH as (it & Hin & Hf & He). exists it.
           split; [by right|]. done.
        -- destruct IH as [Herr Hnone]. split; [done|].
           intros it Hin. apply elem_of_cons in Hin as [->|Hin].
           ++ intros [_ He]. done.
           ++ by apply Hnone.
        -- destruct IH as [Herr Hnone]. split; [done|].
           intros it Hin. apply elem_of_cons in Hin as [->|Hin].
           ++ intros [_ He]. done.
           ++ by apply Hnone.
        -- done.
    + destruct (scan_folder exts fs0 rest) as [[]|e|].
      * destruct IH as (it & Hin & Hf & He). exists it.
        split; [by right|]. done.
      * destruct IH as [Herr Hnone]. split; [done|].
        intros it Hin. apply elem_of_cons in Hin as [->|Hin].
        -- intros [Hf _]. congruence.
        -- by apply Hnone.
      * destruct IH as [Herr Hnone]. split; [done|].
        intros it Hin. apply elem_of_cons in Hin as [->|Hin].
        -- intros [Hf _]. congruence.
        -- by apply Hnone.
      * done.
  - split; [done|]. intros item Hin. by apply elem_of_nil in Hin.
Qed.

End Folder.

End FolderFacts.

Import FolderFacts.

(** [bundle] contains a zip file; the walk of [vault] is refused, so
    [vault] is reported as not compressed and a warning is logged; a
    folder named like an archive needs no walk. *)
Example compressed_folder_examples :
  fst (_is_compressed_folder archive_config ["tmp"; "downloads"; "bundle"]
         (world0 folders_fs)) = Return true /\
  fst (_is_compressed_folder archive_config ["tmp"; "downloads"; "vault"]
         (world0 folders_fs)) = Return false /\
  log (snd (_is_compressed_folder archive_config ["tmp"; "downloads"; "vault"]
              (world0 folders_fs))) =
  [(WARNING, CouldNotFullyCheck "vault" PermissionError)] /\
  fst (_is_compressed_folder archive_config ["tmp"; "downloads"; "Old.ZIP"]
         (world0 folders_fs)) = Return true.
Proof. vm_compute. done. Qed.

(** C8, as stated, fails.  The compressed category of [literal_config]
    lists [".ZIP"] and [".tar.gz"].  The name of the folder [Old.ZIP] ends
    in the first, the name of [backup.tar.gz] in the second, and [box]
    holds the regular file [data.ZIP], whose extension the category lists:
    the predicate answers [False] on all three, although no walk fails. *)
Lemma compressed_folder_counterexample :
  (names_compressed_folder literal_config ["tmp"; "downloads"; "Old.ZIP"]
     archives_fs /\
   fst (_is_compressed_folder literal_config ["tmp"; "downloads"; "Old.ZIP"]
          (world0 archives_fs)) = Return false) /\
  (names_compressed_folder literal_config
     ["tmp"; "downloads"; "backup.tar.gz"] archives_fs /\
   fst (_is_compressed_folder literal_config
          ["tmp"; "downloads"; "backup.tar.gz"] (world0 archives_fs))
   = Return false) /\
  (names_compressed_folder literal_config ["tmp"; "downloads"; "box"]
     archives_fs /\
   fst (_is_compressed_folder literal_config ["tmp"; "downloads"; "box"]
          (world0 archives_fs)) = Return false) /\
  ~ (forall (config : Config) (folder_path : Path) (w : World MemFS.t),
       traversal_error (rglob (fs w) folder_path) = None ->
       (fst (_is_compressed_folder config folder_path w) = Return true <->
        names_compressed_folder config folder_path (fs w))).
Proof.
  assert (Hzip : names_compressed_folder literal_config
                   ["tmp"; "downloads"; "Old.ZIP"] archives_fs).
  { left. exists ".ZIP". split.
    - apply (bool_decide_unpack _). vm_compute. exact I.
    - vm_compute. reflexivity. }
  assert (Hrun : fst (_is_compressed_folder literal_config
                        ["tmp"; "downloads"; "Old.ZIP"] (world0 archives_fs))
                 = Return false) by (vm_compute; reflexivity).
  split; [exact (conj Hzip Hrun)|]. split; [|split].
  - split; [|vm_compute; reflexivity].
    left. exists ".tar.gz". split.
    + apply (bool_decide_unpack _). vm_compute. exact I.
    + vm_compute. reflexivity.
  - split; [|vm_compute; reflexivity].
    right. exists ["tmp"; "downloads"; "box"; "data.ZIP"].
    split; [|split].
    + apply (bool_decide_unpack _). vm_compute. exact I.
    + vm_compute. reflexivity.
    + apply (bool_decide_unpack _). vm_compute. exact I.
  - intros Hclaim.
    assert (Hwalk : traversal_error
                      (rglob (fs (world0 archives_fs))
                         ["tmp"; "downloads"; "Old.ZIP"]) = None)
      by (vm_compute; reflexivity).
    pose proof (proj2 (Hclaim literal_config ["tmp"; "downloads"; "Old.ZIP"]
                         (world0 archives_fs) Hwalk) Hzip) as Htrue.
    rewrite Htrue in Hrun. discriminate Hrun.
Qed.

(** C8, amended.  The set of compressed extensions is the union of the
    extensions, as the table writes them, of the categories whose
    destination mentions "compressed".  What the predicate tests is
    whether the [pathlib] suffix of a name (what starts at its last dot),
    lower-cased, is literally in that set.  It never gives a false
    positive: it answers [True] only if the folder's own lower-cased suffix
    is in the set or the walk of its contents yielded a regular file whose
    lower-cased suffix is.  When the walk completes without an error, the
    predicate returns, leaves the world as it was, and answers [True]
    exactly in those two cases.  When the walk is interrupted by an
    [OSError] (such as permission denied), the predicate still returns; if
    it had found no match before the error it logs a warning and answers
    [False]. *)
Theorem compressed_folder_spec {FS : Type} `{Filesystem FS} (config : Config)
    (folder_path : Path) (w : World FS) :
  let exts := compressed_exts config in
  let t := rglob (fs w) folder_path in
  let by_name := PyStr.lower (suffix folder_path) ∈ exts in
  let by_content :=
    exists item : Path,
      item ∈ yielded t /\ is_file (fs w) item = true /\
      PyStr.lower (suffix item) ∈ exts in
  (forall e : string,
     e ∈ exts <->
     exists (c : string) (info : FileTypeInfo),
       (c, info) ∈ default [] (file_types config) /\
       PyStr.contains "compressed"
         (PyStr.lower (default "" (ft_destination info))) = true /\
       e ∈ listed info) /\
  (fst (_is_compressed_folder config folder_path w) = Return true ->
   by_name \/ by_content) /\
  (traversal_error t = None ->
   exists b : bool,
     _is_compressed_folder config folder_path w = (Return b, w) /\
     (b = true <-> by_name \/ by_content)) /\
  (forall e : exn,
     traversal_error t = Some e ->
     isinstance e ClsOSError = true ->
     (exists b : bool,
        fst (_is_compressed_folder config folder_path w) = Return b) /\
     (~ by_name -> ~ by_content ->
      _is_compressed_folder config folder_path w =
      (Return false,
       mkWorld (fs w) (stats w)
         (log w ++ [(WARNING, CouldNotFullyCheck (name folder_path) e)])%list))).
Proof.
  cbv zeta.
  pose proof (scan_folder_spec (compressed_exts config) (fs w)
                (rglob (fs w) folder_path)) as Hscan.
  split; [apply elem_of_compressed_exts|].
  destruct (_is_compressed_folder config folder_path w) as [r wf] eqn:Hrun.
  unfold _is_compressed_folder in Hrun.
  case_bool_decide as Hname.
  { injection Hrun as <- <-. split; [by left|]. split.
    - intros _. exists true. split; [done|]. split; [by left|done].
    - intros e _ _. split; [by exists true|]. intros Hno. done. }
  unfold try_except in Hrun.
  destruct (scan_folder (compressed_exts config) (fs w)
              (rglob (fs w) folder_path)) as [[]|e|].
  - injection Hrun as <- <-. split; [by right|]. split.
    + intros _. exists true. split; [done|]. split; [by right|done].
    + intros e _ _. split; [by exists true|]. intros _ Hno. done.
  - injection Hrun as <- <-. destruct Hscan as [Herr Hnone]. split; [done|].
    split.
    + intros _. exists false. split; [done|]. split; [done|].
      intros [Hn|(item & Hin & Hf & He)]; [done|].
      exfalso. by apply (Hnone item Hin).
    + intros e He. congruence.
  - destruct Hscan as [Herr Hnone].
    destruct (isinstance e ClsPermissionError || isinstance e ClsOSError)
      eqn:Hcls.
    + injection Hrun as <- <-. split; [done|]. split; [congruence|].
      intros e' He' _. split; [by exists false|].
      intros _ _. congruence.
    + injection Hrun as <- <-. split; [done|]. split; [congruence|].
      intros e' He' Hos. exfalso.
      assert (e' = e) as -> by congruence.
      rewrite Hos, orb_true_r in Hcls. done.
  - done.
Qed.

(** The theorem at work on [vault], whose walk fails at once with a
    permission error. *)
Lemma compressed_folder_spec_witness :
  _is_compressed_folder archive_config ["tmp"; "downloads"; "vault"]
    (world0 folders_fs) =
  (Return false,
   mkWorld folders_fs OrganizationStats_init
     [(WARNING, CouldNotFullyCheck "vault" PermissionError)]).
Proof.
  assert (Herr : traversal_error
                   (rglob (fs (world0 folders_fs)) ["tmp"; "downloads"; "vault"])
                 = Some PermissionError) by (vm_compute; reflexivity).
  destruct (proj2 (proj2 (proj2
              (compressed_folder_spec archive_config
                 ["tmp"; "downloads"; "vault"] (world0 folders_fs))))
              PermissionError Herr eq_refl) as [_ Hfalse].
  apply Hfalse.
  - apply (bool_decide_unpack _). vm_compute. exact I.
  - intros (item & Hin & _).
    replace (yielded (rglob (fs (world0 folders_fs))
                        ["tmp"; "downloads"; "vault"]))
      with (@nil Path) in Hin by (vm_compute; reflexivity).
    by apply elem_of_nil in Hin.
Defined.

(** ** The watch-mode event handler *)

Module WatcherFacts.
Import ClassifierFacts MoverFacts OrganizeFileFacts.

Section Handler.

Context {FS : Type} `{Filesystem FS}.

(** A method of the organizer leaves [self.processing] alone. *)
Lemma on_organizer_processing {A : Type} (m : M (World FS) A)
    (h : Handler FS) :
  processing (snd (on_organizer m h)) = processing h.
Proof.
  unfold on_organizer, zoom. by destruct (m (organizer h)).
Qed.

(** The guarded block, step by step: the operation starts in a handler
    whose set holds the path; whatever way it ends, the path is discarded
    from the set it leaves. *)
Lemma guarded_run (organize : Path -> M (Handler FS) unit)
    (record : Level * Message) (p : Path) (h : Handler FS) :
  guarded organize record p h =
  let h1 := mkHandler ({[ p ]} ∪ processing h)
              (mkWorld (fs (organizer h)) (stats (organizer h))
                 (log (organizer h) ++ [(record.1, record.2)])%list) in
  match organize p h1 with
  | (OutOfFuel, h2) => (OutOfFuel, h2)
  | (r, h2) => (r, mkHandler (processing h2 ∖ {[ p ]}) (organizer h2))
  end.
Proof.
  unfold guarded, bind at 1, processing_add, modify at 1.
  unfold try_finally, bind, on_organizer, zoom, logger, modify.
  cbn [organizer processing fs stats log]. cbv zeta.
  destruct (organize p _) as [[[]| |] h2]; reflexivity.
Qed.

(** The operation is only ever started with the path in the set: two
    operations that agree on such handlers give the same block. *)
Lemma guarded_cong (organize1 organize2 : Path -> M (Handler FS) unit)
    (record : Level * Message) (p : Path) (h : Handler FS) :
  (forall h0 : Handler FS, p ∈ processing h0 -> organize1 p h0 = organize2 p h0) ->
  guarded organize1 record p h = guarded organize2 record p h.
Proof.
  intros Hagree. rewrite !guarded_run. cbv zeta.
  rewrite Hagree; [done|]. cbn [processing].
  apply elem_of_union. left. by apply elem_of_singleton.
Qed.

(** Once the block has ended, by a return or by a raise, the set is what
    it was before the block. *)
Lemma guarded_preserves (organize : Path -> M (Handler FS) unit)
    (record : Level * Message) (p : Path) (h : Handler FS) :
  (forall (q : Path) (h0 : Handler FS),
     processing (snd (organize q h0)) = processing h0) ->
  p ∉ processing h ->
  fst (guarded organize record p h) <> OutOfFuel ->
  processing (snd (guarded organize record p h)) = processing h.
Proof.
  intros Hframe Hp. rewrite guarded_run. cbv zeta.
  set (h1 := mkHandler ({[ p ]} ∪ processing h) _).
  specialize (Hframe p h1).
  destruct (organize p h1) as [[[]|e|] h2]; cbn [fst snd processing] in *;
    intros Hfuel; try done.
  - rewrite Hframe. unfold h1. cbn [processing].
    apply set_eq. intros x.
    rewrite elem_of_difference, elem_of_union, !elem_of_singleton.
    split; [by intros [[->|Hx] Hne]|].
    intros Hx. split; [by right|]. by intros ->.
  - rewrite Hframe. unfold h1. cbn [processing].
    apply set_eq. intros x.
    rewrite elem_of_difference, elem_of_union, !elem_of_singleton.
    split; [by intros [[->|Hx] Hne]|].
    intros Hx. split; [by right|]. by intros ->.
Qed.

(** [on_created], step by step. *)
Lemma on_created_run (organize : Path -> M (Handler FS) unit) (ev : Event)
    (h : Handler FS) :
  on_created_with organize ev h =
  if is_directory ev then (Return tt, h)
  else if _is_temporary_file (src_path ev) then (Return tt, h)
  else if bool_decide (src_path ev ∈ processing h) then (Return tt, slept h)
  else guarded organize (INFO, NewFileDetected (name (src_path ev)))
         (src_path ev) (slept h).
Proof.
  unfold on_created_with.
  destruct (is_directory ev); [reflexivity|].
  destruct (_is_temporary_file (src_path ev)); [reflexivity|].
  unfold bind at 1. unfold on_organizer at 1, zoom, time_sleep, modify at 1.
  fold (slept h). unfold bind at 1, gets. cbn [slept processing].
  case_bool_decide; reflexivity.
Qed.

(** [_is_file_stable] answers or raises. *)
Lemma is_file_stable_outcome (p : Path) (w : World FS) :
  fst (_is_file_stable p w) <> OutOfFuel.
Proof.
  unfold _is_file_stable, try_except, bind at 1, stat_size at 1.
  destruct (st_size (fs w) p) as [size1|e]; cbn [of_outcome].
  - unfold bind at 1, time_sleep, modify. unfold bind, stat_size.
    cbn [fs]. destruct (st_size (sleep (fs w)) p) as [size2|e];
      cbn [of_outcome].
    + done.
    + by destruct e.
  - by destruct e.
Qed.

(** [_is_file_stable] leaves the statistics alone. *)
Lemma is_file_stable_stats (p : Path) (w : World FS) :
  stats (snd (_is_file_stable p w)) = stats w.
Proof.
  unfold _is_file_stable, try_except, bind at 1, stat_size at 1.
  destruct (st_size (fs w) p) as [size1|e]; cbn [of_outcome].
  - unfold bind at 1, time_sleep, modify. unfold bind, stat_size.
    cbn [fs]. destruct (st_size (sleep (fs w)) p) as [size2|e];
      cbn [of_outcome].
    + done.
    + by destruct e.
  - by destruct e.
Qed.

(** [on_modified], step by step. *)
Lemma on_modified_run (organize : Path -> M (Handler FS) unit) (ev : Event)
    (h : Handler FS) :
  on_modified_with organize ev h =
  if is_directory ev then (Return tt, h)
  else if _is_temporary_file (src_path ev) then (Return tt, h)
  else if negb (path_exists (fs (organizer h)) (src_path ev)) then
    (Return tt, h)
  else
    match _is_file_stable (src_path ev) (organizer h) with
    | (Return true, w1) =>
        if bool_decide (src_path ev ∈ processing h) then
          (Return tt, mkHandler (processing h) w1)
        else guarded organize (DEBUG, FileCompleted (name (src_path ev)))
               (src_path ev) (mkHandler (processing h) w1)
    | (Return false, w1) => (Return tt, mkHandler (processing h) w1)
    | (Raise e, w1) => (Raise e, mkHandler (processing h) w1)
    | (OutOfFuel, w1) => (OutOfFuel, mkHandler (processing h) w1)
    end.
Proof.
  unfold on_modified_with.
  destruct (is_directory ev); [reflexivity|].
  destruct (_is_temporary_file (src_path ev)); [reflexivity|].
  unfold bind at 1, gets.
  destruct (path_exists (fs (organizer h)) (src_path ev)); [|reflexivity].
  cbn [negb]. unfold bind at 1, on_organizer at 1, zoom.
  destruct (_is_file_stable (src_path ev) (organizer h)) as [[[]|e|] w1];
    try reflexivity.
  unfold bind at 1, gets. cbn [processing].
  case_bool_decide; reflexivity.
Qed.

Section Dispatch.

Variable organize : Path -> M (Handler FS) unit.

Hypothesis organize_frame :
  forall (q : Path) (h0 : Handler FS),
    processing (snd (organize q h0)) = processing h0.

Lemma dispatch_preserves (ev : EventKind * Event) (h : Handler FS) :
  fst (dispatch_with organize ev h) <> OutOfFuel ->
  processing (snd (dispatch_with organize ev h)) = processing h.
Proof.
  destruct ev as [[] ev]; unfold dispatch_with; cbn [fst snd].
  - rewrite on_created_run.
    destruct (is_directory ev); [done|].
    destruct (_is_temporary_file (src_path ev)); [done|].
    case_bool_decide as Hbusy; [done|].
    intros Hfuel. by rewrite guarded_preserves.
  - rewrite on_modified_run.
    destruct (is_directory ev); [done|].
    destruct (_is_temporary_file (src_path ev)); [done|].
    destruct (negb (path_exists (fs (organizer h)) (src_path ev))); [done|].
    destruct (_is_file_stable (src_path ev) (organizer h)) as [[[]|e|] w1];
      try done.
    case_bool_decide as Hbusy; [done|].
    intros Hfuel. by rewrite guarded_preserves.
Qed.

Lemma deliver_preserves (evs : list (EventKind * Event)) :
  forall h : Handler FS,
    (forall r : result unit,
       r ∈ fst (deliver_with organize evs h) -> r <> OutOfFuel) ->
    processing (snd (deliver_with organize evs h)) = processing h.
Proof.
  induction evs as [|ev evs IH]; intros h Hfuel; [done|].
  cbn [deliver_with] in *.
  pose proof (dispatch_preserves ev h) as Hstep.
  destruct (dispatch_with organize ev h) as [r h1].
  specialize (IH h1).
  destruct (deliver_with organize evs h1) as [rs h2].
  cbn [fst snd] in *.
  rewrite IH.
  - apply Hstep. apply Hfuel. by left.
  - intros r' Hr'. apply Hfuel. by right.
Qed.

End Dispatch.

(** The callbacks only start the operation with the path in the set. *)
Lemma dispatch_cong (organize1 organize2 : Path -> M (Handler FS) unit)
    (ev : EventKind * Event) (h : Handler FS) :
  (forall (p : Path) (h0 : Handler FS),
     p ∈ processing h0 -> organize1 p h0 = organize2 p h0) ->
  dispatch_with organize1 ev h = dispatch_with organize2 ev h.
Proof.
  intros Hagree. destruct ev as [[] ev]; unfold dispatch_with; cbn [fst snd].
  - rewrite !on_created_run.
    destruct (is_directory ev); [done|].
    destruct (_is_temporary_file (src_path ev)); [done|].
    case_bool_decide; [done|]. apply guarded_cong, Hagree.
  - rewrite !on_modified_run.
    destruct (is_directory ev); [done|].
    destruct (_is_temporary_file (src_path ev)); [done|].
    destruct (negb (path_exists (fs (organizer h)) (src_path ev))); [done|].
    destruct (_is_file_stable (src_path ev) (organizer h)) as [[[]|e|] w1];
      try done.
    case_bool_decide; [done|]. apply guarded_cong, Hagree.
Qed.

Section RealMethod.

Variable config : Config.

(** [_organize_file] always returns: what the mover can raise it has
    already turned into [False], and its own [except] catches the rest. *)
Lemma organize_file_returns (p : Path) (w : World FS) :
  fst (_organize_file config p w) = Return tt.
Proof.
  destruct (_organize_file config p w) as [r wf] eqn:Hrun.
  unfold _organize_file, bind at 1, gets in Hrun.
  destruct (path_exists (fs w) p); [|by injection Hrun as <- <-].
  cbn [negb] in Hrun.
  destruct (_should_skip_file config p); [by injection Hrun as <- <-|].
  destruct (destination_loop_returns config
              (PyStr.lower (suffix p)) (base_destination config)
              (default [] (file_types config)) w) as (c & dest & Hcls).
  change (_get_destination_for_file config p w =
          (Return dest, classified_world c w)) in Hcls.
  destruct (move_file_returns config p dest false (classified_world c w))
    as (b & w' & Hmove & _).
  unfold try_except, bind in Hrun. rewrite Hcls, Hmove in Hrun.
  destruct b; by injection Hrun as <- <-.
Qed.

Lemma organize_method_frame (q : Path) (h0 : Handler FS) :
  processing (snd (organize_method config q h0)) = processing h0.
Proof. apply on_organizer_processing. Qed.

Lemma organize_method_returns (q : Path) (h0 : Handler FS) :
  fst (organize_method config q h0) = Return tt.
Proof.
  unfold organize_method, on_organizer, zoom.
  pose proof (organize_file_returns q (organizer h0)) as Hret.
  by destruct (_organize_file config q (organizer h0)).
Qed.

(** No callback of the watcher reaches the loop bound. *)
Lemma dispatch_outcome (ev : EventKind * Event) (h : Handler FS) :
  fst (dispatch_with (organize_method config) ev h) <> OutOfFuel.
Proof.
  assert (Hg : forall (record : Level * Message) (p : Path) (h0 : Handler FS),
             fst (guarded (organize_method config) record p h0) <> OutOfFuel).
  { intros record p h0. rewrite guarded_run. cbv zeta.
    set (h1 := mkHandler _ _).
    pose proof (organize_method_returns p h1) as Hret.
    destruct (organize_method config p h1) as [r h2].
    cbn [fst] in Hret. by subst r. }
  destruct ev as [[] ev]; unfold dispatch_with; cbn [fst snd].
  - rewrite on_created_run.
    destruct (is_directory ev); [done|].
    destruct (_is_temporary_file (src_path ev)); [done|].
    case_bool_decide; [done|]. apply Hg.
  - rewrite on_modified_run.
    destruct (is_directory ev); [done|].
    destruct (_is_temporary_file (src_path ev)); [done|].
    destruct (negb (path_exists (fs (organizer h)) (src_path ev))); [done|].
    pose proof (is_file_stable_outcome (src_path ev) (organizer h)) as Hst.
    destruct (_is_file_stable (src_path ev) (organizer h)) as [[[]|e|] w1];
      try done.
    case_bool_decide; [done|]. apply Hg.
Qed.

Lemma deliver_outcomes (evs : list (EventKind * Event)) :
  forall (h : Handler FS) (r : result unit),
    r ∈ fst (deliver config evs h) -> r <> OutOfFuel.
Proof.
  unfold deliver.
  induction evs as [|ev evs IH]; intros h r Hr.
  - by apply elem_of_nil in Hr.
  - cbn [deliver_with] in Hr.
    pose proof (dispatch_outcome ev h) as Hstep.
    destruct (dispatch_with (organize_method config) ev h) as [r1 h1].
    specialize (IH h1 r).
    destruct (deliver_with (organize_method config) evs h1) as [rs h2].
    cbn [fst] in *. apply elem_of_cons in Hr as [->|Hr]; [done|].
    by apply IH.
Qed.

End RealMethod.

End Handler.

End WatcherFacts.

Import WatcherFacts.

(** Four deliveries on [watched]: the report is moved by the first one,
    the second finds it gone, the partial download and the directory are
    ignored; the set is empty afterwards.  With an operation that always
    raises, the callback raises and the set is empty all the same. *)
Example watch_burst :
  let (rs, h) := deliver test_config burst (Handler_init (world0 watched)) in
  rs = [Return tt; Return tt; Return tt; Return tt] /\
  elements (processing h) = [] /\
  files_moved (stats (organizer h)) = 1 /\
  log (organizer h) =
  [ (INFO, NewFileDetected "report.pdf");
    (INFO, Moving "report.pdf" ["tmp"; "storage"; "PDF"; "report.pdf"]);
    (INFO, Moved "report.pdf");
    (INFO, Organized "report.pdf");
    (INFO, NewFileDetected "report.pdf");
    (WARNING, FileNoLongerExists "report.pdf") ] /\
  (let (rs', h') := deliver_with failing_method burst
                      (Handler_init (world0 watched)) in
   rs' = [Raise RuntimeError; Raise RuntimeError; Return tt; Return tt] /\
   elements (processing h') = []).
Proof. vm_compute. done. Qed.

(** C6. The callbacks run the per-item operation only in a handler whose
    Processing Set holds the path: the path is added before the operation
    begins.  Once a callback has ended, whether its operation returned or
    raised, the set is what it was before the callback: the path has been
    discarded.  So after any sequence of deliveries to a fresh handler the
    set is empty; for the watcher's own operation [_organize_file] every
    callback of every sequence ends, and the set is empty afterwards. *)
Theorem processing_set_never_leaks {FS : Type} `{Filesystem FS}
    (config : Config) :
  (forall (organize1 organize2 : Path -> M (Handler FS) unit)
          (ev : EventKind * Event) (h : Handler FS),
     (forall (p : Path) (h0 : Handler FS),
        p ∈ processing h0 -> organize1 p h0 = organize2 p h0) ->
     dispatch_with organize1 ev h = dispatch_with organize2 ev h) /\
  (forall organize : Path -> M (Handler FS) unit,
     (forall (q : Path) (h0 : Handler FS),
        processing (snd (organize q h0)) = processing h0) ->
     (forall (ev : EventKind * Event) (h : Handler FS),
        fst (dispatch_with organize ev h) <> OutOfFuel ->
        processing (snd (dispatch_with organize ev h)) = processing h) /\
     (forall (evs : list (EventKind * Event)) (w : World FS),
        (forall r : result unit,
           r ∈ fst (deliver_with organize evs (Handler_init w)) ->
           r <> OutOfFuel) ->
        processing (snd (deliver_with organize evs (Handler_init w))) = ∅)) /\
  (forall (evs : list (EventKind * Event)) (w : World FS),
     (forall r : result unit,
        r ∈ fst (deliver config evs (Handler_init w)) -> r <> OutOfFuel) /\
     processing (snd (deliver config evs (Handler_init w))) = ∅).
Proof.
  split; [|split].
  - apply dispatch_cong.
  - intros organize Hframe. split.
    + intros ev h. by apply dispatch_preserves.
    + intros evs w Hfuel. by rewrite deliver_preserves.
  - intros evs w. split.
    + apply deliver_outcomes.
    + unfold deliver. rewrite deliver_preserves; [done| |].
      * apply organize_method_frame.
      * apply (deliver_outcomes config evs).
Qed.

(** The theorem at work with the operation that always raises. *)
Lemma processing_set_never_leaks_witness :
  processing (snd (deliver_with failing_method burst
                     (Handler_init (world0 watched)))) = ∅.
Proof.
  apply (proj2 (proj1 (proj2 (processing_set_never_leaks test_config))
                  failing_method (fun q h0 => eq_refl))
           burst (world0 watched)).
  intros r Hr.
  replace (fst (deliver_with failing_method burst
                  (Handler_init (world0 watched))))
    with [@Raise unit RuntimeError; Raise RuntimeError; Return tt; Return tt]
    in Hr by (vm_compute; reflexivity).
  intros ->. repeat (apply elem_of_cons in Hr as [Hr|Hr]; [discriminate Hr|]).
  by apply elem_of_nil in Hr.
Defined.

(** * Further properties of the code *)

(** ** What a resolved name keeps of the desired one *)

Module RenameFacts.
Import PyStr PyStrFacts PathlibFacts ResolverFacts.

Lemma rfind_bounds (c : ascii) (s : string) : -1 <= rfind c s < len s.
Proof.
  unfold len. induction s as [|a s IH]; cbn [rfind String.length]; [lia|].
  destruct (Z.leb_spec 0 (rfind c s)); [lia|].
  destruct (Ascii.eqb a c); lia.
Qed.

(** The last occurrence in a concatenation is the last one of the right
    part if there is one, of the left part otherwise. *)
Lemma rfind_app (c : ascii) (s1 s2 : string) :
  rfind c (s1 +:+ s2) =
  if 0 <=? rfind c s2 then len s1 + rfind c s2 else rfind c s1.
Proof.
  unfold len. induction s1 as [|a s1 IH].
  - rewrite app_nil_l. cbn [String.length rfind].
    destruct (Z.leb_spec 0 (rfind c s2)); [lia|].
    pose proof (rfind_bounds c s2). lia.
  - rewrite app_cons. cbn [rfind String.length]. rewrite IH.
    destruct (Z.leb_spec 0 (rfind c s2)).
    + destruct (Z.leb_spec 0 (Z.of_nat (String.length s1) + rfind c s2)); lia.
    + reflexivity.
Qed.

(** What starts at the last occurrence has it in front and nowhere else. *)
Lemma rfind_drop (c : ascii) (s : string) :
  0 <= rfind c s -> rfind c (drop (Z.to_nat (rfind c s)) s) = 0.
Proof.
  induction s as [|a s IH]; cbn [rfind]; [lia|].
  destruct (Z.leb_spec 0 (rfind c s)) as [Hr|Hr].
  - intros _. replace (Z.to_nat (rfind c s + 1)) with (S (Z.to_nat (rfind c s)))
      by lia.
    cbn [drop]. by apply IH.
  - destruct (Ascii.eqb a c) eqn:Hac; [|lia].
    intros _. change (Z.to_nat 0) with 0%nat.
    change (drop 0 (String a s)) with (String a s). cbn [rfind].
    destruct (Z.leb_spec 0 (rfind c s)); [lia|]. by rewrite Hac.
Qed.

Lemma length_drop (n : nat) (s : string) :
  String.length (drop n s) = (String.length s - n)%nat.
Proof.
  revert s; induction n as [|n IH]; intros [|a s]; cbn [drop String.length];
    try lia. by rewrite IH.
Qed.

Lemma drop_app_length (s1 s2 : string) :
  drop (String.length s1) (s1 +:+ s2) = s2.
Proof.
  induction s1 as [|a s1 IH]; [by destruct s2|].
  rewrite app_cons. cbn [String.length drop]. exact IH.
Qed.

(** An extension, put after any non-empty text, is again the extension. *)
Lemma suffix_of_app (x nm : string) :
  has_ext nm = true -> x <> "" ->
  has_ext (x +:+ suffix_of nm) = true /\
  suffix_of (x +:+ suffix_of nm) = suffix_of nm.
Proof.
  intros Hext Hx. unfold suffix_of at 1 3 4. rewrite Hext.
  unfold has_ext in Hext. apply andb_true_iff in Hext as [Hlo Hhi].
  apply Z.ltb_lt in Hlo, Hhi.
  set (sfx := drop (Z.to_nat (rfind "." nm)) nm).
  assert (Hdot : rfind "." sfx = 0) by (apply rfind_drop; lia).
  assert (Hlen : 2 <= len sfx).
  { unfold len, sfx in *. rewrite length_drop. lia. }
  assert (Hxlen : 1 <= len x).
  { unfold len. destruct x; [done|]. cbn [String.length]. lia. }
  assert (Hfind : rfind "." (x +:+ sfx) = len x).
  { rewrite rfind_app, Hdot. cbn. lia. }
  assert (Hhas : has_ext (x +:+ sfx) = true).
  { unfold has_ext. rewrite Hfind. apply andb_true_iff.
    split; apply Z.ltb_lt; [lia|].
    unfold len in *. rewrite length_app. lia. }
  split; [done|].
  unfold suffix_of. rewrite Hhas, Hfind. unfold len.
  rewrite Nat2Z.id. apply drop_app_length.
Qed.

(** A numbered name has the extension of the name it comes from. *)
Lemma suffix_numbered (p : Path) (c : Z) :
  has_ext (name p) = true ->
  suffix (numbered (parent p) (stem p) (suffix p) c) = suffix p.
Proof.
  intros Hext. unfold suffix at 1, numbered. rewrite name_joinpath.
  unfold suffix.
  rewrite <- (app_assoc (stem p) "_" _), <- (app_assoc (stem p +:+ "_") _ _).
  apply suffix_of_app; [done|].
  intros E. apply (f_equal String.length) in E.
  rewrite !length_app in E. cbn in E. lia.
Qed.

End RenameFacts.

Import RenameFacts.

(** X1. The path the conflict resolver returns never exists at the time
    of the call, and it lies in the directory of the desired path: only
    the final name can differ. *)
Theorem resolve_conflict_fresh {FS : Type} `{Filesystem FS}
    (dest_path : Path) (w : World FS) :
  exists (q : Path) (w' : World FS),
    _resolve_conflict dest_path w = (Return q, w') /\
    path_exists (fs w) q = false /\
    (dest_path <> [] -> parent q = parent dest_path).
Proof.
  destruct (path_exists (fs w) dest_path) eqn:Hp.
  - destruct (resolve_conflict_taken dest_path w Hp) as (n & Hrun & Hfree & _).
    eexists _, _. split; [exact Hrun|]. split; [done|].
    intros _. unfold numbered. apply PathlibFacts.parent_joinpath.
  - exists dest_path, w. split; [by apply resolve_conflict_free|]. done.
Qed.

(** X2. When the desired name has an extension, the name the resolver
    returns has the same extension, so the renamed file is classified as
    the original would be. *)
Theorem resolve_conflict_keeps_extension {FS : Type} `{Filesystem FS}
    (dest_path : Path) (w : World FS) :
  has_ext (name dest_path) = true ->
  exists q : Path,
    fst (_resolve_conflict dest_path w) = Return q /\
    suffix q = suffix dest_path /\
    forall (config : Config) (w0 : World FS),
      _get_destination_for_file config q w0 =
      _get_destination_for_file config dest_path w0.
Proof.
  intros Hext.
  assert (Hq : exists q : Path,
             fst (_resolve_conflict dest_path w) = Return q /\
             suffix q = suffix dest_path).
  { destruct (path_exists (fs w) dest_path) eqn:Hp.
    - destruct (resolve_conflict_taken dest_path w Hp) as (n & Hrun & _).
      eexists. rewrite Hrun. split; [reflexivity|].
      by apply suffix_numbered.
    - exists dest_path. by rewrite (resolve_conflict_free dest_path w Hp). }
  destruct Hq as (q & Hrun & Hsfx). exists q. split; [done|]. split; [done|].
  intros config w0. unfold _get_destination_for_file. by rewrite Hsfx.
Qed.

(** On [storage], [test.txt] is taken: the answer [test_1.txt] is again a
    [.txt] file. *)
Lemma resolve_conflict_keeps_extension_witness :
  exists q : Path,
    fst (_resolve_conflict ["tmp"; "storage"; "test.txt"] (world0 storage))
    = Return q /\
    suffix q = suffix ["tmp"; "storage"; "test.txt"] /\
    forall (config : Config) (w0 : World MemFS.t),
      _get_destination_for_file config q w0 =
      _get_destination_for_file config ["tmp"; "storage"; "test.txt"] w0.
Proof.
  apply (resolve_conflict_keeps_extension ["tmp"; "storage"; "test.txt"]
           (world0 storage)).
  vm_compute. reflexivity.
Defined.

(** ** What a live move and a live pass leave in place *)

Module KeepFacts.
Import PathlibFacts ResolverFacts ClassifierFacts MoverFacts PassFacts
  DryRunFacts.

Section Keep.

Context {FS : Type} `{FilesystemLaws FS}.

Variable config : Config.

(** A live move of a regular file spares every other existing path: with
    conflict handling on without condition, with it off unless the path is
    the very place the file goes to. *)
Lemma move_file_spares (source folder q : Path) (w : World FS) :
  is_file (fs w) source = true ->
  source ∈ existing (fs w) ->
  q ∈ existing (fs w) ->
  q <> source ->
  (setting config handle_conflicts true = false ->
   q <> folder // name source) ->
  q ∈ existing (fs (snd (_move_file config source folder false w))) /\
  is_file (fs (snd (_move_file config source folder false w))) q =
  is_file (fs w) q.
Proof.
  intros Hsrc Hsrc_ex Hq Hqs Hqt.
  rewrite move_file_unfold.
  destruct (move_file_body config source folder false w) as [r wf] eqn:Hbody.
  assert (Hgoal : q ∈ existing (fs wf) /\ is_file (fs wf) q = is_file (fs w) q).
  2:{ by destruct r. }
  unfold move_file_body in Hbody.
  fold (final_path config source folder) in Hbody.
  set (pre := if setting config create_directories true
              then if negb false then on_fs (mkdir folder) else ret tt
              else ret tt) in Hbody.
  assert (Hpre : exists (r1 : outcome unit) (fs1 : FS),
             pre w = (of_outcome r1, mkWorld fs1 (stats w) (log w)) /\
             forall x : Path, x ∈ existing (fs w) ->
               x ∈ existing fs1 /\ is_file fs1 x = is_file (fs w) x).
  { unfold pre. destruct (setting config create_directories true).
    - cbn [negb]. unfold on_fs.
      pose proof (mkdir_keeps (fs w) folder) as Hk.
      destruct (mkdir folder (fs w)) as [r1 fs1].
      exists r1, fs1. split; [done|]. exact Hk.
    - exists (Ok tt), (fs w). split; [by destruct w|]. done. }
  destruct Hpre as (r1 & fs1 & Hpre & Hkeep1).
  unfold bind at 1 in Hbody. rewrite Hpre in Hbody.
  destruct (Hkeep1 q Hq) as [Hq1 Hqf1].
  destruct (Hkeep1 source Hsrc_ex) as [Hs1 Hsf1].
  destruct r1 as [[]|e]; cbn [of_outcome] in Hbody.
  2:{ injection Hbody as <- <-. done. }
  destruct (final_path_returns config source folder
              (mkWorld fs1 (stats w) (log w)))
    as (p & w1 & Hp & Hfs & Hlog & _ & _ & _ & Hon & Hoff).
  cbn [fs stats log] in *.
  assert (Hqp : q <> p).
  { destruct (setting config handle_conflicts true).
    - specialize (Hon eq_refl). apply bool_decide_eq_false in Hon.
      intros ->. done.
    - rewrite (Hoff eq_refl). by apply Hqt. }
  unfold bind at 1 in Hbody. rewrite Hp in Hbody.
  unfold bind at 1 in Hbody. unfold bind at 1 in Hbody.
  unfold logger at 1, modify at 1 in Hbody.
  unfold bind at 1 in Hbody. unfold on_fs at 1 in Hbody.
  cbn [fs stats log] in Hbody. rewrite Hfs in Hbody.
  assert (Hsf1' : is_file fs1 source = true) by (by rewrite Hsf1).
  pose proof (move_keeps fs1 source p q Hsf1' Hq1 Hqs Hqp) as [Hq2 Hqf2].
  destruct (shutil_move source p fs1) as [[[]|e] fs2];
    cbn [of_outcome snd] in *.
  - unfold bind, logger, update_stats, modify, ret in Hbody.
    cbn [fs stats log] in Hbody. injection Hbody as <- <-.
    cbn [fs]. by rewrite Hqf2.
  - injection Hbody as <- <-. cbn [fs]. by rewrite Hqf2.
Qed.

(** The loop of a live files pass spares an existing path [q] that it
    does not itself pick up as a file to move. *)
Lemma live_loop_spares (src q : Path) (items : list Path) :
  NoDup items ->
  (forall s : Path, s ∈ items -> s = src // name s) ->
  (q ∈ items -> _should_skip_file config q = true) ->
  (setting config handle_conflicts true = false ->
   forall (s folder : Path), s ∈ items -> s <> q -> q <> folder // name s) ->
  forall w1 : World FS,
    (forall s : Path, s ∈ items -> s ∈ existing (fs w1)) ->
    q ∈ existing (fs w1) ->
    let w' := foldl (fun w0 item => snd (organize_item config false item w0))
                w1 items in
    q ∈ existing (fs w') /\ is_file (fs w') q = is_file (fs w1) q.
Proof.
  induction items as [|item items IH]; intros Hnd Hchild Hskipq Hsafe w1 Hex Hq.
  { cbn. done. }
  apply NoDup_cons in Hnd as [Hfresh Hnd].
  assert (IH' : forall w2 : World FS,
            (forall s : Path, s ∈ items -> s ∈ existing (fs w2)) ->
            q ∈ existing (fs w2) ->
            q ∈ existing
              (fs (foldl (fun w0 it => snd (organize_item config false it w0))
                     w2 items)) /\
            is_file
              (fs (foldl (fun w0 it => snd (organize_item config false it w0))
                     w2 items)) q = is_file (fs w2) q).
  { apply IH; [done| | |].
    - intros s Hs. apply Hchild. by right.
    - intros Hin. apply Hskipq. by right.
    - intros Hoff s folder Hs. apply (Hsafe Hoff). by right. }
  cbn [foldl]. cbv zeta.
  destruct (organize_item_cases config false item w1)
    as [[Hfile Hrun]|[(Hfile & Hskip & Hrun)|
          (Hfile & Hskip & c & dest & b & w2 & Hcls & Hmove & Hrun)]];
    rewrite Hrun; cbn [snd].
  - apply IH'; [|done]. intros s Hs. apply Hex. by right.
  - destruct (IH' (mkWorld (fs w1) (incr_skipped (stats w1))
                     (log w1 ++ [(DEBUG, Skipping (name item))])%list))
      as [Hk1 Hk2]; [|done|done].
    intros s Hs. cbn [fs]. apply Hex. by right.
  - assert (Hne : q <> item).
    { intros ->. rewrite Hskipq in Hskip; [done|by left]. }
    assert (Hitem_ex : item ∈ existing (fs w1)) by (apply Hex; by left).
    assert (Hkeep : forall x : Path,
              x ∈ existing (fs w1) -> x <> item ->
              (setting config handle_conflicts true = false ->
               x <> dest // name item) ->
              x ∈ existing (fs w2) /\ is_file (fs w2) x = is_file (fs w1) x).
    { intros x Hx Hxi Hxt.
      pose proof (move_file_spares item dest x (classified_world c w1)) as Hk.
      rewrite Hmove in Hk. cbn [snd classified_world fs] in Hk.
      by apply Hk. }
    destruct (Hkeep q Hq Hne) as [Hq2 Hqf2].
    { intros Hoff. apply (Hsafe Hoff); [by left|]. by intros ->. }
    destruct (IH' w2) as [Hk1 Hk2]; [|done|].
    + intros s Hs.
      assert (Hsi : s <> item) by (intros ->; done).
      apply Hkeep; [apply Hex; by right|done|].
      intros _. apply (sibling_not_target src); [|apply Hchild; by left|done].
      apply Hchild. by right.
    + split; [done|]. by rewrite Hk2.
Qed.

End Keep.

End KeepFacts.

Import KeepFacts.

(** X3. With conflict handling on, a live move of a regular file
    overwrites and removes nothing: on a file system obeying
    [FilesystemLaws], every other path that existed before the move,
    including a file that already sits at the destination under the same
    name, still exists afterwards and is of the same kind, whether the
    move succeeded or failed. *)
Theorem move_never_overwrites {FS : Type} `{FilesystemLaws FS}
    (config : Config) (source folder q : Path) (w : World FS) :
  setting config handle_conflicts true = true ->
  is_file (fs w) source = true ->
  source ∈ existing (fs w) ->
  q ∈ existing (fs w) ->
  q <> source ->
  q ∈ existing (fs (snd (_move_file config source folder false w))) /\
  is_file (fs (snd (_move_file config source folder false w))) q =
  is_file (fs w) q.
Proof.
  intros Hon Hfile Hsrc Hq Hne.
  apply move_file_spares; [done|done|done|done|].
  intros Hoff. congruence.
Qed.

(** On [mixed], moving the downloaded [report.pdf] into [PDF] leaves the
    [report.pdf] that was already there in place. *)
Lemma move_never_overwrites_witness :
  ["tmp"; "storage"; "PDF"; "report.pdf"]
    ∈ existing (fs (snd (_move_file test_config
                           ["tmp"; "downloads"; "report.pdf"]
                           ["tmp"; "storage"; "PDF"] false (world0 mixed)))) /\
  is_file (fs (snd (_move_file test_config ["tmp"; "downloads"; "report.pdf"]
                      ["tmp"; "storage"; "PDF"] false (world0 mixed))))
    ["tmp"; "storage"; "PDF"; "report.pdf"] =
  is_file (fs (world0 mixed)) ["tmp"; "storage"; "PDF"; "report.pdf"].
Proof.
  apply (move_never_overwrites test_config
           ["tmp"; "downloads"; "report.pdf"] ["tmp"; "storage"; "PDF"]
           ["tmp"; "storage"; "PDF"; "report.pdf"] (world0 mixed)).
  - reflexivity.
  - vm_compute. reflexivity.
  - apply (bool_decide_unpack _). vm_compute. exact I.
  - apply (bool_decide_unpack _). vm_compute. exact I.
  - discriminate.
Defined.

(** X4. With conflict handling on, a live files pass loses nothing that
    is not one of the entries it lists: on a file system obeying
    [FilesystemLaws], every path that existed before the pass and is not an
    entry of the source directory's listing still exists after the pass and
    is of the same kind. *)
Theorem live_pass_spares {FS : Type} `{FilesystemLaws FS}
    (config : Config) (q : Path) (w : World FS) :
  setting config handle_conflicts true = true ->
  q ∈ existing (fs w) ->
  q ∉ iterdir (fs w) (source_directory config) ->
  q ∈ existing (fs (snd (organize_files config false w))) /\
  is_file (fs (snd (organize_files config false w))) q = is_file (fs w) q.
Proof.
  intros Hon Hq Hout. rewrite organize_files_unfold.
  destruct (path_exists (fs w) (source_directory config)); [|done].
  cbn [snd].
  change (is_file (fs w) q) with (is_file (fs (pass_start config false w)) q).
  apply (live_loop_spares config (source_directory config) q
           (iterdir (fs w) (source_directory config))).
  - apply iterdir_NoDup.
  - apply iterdir_child.
  - intros Hin. done.
  - intros Hoff. congruence.
  - intros s Hs. cbn [pass_start fs]. by apply iterdir_existing in Hs.
  - done.
Qed.

(** On [mixed], the [report.pdf] already stored survives the pass. *)
Lemma live_pass_spares_witness :
  ["tmp"; "storage"; "PDF"; "report.pdf"]
    ∈ existing (fs (snd (organize_files test_config false (world0 mixed)))) /\
  is_file (fs (snd (organize_files test_config false (world0 mixed))))
    ["tmp"; "storage"; "PDF"; "report.pdf"] =
  is_file (fs (world0 mixed)) ["tmp"; "storage"; "PDF"; "report.pdf"].
Proof.
  apply (live_pass_spares test_config
           ["tmp"; "storage"; "PDF"; "report.pdf"] (world0 mixed)).
  - reflexivity.
  - apply (bool_decide_unpack _). vm_compute. exact I.
  - apply (bool_decide_unpack _). vm_compute. exact I.
Defined.

(** X5. With [skip_hidden_files] on (the default), a live files pass
    leaves every dot-prefixed entry of the source directory where it is:
    on a file system obeying [FilesystemLaws] the entry still exists after
    the pass and is of the same kind, whether conflict handling is on or
    off and whatever happens to the other entries. *)
Theorem hidden_files_stay {FS : Type} `{FilesystemLaws FS}
    (config : Config) (q : Path) (w : World FS) :
  setting config skip_hidden_files true = true ->
  q ∈ iterdir (fs w) (source_directory config) ->
  PyStr.startswith "." (name q) = true ->
  q ∈ existing (fs (snd (organize_files config false w))) /\
  is_file (fs (snd (organize_files config false w))) q = is_file (fs w) q.
Proof.
  intros Hskip Hin Hdot. rewrite organize_files_unfold.
  destruct (path_exists (fs w) (source_directory config)).
  2:{ cbn [snd fs]. split; [|done]. by apply iterdir_existing in Hin. }
  cbn [snd].
  change (is_file (fs w) q) with (is_file (fs (pass_start config false w)) q).
  apply (live_loop_spares config (source_directory config) q
           (iterdir (fs w) (source_directory config))).
  - apply iterdir_NoDup.
  - apply iterdir_child.
  - intros _. unfold _should_skip_file. by rewrite Hskip, Hdot.
  - intros _ s folder Hs Hne.
    apply (sibling_not_target (source_directory config));
      [by apply iterdir_child in Hin|by apply iterdir_child in Hs|done].
  - intros s Hs. cbn [pass_start fs]. by apply iterdir_existing in Hs.
  - cbn [pass_start fs]. by apply iterdir_existing in Hin.
Qed.

(** On [mixed], [.DS_Store] stays in the downloads directory. *)
Lemma hidden_files_stay_witness :
  ["tmp"; "downloads"; ".DS_Store"]
    ∈ existing (fs (snd (organize_files test_config false (world0 mixed)))) /\
  is_file (fs (snd (organize_files test_config false (world0 mixed))))
    ["tmp"; "downloads"; ".DS_Store"] =
  is_file (fs (world0 mixed)) ["tmp"; "downloads"; ".DS_Store"].
Proof.
  apply (hidden_files_stay test_config ["tmp"; "downloads"; ".DS_Store"]
           (world0 mixed)).
  - reflexivity.
  - apply (bool_decide_unpack _). vm_compute. exact I.
  - reflexivity.
Defined.

(** ** The statistics of a files pass *)

Module AccountFacts.
Import ClassifierFacts MoverFacts PassFacts.

Lemma total_categories_incr (c : string) (st : OrganizationStats) :
  total_categories (incr_category c st) = total_categories st + 1.
Proof.
  unfold total_categories. cbn [incr_category categories].
  unfold category_count.
  assert (Hcomm : forall (m : gmap string Z) (j1 j2 : string) (z1 z2 y : Z),
            j1 <> j2 -> m !! j1 = Some z1 -> m !! j2 = Some z2 ->
            z1 + (z2 + y) = z2 + (z1 + y)) by (intros; lia).
  destruct (categories st !! c) as [v|] eqn:Hc; cbn [default].
  - rewrite <- insert_delete_eq.
    rewrite map_fold_insert_L; [|apply Hcomm|apply lookup_delete_eq].
    rewrite (map_fold_delete_L _ _ c v (categories st));
      [unfold id; lia|apply Hcomm|done].
  - rewrite map_fold_insert_L; [unfold id; lia|apply Hcomm|done].
Qed.

Section Account.

Context {FS : Type} `{Filesystem FS}.

Variable config : Config.

(** The loop body keeps moved + errors - classified, and the folders
    counter. *)
Lemma organize_item_balance (dry_run : bool) (item : Path) (w : World FS) :
  let w' := snd (organize_item config dry_run item w) in
  files_moved (stats w') + errors (stats w') - total_categories (stats w') =
  files_moved (stats w) + errors (stats w) - total_categories (stats w) /\
  folders_moved (stats w') = folders_moved (stats w).
Proof.
  cbv zeta.
  destruct (organize_item_cases config dry_run item w)
    as [[_ ->]|[(_ & _ & ->)|(_ & _ & c & dest & b & w' & _ & Hmove & ->)]];
    cbn [snd].
  - done.
  - done.
  - destruct (move_file_returns config item dest dry_run (classified_world c w))
      as (b' & w2 & Hmove' & Hm & He & Hf & _ & Hcat).
    rewrite Hmove in Hmove'. injection Hmove' as <- <-.
    cbn [classified_world stats incr_category files_moved errors
           folders_moved] in Hm, He, Hf.
    unfold total_categories at 1. rewrite Hcat.
    fold (total_categories (stats (classified_world c w))).
    cbn [classified_world stats]. rewrite total_categories_incr.
    split; [destruct b; lia|done].
Qed.

Lemma organize_loop_balance (dry_run : bool) (items : list Path) :
  forall w1 : World FS,
    let w' := foldl (fun w0 item => snd (organize_item config dry_run item w0))
                w1 items in
    files_moved (stats w') + errors (stats w') - total_categories (stats w') =
    files_moved (stats w1) + errors (stats w1) - total_categories (stats w1) /\
    folders_moved (stats w') = folders_moved (stats w1).
Proof.
  induction items as [|item items IH]; intros w1; [done|].
  cbn [foldl]. cbv zeta.
  destruct (IH (snd (organize_item config dry_run item w1))) as [Hb Hf].
  destruct (organize_item_balance dry_run item w1) as [Hb1 Hf1].
  split; [by rewrite Hb|by rewrite Hf].
Qed.

End Account.

End AccountFacts.

Import AccountFacts.

(** On [downloads], where one of the two moves is refused: two files are
    counted by category, one as moved and one as an error. *)
Example pass_statistics :
  let st := stats (snd (organize_files test_config false (world0 downloads))) in
  total_categories st = 2 /\ files_moved st = 1 /\ errors st = 1.
Proof. vm_compute. done. Qed.

(** X6. Over any files pass, dry or live, on any file system, the
    per-category counters grow together by exactly the number of files
    moved plus the number of errors recorded: a file is counted in its
    category when it is classified, whether its move then succeeds or
    fails.  A files pass never changes the folders counter. *)
Theorem pass_accounts_every_file {FS : Type} `{Filesystem FS}
    (config : Config) (dry_run : bool) (w : World FS) :
  let w' := snd (organize_files config dry_run w) in
  total_categories (stats w') - total_categories (stats w) =
    (files_moved (stats w') - files_moved (stats w)) +
    (errors (stats w') - errors (stats w)) /\
  folders_moved (stats w') = folders_moved (stats w).
Proof.
  cbv zeta. rewrite organize_files_unfold.
  destruct (path_exists (fs w) (source_directory config)); cbn [snd].
  - destruct (organize_loop_balance config dry_run
                (iterdir (fs w) (source_directory config))
                (pass_start config dry_run w)) as [Hb Hf].
    cbn [pass_start stats] in Hb, Hf. split; [lia|done].
  - cbn [stats]. split; [lia|done].
Qed.



(** ** Folders: the mover, the pass, and [run] *)

Module FolderPassFacts.
Import ResolverFacts ClassifierFacts MonadFacts MoverFacts PassFacts
  DryRunFacts FolderFacts.

(** A loop keeps what every run of its body keeps, however it ends. *)
Lemma for_each_invariant {S A : Type} (P : S -> Prop) (body : A -> M S unit)
    (l : list A) :
  (forall (x : A) (s : S), P s -> P (snd (body x s))) ->
  forall s : S, P s -> P (snd (for_each l body s)).
Proof.
  intros Hbody. induction l as [|x l IH]; intros s Hs; [done|].
  cbn [for_each]. unfold bind.
  specialize (Hbody x s Hs). destruct (body x s) as [[[]|e|] s'];
    cbn [snd] in *; [by apply IH|done|done].
Qed.

Lemma for_each_outcome {S A : Type} (body : A -> M S unit) (l : list A) :
  (forall (x : A) (s : S), fst (body x s) <> OutOfFuel) ->
  forall s : S, fst (for_each l body s) <> OutOfFuel.
Proof.
  intros Hbody. induction l as [|x l IH]; intros s; [done|].
  cbn [for_each]. unfold bind.
  specialize (Hbody x s). destruct (body x s) as [[[]|e|] s'];
    cbn [fst] in *; [apply IH|done|done].
Qed.

Section FolderPass.

Context {FS : Type} `{Filesystem FS}.

Variable config : Config.

(** The [try] block of [_move_folder]: it returns [True] having counted
    one folder, or it raises; over the interface, whose existence test
    always answers, only [mkdir] and [shutil.move] raise, and a dry run
    calls neither. *)
Lemma move_folder_body_outcome (source folder : Path) (dry_run : bool)
    (w : World FS) :
  exists w1 : World FS,
    ((move_folder_body config source folder dry_run w = (Return true, w1) /\
      folders_moved (stats w1) = folders_moved (stats w) + 1) \/
     (exists e : exn,
        move_folder_body config source folder dry_run w = (Raise e, w1) /\
        folders_moved (stats w1) = folders_moved (stats w) /\
        dry_run = false)) /\
    errors (stats w1) = errors (stats w) /\
    files_moved (stats w1) = files_moved (stats w) /\
    skipped (stats w1) = skipped (stats w) /\
    categories (stats w1) = categories (stats w) /\
    (dry_run = true -> fs w1 = fs w).
Proof.
  destruct (move_folder_body config source folder dry_run w) as [r wf] eqn:Hbody.
  unfold move_folder_body in Hbody.
  fold (final_path config source folder) in Hbody.
  set (pre := if setting config create_directories true
              then if negb dry_run then on_fs (mkdir folder) else ret tt
              else ret tt) in Hbody.
  assert (Hpre : exists (r1 : outcome unit) (fs1 : FS),
             pre w = (of_outcome r1, mkWorld fs1 (stats w) (log w)) /\
             (dry_run = true -> r1 = Ok tt /\ fs1 = fs w)).
  { unfold pre. destruct (setting config create_directories true).
    - destruct dry_run; cbn [negb].
      + exists (Ok tt), (fs w). split; [by destruct w|done].
      + unfold on_fs. destruct (mkdir folder (fs w)) as [r1 fs1].
        exists r1, fs1. split; [done|]. discriminate.
    - exists (Ok tt), (fs w). split; [by destruct w|done]. }
  destruct Hpre as (r1 & fs1 & Hpre & Hdry1).
  unfold bind at 1 in Hbody. rewrite Hpre in Hbody.
  destruct r1 as [[]|e]; cbn [of_outcome] in Hbody.
  2:{ injection Hbody as <- <-. eexists.
      split; [right; eexists; split; [reflexivity|]|]; cbn [stats fs].
      - split; [done|]. destruct dry_run; [|done].
        by destruct (Hdry1 eq_refl).
      - repeat split; try done. intros Hd. by destruct (Hdry1 Hd). }
  destruct (final_path_returns config source folder
              (mkWorld fs1 (stats w) (log w)))
    as (p & w1 & Hp & Hfs & Hlog & Hm & He & (Hf & Hs & Hc) & _).
  cbn [fs stats log] in *.
  unfold bind at 1 in Hbody. rewrite Hp in Hbody.
  destruct dry_run.
  - unfold bind, logger, update_stats, modify, ret in Hbody.
    cbn [fs stats log] in Hbody. injection Hbody as <- <-.
    eexists. split; [left; split; [reflexivity|]|];
      cbn [stats fs incr_folders_moved folders_moved errors files_moved
             skipped categories].
    + lia.
    + repeat split; try done. intros _. rewrite Hfs.
      by destruct (Hdry1 eq_refl).
  - unfold bind at 1 in Hbody. unfold bind at 1 in Hbody.
    unfold logger at 1, modify at 1 in Hbody.
    unfold bind at 1 in Hbody. unfold on_fs at 1 in Hbody.
    cbn [fs stats log] in Hbody.
    destruct (shutil_move source p (fs w1)) as [[[]|e] fs2];
      cbn [of_outcome] in Hbody.
    + unfold bind, logger, update_stats, modify, ret in Hbody.
      cbn [fs stats log] in Hbody. injection Hbody as <- <-.
      eexists. split; [left; split; [reflexivity|]|];
        cbn [stats fs incr_folders_moved folders_moved errors files_moved
               skipped categories]; [lia|].
      repeat split; try done.
    + injection Hbody as <- <-. eexists.
      split; [right; eexists; split; [reflexivity|]|]; cbn [stats fs];
        [done|]. repeat split; try done.
Qed.

Lemma move_folder_unfold (source folder : Path) (dry_run : bool)
    (w : World FS) :
  _move_folder config source folder dry_run w =
  match move_folder_body config source folder dry_run w with
  | (Return b, w1) => (Return b, w1)
  | (Raise e, w1) =>
      (Return false,
       mkWorld (fs w1) (incr_errors (stats w1))
         (log w1 ++ [(ERROR, ErrorMovingFolder (name source) e)])%list)
  | (OutOfFuel, w1) => (OutOfFuel, w1)
  end.
Proof.
  unfold _move_folder, try_except.
  destruct (move_folder_body config source folder dry_run w)
    as [[b|e|] w1]; reflexivity.
Qed.

(** [_move_folder] never raises, and a dry folder move leaves the file
    system alone (over the interface it also answers [True]). *)
Lemma move_folder_returns (source folder : Path) (dry_run : bool)
    (w : World FS) :
  exists (b : bool) (w' : World FS),
    _move_folder config source folder dry_run w = (Return b, w') /\
    folders_moved (stats w') =
      folders_moved (stats w) + (if b then 1 else 0) /\
    errors (stats w') = errors (stats w) + (if b then 0 else 1) /\
    files_moved (stats w') = files_moved (stats w) /\
    skipped (stats w') = skipped (stats w) /\
    categories (stats w') = categories (stats w) /\
    (dry_run = true -> b = true /\ fs w' = fs w).
Proof.
  rewrite move_folder_unfold.
  destruct (move_folder_body_outcome source folder dry_run w)
    as (w1 & [[Hrun Hf]|(e & Hrun & Hf & Hlive)] & He & Hm & Hs & Hc & Hdry);
    rewrite Hrun.
  - exists true, w1. repeat split; try done; try lia. by apply Hdry.
  - eexists false, _. split; [reflexivity|].
    cbn [stats fs incr_errors folders_moved errors files_moved skipped
           categories].
    repeat split; try done; try lia; congruence.
Qed.

(** The predicate only reads: it leaves the file system and the
    statistics as they are, and logs at most its one warning. *)
Lemma is_compressed_folder_reads (folder : Path) (w : World FS) :
  let rw := _is_compressed_folder config folder w in
  fs (snd rw) = fs w /\ stats (snd rw) = stats w /\
  fst rw <> OutOfFuel /\
  (log (snd rw) = log w \/
   exists e : exn,
     fst rw = Return false /\
     log (snd rw) =
       (log w ++ [(WARNING, CouldNotFullyCheck (name folder) e)])%list).
Proof.
  cbv zeta. unfold _is_compressed_folder.
  case_bool_decide; [by repeat split; try left|].
  unfold try_except.
  pose proof (scan_folder_spec (compressed_exts config) (fs w)
                (rglob (fs w) folder)) as Hscan.
  destruct (scan_folder (compressed_exts config) (fs w) (rglob (fs w) folder))
    as [b|e|]; [by repeat split; try left| |done].
  destruct (isinstance e ClsPermissionError || isinstance e ClsOSError).
  - cbn [fst snd fs stats log]. repeat split; try done. right. by exists e.
  - by repeat split; try left.
Qed.

(** The loop body of the folders pass: it ends, and in a dry run it leaves
    the file system alone. *)
Lemma organize_folder_item_outcome (cdest rdest : Path) (dry_run : bool)
    (item : Path) (w : World FS) :
  let rw := organize_folder_item config cdest rdest dry_run item w in
  fst rw <> OutOfFuel /\ (dry_run = true -> fs (snd rw) = fs w).
Proof.
  cbv zeta.
  destruct (organize_folder_item config cdest rdest dry_run item w)
    as [r wf] eqn:Hrun.
  unfold organize_folder_item, bind at 1, gets in Hrun.
  destruct (is_dir (fs w) item); [|by injection Hrun as <- <-].
  destruct (_should_skip_file config item); [by injection Hrun as <- <-|].
  unfold bind at 1 in Hrun.
  destruct (is_compressed_folder_reads item w) as (Hfs & _ & Hfuel & _).
  destruct (_is_compressed_folder config item w) as [[b|e|] w1];
    cbn [fst snd] in *; [|by injection Hrun as <- <-|done].
  destruct (move_folder_returns item (if b then cdest else rdest) dry_run w1)
    as (b' & w2 & Hmove & _ & _ & _ & _ & _ & Hdry).
  assert (Hrun' : (r, wf) = (Return tt, w2)).
  { rewrite <- Hrun. destruct b; unfold bind; by rewrite Hmove. }
  injection Hrun' as -> ->. cbn [fst snd]. split; [done|].
  intros Hd. destruct (Hdry Hd) as [_ ->]. done.
Qed.

(** The folders pass ends, and in a dry run it leaves the file system
    alone. *)
Lemma organize_folders_outcome (dry_run : bool) (w : World FS) :
  let rw := organize_folders config dry_run w in
  fst rw <> OutOfFuel /\ (dry_run = true -> fs (snd rw) = fs w).
Proof.
  cbv zeta.
  destruct (organize_folders config dry_run w) as [r wf] eqn:Hrun.
  unfold organize_folders in Hrun.
  unfold bind at 1, logger at 1, modify at 1 in Hrun.
  unfold bind at 1, listing in Hrun.
  cbn [fs stats log fst snd] in *.
  destruct (path_exists (fs w) (source_directory config));
    [|by injection Hrun as <- <-].
  set (w0 := mkWorld (fs w) (stats w)
               (log w ++ [(INFO, ProcessingFolders)])%list) in Hrun.
  set (body := organize_folder_item config
                 (base_destination config //
                    default "Compressed Folders"
                      (folders config ≫= compressed_destination))
                 (base_destination config //
                    default "Folders" (folders config ≫= regular_destination))
                 dry_run) in Hrun.
  pose proof (for_each_outcome body
                (iterdir (fs w) (source_directory config))
                (fun x s => proj1 (organize_folder_item_outcome _ _ _ x s)) w0)
    as Hfuel.
  assert (Hbody : forall (x : Path) (s : World FS),
            (dry_run = true -> fs s = fs w) ->
            dry_run = true -> fs (snd (body x s)) = fs w).
  { intros x s Hs Hdry.
    destruct (organize_folder_item_outcome
                (base_destination config //
                   default "Compressed Folders"
                     (folders config ≫= compressed_destination))
                (base_destination config //
                   default "Folders" (folders config ≫= regular_destination))
                dry_run x s) as [_ Hfs].
    unfold body. rewrite Hfs; auto. }
  pose proof (for_each_invariant (fun s => dry_run = true -> fs s = fs w) body
                (iterdir (fs w) (source_directory config)) Hbody w0
                (fun _ => eq_refl)) as Hinv.
  rewrite Hrun in Hfuel, Hinv. cbn [fst snd] in *.
  split; done.
Qed.

(** Over the interface, whose listing and kind tests always answer, the
    files pass returns; in a dry run it leaves the file system alone. *)
Lemma organize_files_outcome (dry_run : bool) (w : World FS) :
  fst (organize_files config dry_run w) = Return tt /\
  (dry_run = true -> fs (snd (organize_files config dry_run w)) = fs w).
Proof.
  rewrite organize_files_unfold.
  destruct (path_exists (fs w) (source_directory config)); [|done].
  split; [done|]. intros ->. cbn [snd].
  destruct (dry_loop config (iterdir (fs w) (source_directory config))
              (pass_start config true w)) as [Hfs _].
  exact Hfs.
Qed.

(** [run], step by step. *)
Lemma run_unfold (include_folders dry_run : bool) (w : World FS) :
  run config include_folders dry_run w =
  let w1 := snd (organize_files config dry_run w) in
  match (if include_folders then organize_folders config dry_run
         else ret tt) w1 with
  | (Return _, w2) =>
      (Return tt,
       mkWorld (fs w2) (stats w2) (log w2 ++ [(INFO, Completed)])%list)
  | (Raise e, w2) =>
      (Return tt,
       mkWorld (fs w2) (stats w2) (log w2 ++ [(ERROR, FatalError e)])%list)
  | (OutOfFuel, w2) => (OutOfFuel, w2)
  end.
Proof.
  cbv zeta. unfold run, try_except. unfold bind at 1.
  destruct (organize_files_outcome dry_run w) as [Hret _].
  destruct (organize_files config dry_run w) as [r w1].
  cbn [fst snd] in *. subst r. unfold bind at 1.
  destruct ((if include_folders then organize_folders config dry_run
             else ret tt) w1) as [[[]|e|] w2]; reflexivity.
Qed.

End FolderPass.

End FolderPassFacts.

Import FolderPassFacts.



(** X10. When the source directory does not exist, a run without the
    folders pass logs the missing directory and then reports completion;
    a run with the folders pass logs the missing directory and then a
    fatal error, because the folders pass lists the directory without
    checking it.  In both cases the file system and the statistics are
    left as they were. *)
Theorem run_without_source {FS : Type} `{Filesystem FS} (config : Config)
    (include_folders dry_run : bool) (w : World FS) :
  path_exists (fs w) (source_directory config) = false ->
  run config include_folders dry_run w =
  (Return tt,
   mkWorld (fs w) (stats w)
     (log w ++
      (ERROR, SourceMissing (source_directory config)) ::
      (if include_folders
       then [(INFO, ProcessingFolders); (ERROR, FatalError OSError)]
       else [(INFO, Completed)]))%list).
Proof.
  intros Hmissing. rewrite run_unfold. cbv zeta.
  rewrite organize_files_unfold, Hmissing. cbn [snd].
  destruct include_folders.
  - unfold organize_folders.
    unfold bind at 1, logger at 1, modify at 1. unfold bind at 1, listing.
    cbn [fs stats log]. rewrite Hmissing. cbn [fs stats log].
    by rewrite <- !app_assoc.
  - unfold ret. cbn [fs stats log]. by rewrite <- !app_assoc.
Qed.

(** An empty file system has no downloads directory. *)
Lemma run_without_source_witness :
  run test_config true false (world0 empty_fs) =
  (Return tt,
   mkWorld empty_fs OrganizationStats_init
     [ (ERROR, SourceMissing ["tmp"; "downloads"]);
       (INFO, ProcessingFolders); (ERROR, FatalError OSError) ]).
Proof.
  apply (run_without_source test_config true false (world0 empty_fs)).
  vm_compute. reflexivity.
Defined.

(** X11. A dry run changes nothing on the file system, with or without
    the folders pass, and even when the run ends with a fatal error. *)
Theorem dry_run_touches_nothing {FS : Type} `{Filesystem FS}
    (config : Config) (include_folders : bool) (w : World FS) :
  fs (snd (run config include_folders true w)) = fs w.
Proof.
  rewrite run_unfold. cbv zeta.
  destruct (organize_files_outcome config true w) as [_ Hfiles].
  specialize (Hfiles eq_refl).
  set (w1 := snd (organize_files config true w)) in *.
  destruct include_folders.
  - destruct (organize_folders_outcome config true w1) as [_ Hfolders].
    specialize (Hfolders eq_refl).
    destruct (organize_folders config true w1) as [[[]|e|] w2];
      cbn [snd fs] in *; congruence.
  - unfold ret. cbn [snd fs]. done.
Qed.

(** ** The filters of the watcher *)

Module FilterFacts.
Import PyStr PyStrFacts PathlibFacts WatcherFacts.

Lemma lower_ascii_tilde (c : ascii) :
  Ascii.eqb "~" (lower_ascii c) = Ascii.eqb "~" c.
Proof. destruct c as [[] [] [] [] [] [] [] []]; reflexivity. Qed.

Lemma lower_ascii_dot_l (c : ascii) :
  Ascii.eqb "." (lower_ascii c) = Ascii.eqb "." c.
Proof. destruct c as [[] [] [] [] [] [] [] []]; reflexivity. Qed.

Lemma startswith_dot_lower (s : string) :
  startswith "." (lower s) = startswith "." s.
Proof.
  destruct s as [|c s]; [done|].
  destruct c as [[] [] [] [] [] [] [] []]; reflexivity.
Qed.

Lemma startswith_tilde_lower (s : string) :
  startswith "~" (lower s) = startswith "~" s.
Proof.
  destruct s as [|c s]; [done|].
  destruct c as [[] [] [] [] [] [] [] []]; reflexivity.
Qed.

(** X14. The temporary-file filter of the watcher does not depend on the
    case of the letters of the name: two paths whose names are equal up to
    case are both temporary or both not. *)
Lemma is_temporary_file_lower (p1 p2 : Path) :
  lower (name p1) = lower (name p2) ->
  _is_temporary_file p1 = _is_temporary_file p2.
Proof.
  intros E. unfold _is_temporary_file, suffix, temp_prefixes.
  rewrite <- !suffix_of_lower, E. cbn [existsb].
  rewrite <- (startswith_tilde_lower (name p1)),
    <- (startswith_dot_lower (name p1)), E,
    startswith_tilde_lower, startswith_dot_lower.
  reflexivity.
Qed.

(** What the filter lets through is not a hidden file. *)
Lemma not_temporary_not_hidden (p : Path) :
  _is_temporary_file p = false -> startswith "." (name p) = false.
Proof.
  unfold _is_temporary_file, temp_prefixes. cbn [existsb].
  case_bool_decide; [done|].
  destruct (startswith "~" (name p)); [done|].
  destruct (startswith "." (name p)); done.
Qed.

Section Filter.

Context {FS : Type} `{Filesystem FS}.

(** A filtered event is no event at all for the handler. *)
Lemma dispatch_filtered (organize : Path -> M (Handler FS) unit)
    (kind : EventKind) (ev : Event) (h : Handler FS) :
  is_directory ev = true \/ _is_temporary_file (src_path ev) = true ->
  dispatch_with organize (kind, ev) h = (Return tt, h).
Proof.
  intros Hfilter. unfold dispatch_with. cbn [fst snd].
  destruct kind; [rewrite on_created_run|rewrite on_modified_run];
    destruct (is_directory ev); try done;
    destruct Hfilter as [Hd|Ht]; try done; by rewrite Ht.
Qed.

End Filter.

End FilterFacts.

Import FilterFacts.

(** [MOVIE.PART] is filtered like [movie.part]. *)
Lemma is_temporary_file_lower_witness :
  _is_temporary_file ["tmp"; "downloads"; "MOVIE.PART"] =
  _is_temporary_file ["tmp"; "downloads"; "movie.part"].
Proof.
  apply (is_temporary_file_lower ["tmp"; "downloads"; "MOVIE.PART"]
           ["tmp"; "downloads"; "movie.part"]).
  reflexivity.
Defined.

(** X12. The watcher ignores an event altogether, leaving the handler, the
    statistics, the log and the file system exactly as they were and
    without waiting, when the event is about a directory, or when the
    path's (lower-cased) extension is one of [.crdownload], [.tmp],
    [.part], [.download], or when its name starts with [~] or with a dot.
    This holds for creation and modification events alike. *)
Theorem watcher_ignores_partial_downloads {FS : Type} `{Filesystem FS}
    (organize : Path -> M (Handler FS) unit) (kind : EventKind) (ev : Event)
    (h : Handler FS) :
  is_directory ev = true \/
  PyStr.lower (suffix (src_path ev)) ∈ temp_extensions \/
  PyStr.startswith "~" (name (src_path ev)) = true \/
  PyStr.startswith "." (name (src_path ev)) = true ->
  dispatch_with organize (kind, ev) h = (Return tt, h).
Proof.
  intros Hcase. apply dispatch_filtered.
  destruct Hcase as [Hd|Hcase]; [by left|]. right.
  unfold _is_temporary_file, temp_prefixes. cbn [existsb].
  destruct Hcase as [He|[Ht|Hdot]].
  - by rewrite bool_decide_eq_true_2.
  - case_bool_decide; [done|]. by rewrite Ht.
  - case_bool_decide; [done|]. rewrite Hdot.
    by destruct (PyStr.startswith "~" (name (src_path ev))).
Qed.

(** A modification event for [movie.part] on [watched]. *)
Lemma watcher_ignores_partial_downloads_witness :
  dispatch_with failing_method
    (Modified, mkEvent false ["tmp"; "downloads"; "movie.part"])
    (Handler_init (world0 watched)) =
  (Return tt, Handler_init (world0 watched)).
Proof.
  apply (watcher_ignores_partial_downloads failing_method Modified
           (mkEvent false ["tmp"; "downloads"; "movie.part"])
           (Handler_init (world0 watched))).
  right. left. apply (bool_decide_unpack _). vm_compute. exact I.
Defined.

(** X13. Whatever passes the watcher's filter is not a hidden file, so
    the organizer's skip rule never applies to a path the watcher hands
    to the per-item operation: in watch mode dot-files are dropped by the
    filter, whatever [skip_hidden_files] says. *)
Theorem watch_mode_never_skips (config : Config) (file_path : Path) :
  _is_temporary_file file_path = false ->
  _should_skip_file config file_path = false.
Proof.
  intros Hpass. unfold _should_skip_file.
  rewrite (not_temporary_not_hidden file_path Hpass).
  apply andb_false_r.
Qed.

(** [report.pdf] passes the filter. *)
Lemma watch_mode_never_skips_witness :
  _should_skip_file test_config ["tmp"; "downloads"; "report.pdf"] = false.
Proof.
  apply (watch_mode_never_skips test_config
           ["tmp"; "downloads"; "report.pdf"]).
  vm_compute. reflexivity.
Defined.


(** X16. A modification event never starts the per-item operation for a
    file that is not stable (one that is empty, still changing, or whose
    size cannot be read): whatever the operation is, the callback does the
    same, and it leaves the Processing Set and the statistics as they
    were. *)
Theorem on_modified_waits_for_stability {FS : Type} `{Filesystem FS}
    (organize1 organize2 : Path -> M (Handler FS) unit) (ev : Event)
    (h : Handler FS) :
  fst (_is_file_stable (src_path ev) (organizer h)) <> Return true ->
  on_modified_with organize1 ev h = on_modified_with organize2 ev h /\
  processing (snd (on_modified_with organize1 ev h)) = processing h /\
  stats (organizer (snd (on_modified_with organize1 ev h))) =
  stats (organizer h).
Proof.
  intros Hunstable. rewrite !on_modified_run.
  destruct (is_directory ev); [done|].
  destruct (_is_temporary_file (src_path ev)); [done|].
  destruct (negb (path_exists (fs (organizer h)) (src_path ev))); [done|].
  destruct (_is_file_stable (src_path ev) (organizer h)) as [r w1] eqn:Hrun.
  assert (Hstats : stats w1 = stats (organizer h)).
  { pose proof (is_file_stable_stats (src_path ev) (organizer h)) as Hs.
    by rewrite Hrun in Hs. }
  cbn [fst] in Hunstable. destruct r as [[]|e|]; done.
Qed.

(** An empty file on a file system where it was just created. *)
Lemma on_modified_waits_for_stability_witness :
  on_modified_with failing_method
    (mkEvent false ["tmp"; "downloads"; "empty.txt"])
    (Handler_init (world0 fresh_download)) =
  on_modified_with organize_idle
    (mkEvent false ["tmp"; "downloads"; "empty.txt"])
    (Handler_init (world0 fresh_download)) /\
  processing (snd (on_modified_with failing_method
                     (mkEvent false ["tmp"; "downloads"; "empty.txt"])
                     (Handler_init (world0 fresh_download)))) = ∅ /\
  stats (organizer (snd (on_modified_with failing_method
                           (mkEvent false ["tmp"; "downloads"; "empty.txt"])
                           (Handler_init (world0 fresh_download))))) =
  OrganizationStats_init.
Proof.
  apply (on_modified_waits_for_stability failing_method organize_idle
           (mkEvent false ["tmp"; "downloads"; "empty.txt"])
           (Handler_init (world0 fresh_download))).
  vm_compute. discriminate.
Defined.
